(** * The Monday.com MCP gateway: rate budget, response cache and dispatch

    A shallow embedding of [examples/python/monday_server.py]
    (class [MondayMCPServer]) and the properties of its gateway core.

    Conventions of the embedding.
    - A Python value that travels as JSON is a [json] term.  Numbers are the
      integers (every id the server handles is one); float leaves are not
      represented.
    - A Python exception is an [exn]; a computation that may raise returns
      [result A = exn + A].
    - [time.time()] yields a float in the source.  A clock reading is taken
      here as the exact rational it denotes ([Q]); rounding is not modelled.
    - A method is a state transformer on a [world]: the server object, the
      number of clock readings taken so far, and a log of the limiter calls
      and POSTs made.  The log has no counterpart in the source; it is
      there to count calls.
    - What the environment supplies is a parameter of the development: the
      clock, the upstream's answers, and the library functions the server
      calls ([json.dumps], [json.loads], [isoformat], [str] of containers,
      [str.lower]).  The text of a GraphQL document is kept as the name of
      its template together with the values interpolated into it.
    - The coroutines of the class run on one event loop and can only be
      suspended at the upstream POST.  The two limiter operations contain no
      suspension point and are studied under arbitrary sequences; a handler
      is studied as one run, without other requests interleaved at its POST.
    - The attributes [name], [version], [api_url] and [api_token] are
      constants read only by the POST and by [listen]; they are left out. *)

From Stdlib Require Import ZArith QArith Lqa String List Lia.
From stdpp Require Import gmap strings pretty.
Import ListNotations.

Local Open Scope string_scope.
Local Open Scope Z_scope.
Local Set Warnings "-register-all".

(** ** Python values and exceptions *)

Inductive json : Type :=
| JNull                                  (* None / null *)
| JBool (b : bool)
| JNum (n : Z)
| JStr (s : string)
| JList (l : list json)
| JObj (d : list (string * json)).       (* a dict with string keys *)

(** The exceptions that can leave a method of the server.  The built-in
    classes are the ones the interpreter raises on a bad subscript, a bad
    membership test or a missing attribute; [LibraryError] stands for
    whatever [aiohttp] or the [json] module raises (an instance of a class
    of theirs, never the [ValueError] objects built in this file). *)
Inductive exn : Type :=
| ValueError (msg : string)
| KeyError (key : json)
| IndexError
| TypeError
| AttributeError
| LibraryError (cls msg : string).

Definition result (A : Type) : Type := (exn + A)%type.

(** What the environment answers to one POST: the call raises (connection
    failure, body that is not JSON, ...) or [response.json()] yields a value. *)
Inductive outcome : Type :=
| Raises (cls msg : string)
| Responds (body : json).

(** The operations of the interpreter that the server applies to values it
    has not checked. *)
Module Py.

(** [d[k]] on the bindings of a dict; the first binding of a key is the
    one a dict would hold. *)
Fixpoint assoc (k : string) (d : list (string * json)) : option json :=
  match d with
  | [] => None
  | (k', v) :: d' => if String.eqb k k' then Some v else assoc k d'
  end.

(** [v[k]] for a string [k]: a dict answers or raises [KeyError]; lists
    and strings want integer indices, the other values are not
    subscriptable. *)
Definition subscript (v : json) (k : string) : result json :=
  match v with
  | JObj d => match assoc k d with
              | Some x => inr x
              | None => inl (KeyError (JStr k))
              end
  | _ => inl TypeError
  end.

(** [v[0]]. *)
Definition item0 (v : json) : result json :=
  match v with
  | JList (x :: _) => inr x
  | JList [] => inl IndexError
  | JStr (String c _) => inr (JStr (String c EmptyString))
  | JStr EmptyString => inl IndexError
  | JObj _ => inl (KeyError (JNum 0))
  | _ => inl TypeError
  end.

(** [v.get(k)] and [v.get(k, default)]: only a dict has the method. *)
Definition get (v : json) (k : string) (default : json) : result json :=
  match v with
  | JObj d => inr (match assoc k d with Some x => x | None => default end)
  | _ => inl AttributeError
  end.

Definition is_str (k : string) (v : json) : bool :=
  match v with JStr s => String.eqb s k | _ => false end.

(** [k in v] for a string [k]: key of a dict, element of a list,
    substring of a string; the other values are not iterable. *)
Definition contains (k : string) (v : json) : result bool :=
  match v with
  | JObj d => inr (match assoc k d with Some _ => true | None => false end)
  | JList l => inr (existsb (is_str k) l)
  | JStr s => inr (match String.index 0 k s with Some _ => true | None => false end)
  | _ => inl TypeError
  end.

(** Truth value of [v] in a condition. *)
Definition truthy (v : json) : bool :=
  match v with
  | JNull => false
  | JBool b => b
  | JNum n => negb (n =? 0)
  | JStr s => negb (String.eqb s "")
  | JList l => match l with [] => false | _ => true end
  | JObj d => match d with [] => false | _ => true end
  end.

(** What [for x in v] enumerates. *)
Fixpoint chars (s : string) : list json :=
  match s with
  | EmptyString => []
  | String c s' => JStr (String c EmptyString) :: chars s'
  end.

Definition iter (v : json) : result (list json) :=
  match v with
  | JList l => inr l
  | JObj d => inr (map (fun kv => JStr (fst kv)) d)
  | JStr s => inr (chars s)
  | _ => inl TypeError
  end.

(** A value used as a dict key.  Lists and dicts are unhashable; [True]
    and [1] (and [False] and [0]) are one key. *)
Inductive key : Type :=
| KNone
| KNum (n : Z)
| KStr (s : string).

Definition hash (v : json) : result key :=
  match v with
  | JNull => inr KNone
  | JBool b => inr (KNum (Z.b2z b))
  | JNum n => inr (KNum n)
  | JStr s => inr (KStr s)
  | _ => inl TypeError
  end.

#[export] Instance key_eq_dec : EqDecision key.
Proof. solve_decision. Defined.

Definition key_enc (k : key) : option (Z + string) :=
  match k with
  | KNone => None
  | KNum n => Some (inl n)
  | KStr s => Some (inr s)
  end.

Definition key_dec (x : option (Z + string)) : key :=
  match x with
  | None => KNone
  | Some (inl n) => KNum n
  | Some (inr s) => KStr s
  end.

#[export] Instance key_countable : Countable key.
Proof. apply (inj_countable' key_enc key_dec). intros []; reflexivity. Defined.

End Py.
Export Py.

(** ** The server object *)

(** [self.rate_limits]: a dict with exactly these three keys. *)
Record RateLimits : Type := {
  daily_remaining : Z;
  reset_time : Q;
  active_requests : Z
}.

(** One stored answer: [{"timestamp": ..., "data": ...}]. *)
Record CacheEntry : Type := {
  timestamp : Q;
  data : json
}.

(** [self.cache]: four dicts.  [boards], [board_structure] and [items] are
    keyed by strings, [users] by whatever value the caller sent as
    [user_id]. *)
Record Cache : Type := {
  boards : gmap string CacheEntry;
  board_structure : gmap string CacheEntry;
  items : gmap string CacheEntry;
  users : gmap Py.key CacheEntry
}.

Record MondayMCPServer : Type := {
  rate_limits : RateLimits;
  cache : Cache
}.

(** The GraphQL documents the server posts.  Each constructor is one query
    text of the source; its arguments are the values the f-string
    interpolates, already formatted. *)
Inductive query : Type :=
| BoardsQuery                                             (* list_boards *)
| BoardStructureQuery (board_id : string)                 (* get_board_structure *)
| ItemsByBoardQuery (board_id : string)                   (* list_items_by_board *)
| ItemsByStatusQuery (board_id column_id : string)        (* list_items_by_status *)
| OverdueItemsQuery                                       (* list_overdue_items *)
| UserDetailsQuery (user_id : string)                     (* get_user_details *)
| UserWorkloadQuery (user_id : string)                    (* get_user_workload *)
| CreateItemMutation (board_id : string) (group_id : option string)
                     (item_name column_values : string)   (* create_item *)
| ChangeColumnValueMutation (item_id column_id value : string)
                                    (* update_item_status, assign_user_to_item *)
| CreateUpdateMutation (item_id body : string).           (* add_update_to_item *)

(** The calls the log keeps, latest first. *)
Inductive event : Type :=
| CheckCalled                           (* _check_rate_limit entered *)
| ReleaseCalled                         (* _release_rate_limit entered *)
| Posted (q : query) (variables : json).  (* session.post entered *)

Record world : Type := {
  srv : MondayMCPServer;
  ticks : nat;
  log : list event
}.

(** The three entries of [self.rate_limits] in a world. *)
Abbreviation daily_of w := (daily_remaining (rate_limits (srv w))).
Abbreviation active_of w := (active_requests (rate_limits (srv w))).
Abbreviation reset_of w := (reset_time (rate_limits (srv w))).

Definition is_release (e : event) : bool :=
  match e with ReleaseCalled => true | _ => false end.

Definition is_post (e : event) : bool :=
  match e with Posted _ _ => true | _ => false end.

Definition releases (l : list event) : nat := length (List.filter is_release l).

Definition posts (l : list event) : nat := length (List.filter is_post l).

(** ** Computations *)

Definition M (A : Type) : Type := world -> result A * world.

Definition ret {A} (a : A) : M A := fun w => (inr a, w).

Definition raise {A} (e : exn) : M A := fun w => (inl e, w).

Definition bind {A B} (m : M A) (k : A -> M B) : M B :=
  fun w => match m w with
           | (inl e, w') => (inl e, w')
           | (inr a, w') => k a w'
           end.

Definition lift {A} (r : result A) : M A := fun w => (r, w).

(** [try: body finally: cleanup].  The cleanup runs whatever the body did;
    the body's outcome is the statement's unless the cleanup raises. *)
Definition try_finally {A} (body : M A) (cleanup : M unit) : M A :=
  fun w => match body w with
           | (r, w') => match cleanup w' with
                        | (inl e, w'') => (inl e, w'')
                        | (inr _, w'') => (r, w'')
                        end
           end.

Declare Scope py_scope.
Delimit Scope py_scope with py.
Notation "x <- m ;; k" := (bind m (fun x => k))
  (at level 100, m at next level, right associativity) : py_scope.
Notation "m ;; k" := (bind m (fun _ => k))
  (at level 100, right associativity) : py_scope.
Local Open Scope py_scope.

Definition get_limits : M RateLimits := fun w => (inr (rate_limits (srv w)), w).

Definition get_cache : M Cache := fun w => (inr (cache (srv w)), w).

Definition put_limits (rl : RateLimits) : M unit :=
  fun w => (inr tt, {| srv := {| rate_limits := rl; cache := cache (srv w) |};
                       ticks := ticks w; log := log w |}).

Definition put_cache (c : Cache) : M unit :=
  fun w => (inr tt, {| srv := {| rate_limits := rate_limits (srv w); cache := c |};
                       ticks := ticks w; log := log w |}).

Definition record (e : event) : M unit :=
  fun w => (inr tt, {| srv := srv w; ticks := ticks w; log := e :: log w |}).

Definition set_daily_remaining (n : Z) (rl : RateLimits) : RateLimits :=
  {| daily_remaining := n; reset_time := reset_time rl;
     active_requests := active_requests rl |}.

Definition set_active_requests (n : Z) (rl : RateLimits) : RateLimits :=
  {| daily_remaining := daily_remaining rl; reset_time := reset_time rl;
     active_requests := n |}.

(** ** A sample environment

    One concrete clock, upstream and set of library functions, for the
    worked instances at the end of the file. *)
Module Sample.

(** The n-th reading of the clock is second n. *)
Definition clock (n : nat) : Q := inject_Z (Z.of_nat n).

Definition isoformat (t : Q) : string :=
  pretty (Qnum t) +:+ "/" +:+ pretty (Zpos (Qden t)).

Definition dumps (v : json) : string :=
  match v with
  | JNull => "null"
  | JBool true => "true"
  | JBool false => "false"
  | JNum n => pretty n
  | JStr s => s
  | JList _ => "[...]"
  | JObj _ => "{...}"
  end.

Definition loads (s : string) : option json := None.

Definition repr (v : json) : string := dumps v.

Definition lower (s : string) : string := s.

Definition roadmap : json := JObj [("id", JStr "1"); ("name", JStr "Roadmap")].

Definition user_not_found : list (string * json) :=
  [("errors", JList [JObj [("message", JStr "User not found")]]);
   ("data", JObj [("users", JList [])])].

(** Boards are served, user details are answered with an error list and
    every other request fails to connect. *)
Definition upstream (n : nat) (q : query) (variables : json) : outcome :=
  match q with
  | BoardsQuery => Responds (JObj [("data", JObj [("boards", JList [roadmap])])])
  | UserDetailsQuery _ => Responds (JObj user_not_found)
  | _ => Raises "ClientConnectorError" "Cannot connect to host api.monday.com"
  end.

Definition stored : CacheEntry := {| timestamp := 1000; data := JList [roadmap] |}.

(** A server whose three caches hold an entry stored at second 1000. *)
Definition warm_server : MondayMCPServer :=
  {| rate_limits := {| daily_remaining := 990; reset_time := 86400;
                       active_requests := 0 |};
     cache := {| boards := {[ "all" := stored ]};
                 board_structure := {[ "structure-42" := stored ]};
                 items := ∅;
                 users := {[ KNum 7 := stored ]} |} |}.

(** That server at second 1299, and at second 1300. *)
Definition warm : world := {| srv := warm_server; ticks := 1299; log := [] |}.

Definition stale : world := {| srv := warm_server; ticks := 1300; log := [] |}.

(** A server that has used up its budget, well after its reset time. *)
Definition exhausted : world :=
  {| srv := {| rate_limits := {| daily_remaining := 0; reset_time := 100;
                                 active_requests := 0 |};
               cache := {| boards := ∅; board_structure := ∅;
                           items := ∅; users := ∅ |} |};
     ticks := 200;
     log := [] |}.

(** A second upstream, for reads by status: board 42 has a status column,
    and three items of which two are done. *)
Definition structure : json :=
  JObj [("columns", JList [JObj [("id", JStr "name"); ("type", JStr "name")];
                           JObj [("id", JStr "status7"); ("type", JStr "status")]]);
        ("groups", JList [])].

Definition item (id text : string) : json :=
  JObj [("id", JStr id); ("column_values", JList [JObj [("text", JStr text)]])].

Definition board_upstream (n : nat) (q : query) (variables : json) : outcome :=
  match q with
  | BoardStructureQuery _ =>
      Responds (JObj [("data", JObj [("boards", JList [structure])])])
  | ItemsByStatusQuery _ _ =>
      Responds (JObj [("data", JObj [("boards", JList [JObj [("items", JList [
        item "1" "Done"; item "2" "Stuck"; item "3" "Done" ])]])])])
  | _ => Raises "ClientConnectorError" "Cannot connect to host api.monday.com"
  end.

(** A [json.loads] that knows one document, the structure above. *)
Definition loads_structure (s : string) : option json := Some structure.

Definition by_status : json := JObj [("board_id", JNum 42); ("status", JStr "Done")].

Definition read_boards : json :=
  JObj [("method", JStr "ReadResource"); ("params", JObj [("resourceId", JStr "list_boards")])].


(** A clock that is read at second 0, when the server is built, and next
    more than a day later. *)
Definition next_day (n : nat) : Q :=
  match n with
  | O => 0
  | S _ => inject_Z (90000 + Z.of_nat n)
  end.

(** An upstream with no overdue items and the one board. *)
Definition overdue_upstream (n : nat) (q : query) (variables : json) : outcome :=
  match q with
  | OverdueItemsQuery =>
      Responds (JObj [("data", JObj [("items_by_column_values", JList [])])])
  | BoardsQuery =>
      Responds (JObj [("data", JObj [("boards", JList [roadmap])])])
  | _ => Raises "ClientConnectorError" "Cannot connect to host api.monday.com"
  end.

Definition read_overdue : json :=
  JObj [("method", JStr "ReadResource");
        ("params", JObj [("resourceId", JStr "list_overdue_items")])].

End Sample.

Section Server.

(** The environment of one run of the server. *)
Variable clock : nat -> Q.
    (* the n-th value returned by time.time() *)
Variable upstream : nat -> query -> json -> outcome.
    (* what the n-th POST meets, given the document and variables sent *)
Variable isoformat : Q -> string.
    (* datetime.fromtimestamp(t).isoformat() *)
Variable dumps : json -> string.
    (* json.dumps *)
Variable loads : string -> option json.
    (* json.loads; None when it raises *)
Variable repr : json -> string.
    (* str() of a list or a dict *)
Variable lower : string -> string.
    (* str.lower *)

(** [time.time()]. *)
Definition time : M Q :=
  fun w => (inr (clock (ticks w)),
            {| srv := srv w; ticks := S (ticks w); log := log w |}).

(** [__init__]: a full daily budget that resets a day from now, nothing
    in flight, empty caches. *)
Definition init : world :=
  {| srv := {| rate_limits := {| daily_remaining := 1000;
                                 reset_time := (clock 0 + 86400)%Q;
                                 active_requests := 0 |};
               cache := {| boards := ∅; board_structure := ∅;
                           items := ∅; users := ∅ |} |};
     ticks := 1;
     log := [] |}.

(** *** The limiter *)

Definition _check_rate_limit : M bool :=
  record CheckCalled ;;
  rl <- get_limits ;;
  if daily_remaining rl <=? 0 then
    raise (ValueError ("Rate limit exceeded. Resets at " +:+ isoformat (reset_time rl)))
  else if 10 <=? active_requests rl then
    raise (ValueError "Too many concurrent requests. Please try again.")
  else
    put_limits (set_daily_remaining (daily_remaining rl - 1) rl) ;;
    rl <- get_limits ;;
    put_limits (set_active_requests (active_requests rl + 1) rl) ;;
    ret true.

Definition _release_rate_limit : M unit :=
  record ReleaseCalled ;;
  rl <- get_limits ;;
  put_limits (set_active_requests (active_requests rl - 1) rl).

(** *** Formatting and helpers shared by the handlers *)

(** [str(v)], as an f-string renders an interpolated value. *)
Definition str (v : json) : string :=
  match v with
  | JStr s => s
  | JNum n => pretty n
  | JBool true => "True"
  | JBool false => "False"
  | JNull => "None"
  | _ => repr v
  end.

(** [if v is None: v = {}]. *)
Definition or_empty (v : json) : json :=
  match v with JNull => JObj [] | _ => v end.

(** [json.loads(v)]. *)
Definition json_loads (v : json) : result json :=
  match v with
  | JStr s => match loads s with
              | Some x => inr x
              | None => inl (LibraryError "JSONDecodeError" s)
              end
  | _ => inl TypeError
  end.

(** [v.lower()]: a method of strings only. *)
Definition str_lower (v : json) : result string :=
  match v with
  | JStr s => inr (lower s)
  | _ => inl AttributeError
  end.

(** [{"content": json.dumps(v)}]. *)
Definition content (v : json) : json := JObj [("content", JStr (dumps v))].

(** The test every read through the cache starts with,
    [k in d and d[k]["timestamp"] > time.time() - 300]:
    the clock is read only when the key is there. *)
Definition cached_and_fresh `{Countable K} (d : gmap K CacheEntry) (k : K) : M bool :=
  match d !! k with
  | None => ret false
  | Some e => now <- time ;; ret (negb (Qle_bool (timestamp e) (now - 300)))
  end.

(** [d[k]] on a cache dict; [shown] is the key as the caller wrote it. *)
Definition entry `{Countable K} (d : gmap K CacheEntry) (k : K) (shown : json)
  : M CacheEntry :=
  match d !! k with
  | Some e => ret e
  | None => raise (KeyError shown)
  end.

Definition set_boards (d : gmap string CacheEntry) (c : Cache) : Cache :=
  {| boards := d; board_structure := board_structure c;
     items := items c; users := users c |}.

Definition set_board_structure (d : gmap string CacheEntry) (c : Cache) : Cache :=
  {| boards := boards c; board_structure := d;
     items := items c; users := users c |}.

Definition set_users (d : gmap Py.key CacheEntry) (c : Cache) : Cache :=
  {| boards := boards c; board_structure := board_structure c;
     items := items c; users := d |}.

(** *** The upstream client *)

(** [session.post(...)] followed by [response.json()]. *)
Definition post (q : query) (variables : json) : M json :=
  fun w =>
    let w' := {| srv := srv w; ticks := ticks w;
                 log := Posted q variables :: log w |} in
    match upstream (posts (log w)) q variables with
    | Raises cls msg => (inl (LibraryError cls msg), w')
    | Responds body => (inr body, w')
    end.

Definition query_monday_api (q : query) (variables : json) : M json :=
  let variables := or_empty variables in
  _check_rate_limit ;;
  try_finally
    (result <- post q variables ;;
     has_errors <- lift (contains "errors" result) ;;
     if has_errors : bool then
       errors <- lift (subscript result "errors") ;;
       first <- lift (item0 errors) ;;
       message <- lift (subscript first "message") ;;
       raise (ValueError ("Monday.com API Error: " +:+ str message))
     else
       lift (subscript result "data"))
    _release_rate_limit.

(** *** Resources *)

Definition resource (id name description : string) : json :=
  JObj [("id", JStr id); ("name", JStr name); ("description", JStr description)].

Definition list_resources : M json :=
  ret (JObj [("resources", JList [
    resource "list_boards" "Boards" "List all accessible boards";
    resource "get_board_structure" "Board Structure"
             "Get the structure of a specific board";
    resource "list_items_by_board" "Items by Board"
             "List all items in a specific board";
    resource "list_items_by_status" "Items by Status"
             "List items filtered by status";
    resource "list_overdue_items" "Overdue Items"
             "List items past their due dates";
    resource "get_user_details" "User Details"
             "Get details about team members";
    resource "get_user_workload" "User Workload"
             "View task distribution across team members" ])]).

Definition list_boards (parameters : json) : M json :=
  c <- get_cache ;;
  hit <- cached_and_fresh (boards c) "all" ;;
  if hit : bool then
    c <- get_cache ;;
    e <- entry (boards c) "all" (JStr "all") ;;
    ret (content (data e))
  else
    result <- query_monday_api BoardsQuery JNull ;;
    now <- time ;;
    bs <- lift (subscript result "boards") ;;
    c <- get_cache ;;
    put_cache (set_boards (<["all" := {| timestamp := now; data := bs |}]> (boards c))
                          c) ;;
    bs <- lift (subscript result "boards") ;;
    ret (content bs).

Definition get_board_structure (parameters : json) : M json :=
  has <- lift (contains "board_id" parameters) ;;
  if negb has then raise (ValueError "board_id parameter is required") else
  board_id <- lift (subscript parameters "board_id") ;;
  let cache_key := "structure-" +:+ str board_id in
  c <- get_cache ;;
  hit <- cached_and_fresh (board_structure c) cache_key ;;
  if hit : bool then
    c <- get_cache ;;
    e <- entry (board_structure c) cache_key (JStr cache_key) ;;
    ret (content (data e))
  else
    result <- query_monday_api (BoardStructureQuery (str board_id)) JNull ;;
    bs <- lift (subscript result "boards") ;;
    board_structure_ <- lift (item0 bs) ;;
    now <- time ;;
    c <- get_cache ;;
    put_cache (set_board_structure
                 (<[cache_key := {| timestamp := now; data := board_structure_ |}]>
                    (board_structure c)) c) ;;
    ret (content board_structure_).

Definition list_items_by_board (parameters : json) : M json :=
  has <- lift (contains "board_id" parameters) ;;
  if negb has then raise (ValueError "board_id parameter is required") else
  board_id <- lift (subscript parameters "board_id") ;;
  result <- query_monday_api (ItemsByBoardQuery (str board_id)) JNull ;;
  bs <- lift (subscript result "boards") ;;
  b <- lift (item0 bs) ;;
  ret (content b).

(** [next((col for col in cols if col["type"] == "status"), None)]. *)
Fixpoint first_status_column (cols : list json) : result (option json) :=
  match cols with
  | [] => inr None
  | col :: cols' =>
      match subscript col "type" with
      | inl e => inl e
      | inr t => if is_str "status" t then inr (Some col)
                 else first_status_column cols'
      end
  end.

(** [[item for item in its
      if item["column_values"][0]["text"].lower() == status.lower()]]. *)
Fixpoint filter_by_status (its : list json) (status : json) : result (list json) :=
  match its with
  | [] => inr []
  | item :: its' =>
      match subscript item "column_values" with inl e => inl e | inr cvs =>
      match item0 cvs with inl e => inl e | inr cv =>
      match subscript cv "text" with inl e => inl e | inr text =>
      match str_lower text with inl e => inl e | inr l1 =>
      match str_lower status with inl e => inl e | inr l2 =>
      match filter_by_status its' status with inl e => inl e | inr rest =>
        inr (if String.eqb l1 l2 then item :: rest else rest)
      end end end end end end
  end.

Definition list_items_by_status (parameters : json) : M json :=
  has_board <- lift (contains "board_id" parameters) ;;
  has_both <- (if has_board : bool then lift (contains "status" parameters)
               else ret false) ;;
  if negb has_both then
    raise (ValueError "board_id and status parameters are required") else
  board_id <- lift (subscript parameters "board_id") ;;
  status <- lift (subscript parameters "status") ;;
  board_structure_result <- get_board_structure (JObj [("board_id", board_id)]) ;;
  text <- lift (subscript board_structure_result "content") ;;
  board_structure_ <- lift (json_loads text) ;;
  columns <- lift (subscript board_structure_ "columns") ;;
  cols <- lift (iter columns) ;;
  status_column <- lift (first_status_column cols) ;;
  match status_column with
  | None => raise (ValueError "Status column not found on this board")
  | Some col =>
      if negb (truthy col) then
        raise (ValueError "Status column not found on this board") else
      column_id <- lift (subscript col "id") ;;
      result <- query_monday_api
                  (ItemsByStatusQuery (str board_id) (str column_id)) JNull ;;
      bs <- lift (subscript result "boards") ;;
      b <- lift (item0 bs) ;;
      its <- lift (subscript b "items") ;;
      its <- lift (iter its) ;;
      filtered_items <- lift (filter_by_status its status) ;;
      ret (content (JList filtered_items))
  end.

Definition list_overdue_items (parameters : json) : M json :=
  result <- query_monday_api OverdueItemsQuery JNull ;;
  its <- lift (subscript result "items_by_column_values") ;;
  ret (content its).

Definition get_user_details (parameters : json) : M json :=
  has <- lift (contains "user_id" parameters) ;;
  if negb has then raise (ValueError "user_id parameter is required") else
  user_id <- lift (subscript parameters "user_id") ;;
  k <- lift (hash user_id) ;;
  c <- get_cache ;;
  hit <- cached_and_fresh (users c) k ;;
  if hit : bool then
    c <- get_cache ;;
    e <- entry (users c) k user_id ;;
    ret (content (data e))
  else
    result <- query_monday_api (UserDetailsQuery (str user_id)) JNull ;;
    now <- time ;;
    us <- lift (subscript result "users") ;;
    u <- lift (item0 us) ;;
    c <- get_cache ;;
    put_cache (set_users (<[k := {| timestamp := now; data := u |}]> (users c)) c) ;;
    us <- lift (subscript result "users") ;;
    u <- lift (item0 us) ;;
    ret (content u).

Definition get_user_workload (parameters : json) : M json :=
  has <- lift (contains "user_id" parameters) ;;
  if negb has then raise (ValueError "user_id parameter is required") else
  user_id <- lift (subscript parameters "user_id") ;;
  result <- query_monday_api (UserWorkloadQuery (str user_id)) JNull ;;
  its <- lift (subscript result "items_by_person_id") ;;
  ret (content its).

(** A table of handlers, [{name: method, ...}]. *)
Fixpoint handler (name : string) (table : list (string * (json -> M json)))
  : option (json -> M json) :=
  match table with
  | [] => None
  | (n, h) :: table' => if String.eqb name n then Some h else handler name table'
  end.

(** [name in table] and, when it holds, [table[name]]: hashing the name
    comes first, and only a string equals one of the keys. *)
Definition resolve (name : json) (table : list (string * (json -> M json)))
  : result (option (json -> M json)) :=
  match hash name with
  | inl e => inl e
  | inr (KStr s) => inr (handler s table)
  | inr _ => inr None
  end.

Definition resource_handlers : list (string * (json -> M json)) :=
  [ ("list_boards", list_boards);
    ("get_board_structure", get_board_structure);
    ("list_items_by_board", list_items_by_board);
    ("list_items_by_status", list_items_by_status);
    ("list_overdue_items", list_overdue_items);
    ("get_user_details", get_user_details);
    ("get_user_workload", get_user_workload) ].

Definition read_resource (resource_id parameters : json) : M json :=
  let parameters := or_empty parameters in
  found <- lift (resolve resource_id resource_handlers) ;;
  match found with
  | None => raise (ValueError ("Resource " +:+ str resource_id +:+ " not found"))
  | Some h => h parameters
  end.

(** *** Tools *)

Definition property (name type description : string) : string * json :=
  (name, JObj [("type", JStr type); ("description", JStr description)]).

Definition tool (name description : string) (properties : list (string * json))
                (required : list string) : json :=
  JObj [("name", JStr name);
        ("description", JStr description);
        ("parameters", JObj [("type", JStr "object");
                             ("properties", JObj properties);
                             ("required", JList (map JStr required))])].

Definition list_tools : M json :=
  ret (JObj [("tools", JList [
    tool "create_item" "Create a new item on a board"
      [ property "board_id" "number" "The ID of the board";
        property "group_id" "string" "The ID of the group to add the item to";
        property "item_name" "string" "The name of the item to create";
        property "column_values" "object" "Column values for the new item" ]
      ["board_id"; "item_name"];
    tool "update_item_status" "Update the status of an item"
      [ property "item_id" "number" "The ID of the item";
        property "status_column_id" "string" "The ID of the status column";
        property "new_status" "string" "The new status value" ]
      ["item_id"; "status_column_id"; "new_status"];
    tool "assign_user_to_item" "Assign a user to an item"
      [ property "item_id" "number" "The ID of the item";
        property "user_id" "number" "The ID of the user to assign";
        property "person_column_id" "string" "The ID of the person column" ]
      ["item_id"; "user_id"; "person_column_id"];
    tool "add_update_to_item" "Add an update/comment to an item"
      [ property "item_id" "number" "The ID of the item";
        property "update_text" "string" "The text of the update" ]
      ["item_id"; "update_text"] ])]).

Definition create_item (parameters : json) : M json :=
  board_id <- lift (subscript parameters "board_id") ;;
  item_name <- lift (subscript parameters "item_name") ;;
  group_id <- lift (get parameters "group_id" JNull) ;;
  column_values <- lift (get parameters "column_values" (JObj [])) ;;
  let column_values_json := dumps column_values in
  result <- query_monday_api
              (CreateItemMutation (str board_id)
                 (if truthy group_id then Some (str group_id) else None)
                 (str item_name) column_values_json) JNull ;;
  created <- lift (subscript result "create_item") ;;
  id <- lift (subscript created "id") ;;
  created <- lift (subscript result "create_item") ;;
  name <- lift (subscript created "name") ;;
  ret (JObj [("result", JObj [("id", id); ("name", name);
                              ("message", JStr "Item created successfully")])]).

Definition update_item_status (parameters : json) : M json :=
  item_id <- lift (subscript parameters "item_id") ;;
  status_column_id <- lift (subscript parameters "status_column_id") ;;
  new_status <- lift (subscript parameters "new_status") ;;
  let column_value := dumps (JObj [("label", new_status)]) in
  result <- query_monday_api
              (ChangeColumnValueMutation (str item_id) (str status_column_id)
                 column_value) JNull ;;
  changed <- lift (subscript result "change_column_value") ;;
  id <- lift (subscript changed "id") ;;
  ret (JObj [("result", JObj [("id", id);
                              ("message", JStr "Status updated successfully")])]).

Definition assign_user_to_item (parameters : json) : M json :=
  item_id <- lift (subscript parameters "item_id") ;;
  user_id <- lift (subscript parameters "user_id") ;;
  person_column_id <- lift (subscript parameters "person_column_id") ;;
  let column_value :=
    dumps (JObj [("personsAndTeams",
                  JList [JObj [("id", user_id); ("kind", JStr "person")]])]) in
  result <- query_monday_api
              (ChangeColumnValueMutation (str item_id) (str person_column_id)
                 column_value) JNull ;;
  changed <- lift (subscript result "change_column_value") ;;
  id <- lift (subscript changed "id") ;;
  ret (JObj [("result", JObj [("id", id);
                              ("message", JStr "User assigned successfully")])]).

Definition add_update_to_item (parameters : json) : M json :=
  item_id <- lift (subscript parameters "item_id") ;;
  update_text <- lift (subscript parameters "update_text") ;;
  result <- query_monday_api
              (CreateUpdateMutation (str item_id) (str update_text)) JNull ;;
  created <- lift (subscript result "create_update") ;;
  id <- lift (subscript created "id") ;;
  ret (JObj [("result", JObj [("id", id);
                              ("message", JStr "Update added successfully")])]).

Definition tool_handlers : list (string * (json -> M json)) :=
  [ ("create_item", create_item);
    ("update_item_status", update_item_status);
    ("assign_user_to_item", assign_user_to_item);
    ("add_update_to_item", add_update_to_item) ].

Definition call_tool (name parameters : json) : M json :=
  found <- lift (resolve name tool_handlers) ;;
  match found with
  | None => raise (ValueError ("Tool " +:+ str name +:+ " not found"))
  | Some h => h parameters
  end.

(** *** Prompts *)

Definition prompt (id name description : string) : json :=
  JObj [("id", JStr id); ("name", JStr name); ("description", JStr description)].

Definition list_prompts : M json :=
  ret (JObj [("prompts", JList [
    prompt "project_initiation" "Project Initiation"
           "Start a new project with initial tasks and team assignments";
    prompt "sprint_planning" "Sprint Planning"
           "Move items from backlog to current sprint with estimates and priorities";
    prompt "risk_management" "Risk Management"
           "Identify and escalate tasks at risk" ])]).

(** One entry of a step's ["fields"]; [extra] holds the keys between
    ["type"] and ["required"]. *)
Definition field (id label type : string) (extra : list (string * json)) : json :=
  JObj ([("id", JStr id); ("label", JStr label); ("type", JStr type)]
        ++ extra ++ [("required", JBool true)]).

Definition input_step (id label : string) (fields : list json) : json :=
  JObj [("id", JStr id); ("type", JStr "input"); ("label", JStr label);
        ("fields", JList fields)].

Definition workflow (name description : string) (steps : list json) : json :=
  JObj [("name", JStr name); ("description", JStr description);
        ("steps", JList steps)].

Definition option_ (label value : string) : json :=
  JObj [("label", JStr label); ("value", JStr value)].

Definition project_initiation : json :=
  workflow "Project Initiation"
    "Start a new project with initial tasks and team assignments"
    [ input_step "create_board" "Create a new project board"
        [ field "board_name" "Project Name" "text" [];
          field "template_id" "Template" "select"
            [("options", JList [ option_ "Basic Project" "1";
                                 option_ "Scrum" "2";
                                 option_ "Kanban" "3" ])] ];
      input_step "assign_team" "Assign Team Members"
        [ field "team_members" "Team Members" "multiselect"
            [("dynamicOptions", JStr "users")] ];
      input_step "setup_tasks" "Set Up Initial Tasks"
        [ field "tasks" "Tasks" "textarea"
            [("placeholder", JStr "Enter tasks (one per line)")] ] ].

Definition sprint_planning : json :=
  workflow "Sprint Planning"
    "Move items from backlog to current sprint with estimates and priorities"
    [ input_step "select_board" "Select Project Board"
        [ field "board_id" "Board" "select" [("dynamicOptions", JStr "boards")] ];
      input_step "select_backlog_items" "Select Backlog Items for Sprint"
        [ field "backlog_items" "Backlog Items" "multiselect"
            [("dynamicOptions", JStr "items_by_status")] ];
      input_step "set_estimates" "Set Estimates and Priorities"
        [ field "due_date" "Sprint End Date" "date" [] ] ].

Definition risk_management : json :=
  workflow "Risk Management" "Identify and escalate tasks at risk"
    [ input_step "select_project" "Select Project"
        [ field "board_id" "Board" "select" [("dynamicOptions", JStr "boards")] ];
      JObj [("id", JStr "identify_risks"); ("type", JStr "display");
            ("label", JStr "Identifying Tasks at Risk...");
            ("computedContent", JStr "delayed_tasks")];
      input_step "escalate_risks" "Escalate Selected Risks"
        [ field "risk_items" "Items at Risk" "multiselect"
            [("dynamicOptions", JStr "delayed_tasks")];
          field "notify_users" "Notify" "multiselect"
            [("dynamicOptions", JStr "users")];
          field "escalation_message" "Message" "textarea" [] ] ].

Definition read_prompt (prompt_id : json) : M json :=
  if is_str "project_initiation" prompt_id then ret (content project_initiation)
  else if is_str "sprint_planning" prompt_id then ret (content sprint_planning)
  else if is_str "risk_management" prompt_id then ret (content risk_management)
  else raise (ValueError ("Prompt " +:+ str prompt_id +:+ " not found")).

(** *** The router *)

Definition process_request (request : json) : M json :=
  method <- lift (get request "method" JNull) ;;
  params <- lift (get request "params" (JObj [])) ;;
  if is_str "ListResources" method then list_resources
  else if is_str "ReadResource" method then
    resource_id <- lift (subscript params "resourceId") ;;
    parameters <- lift (get params "parameters" JNull) ;;
    read_resource resource_id parameters
  else if is_str "ListTools" method then list_tools
  else if is_str "CallTool" method then
    name <- lift (subscript params "name") ;;
    parameters <- lift (subscript params "parameters") ;;
    call_tool name parameters
  else if is_str "ListPrompts" method then list_prompts
  else if is_str "ReadPrompt" method then
    prompt_id <- lift (subscript params "promptId") ;;
    read_prompt prompt_id
  else raise (ValueError ("Unsupported method: " +:+ str method)).

(** ** Sequences of limiter operations *)

Inductive op : Type := Acquire | Release.

Definition step (o : op) (w : world) : world :=
  match o with
  | Acquire => snd (_check_rate_limit w)
  | Release => snd (_release_rate_limit w)
  end.

(** Every state a sequence of operations goes through, the first included. *)
Fixpoint states (ops : list op) (w : world) : list world :=
  w :: match ops with
       | [] => []
       | o :: ops' => states ops' (step o w)
       end.

(** A sequence is correctly paired when each [Release] gives back a permit
    that an earlier successful [Acquire] handed out and that is still
    held; [held] counts the permits out. *)
Fixpoint paired (ops : list op) (held : nat) (w : world) : bool :=
  match ops with
  | [] => true
  | Acquire :: ops' =>
      match fst (_check_rate_limit w) with
      | inr _ => paired ops' (S held) (step Acquire w)
      | inl _ => paired ops' held (step Acquire w)
      end
  | Release :: ops' =>
      match held with
      | O => false
      | S held' => paired ops' held' (step Release w)
      end
  end.

(** The invariant of the quota. *)
Definition quota_ok (w : world) : Prop :=
  0 <= daily_of w /\
  0 <= active_of w <= 10.

(** The world one clock reading later. *)
Definition tick (w : world) : world :=
  {| srv := srv w; ticks := S (ticks w); log := log w |}.

(** The world after one admitted round trip of [query_monday_api]: one
    unit of the daily budget spent, the slot taken and given back, and
    the three calls on the log. *)
Definition round_trip (q : query) (variables : json) (w : world) : world :=
  {| srv := {| rate_limits := {| daily_remaining := daily_of w - 1;
                                 reset_time := reset_of w;
                                 active_requests := active_of w + 1 - 1 |};
               cache := cache (srv w) |};
     ticks := ticks w;
     log := ReleaseCalled :: Posted q variables :: CheckCalled :: log w |}.

(** The world after a refused [_check_rate_limit]. *)
Definition refused (w : world) : world :=
  {| srv := srv w; ticks := ticks w; log := CheckCalled :: log w |}.

(** The ids a listing advertises under [kind]:
    [[entry["id"] for entry in listing[kind]]]. *)
Definition listed_ids (listing : json) (kind : string) : list json :=
  match subscript listing kind with
  | inr (JList l) =>
      flat_map (fun r => match subscript r "id" with
                         | inr x => [x]
                         | inl _ => []
                         end) l
  | _ => []
  end.

(** The exception [read_resource] raises for an id it does not know. *)
Definition resource_not_found (resource_id : json) : exn :=
  ValueError ("Resource " +:+ str resource_id +:+ " not found").

(** An exception that is not a [ValueError] whose text starts like the
    one of [resource_not_found]. *)
Definition foreign (e : exn) : Prop :=
  match e with
  | ValueError msg => String.prefix "Resource " msg = false
  | _ => True
  end.

(** The faults of the interpreter and of the libraries: anything but a
    [ValueError]. *)
Definition fault (e : exn) : Prop :=
  match e with ValueError _ => False | _ => True end.

(** A computation all of whose exceptions are [foreign]. *)
Definition raises_foreign {A} (m : M A) : Prop :=
  forall w e, fst (m w) = inl e -> foreign e.

(** [w'] is a state in which the budget of [w] has not been replenished:
    the same reset time, and no more daily budget. *)
Definition no_refill (w w' : world) : Prop :=
  reset_of w' = reset_of w /\
  daily_of w' <= daily_of w.

(** A computation that never replenishes the budget. *)
Definition never_refills {A} (m : M A) : Prop :=
  forall w, no_refill w (snd (m w)).

(** ** Runs of requests and of limiter calls *)

(** The server handling [requests] one after the other, as [main] does
    with its two: each request starts in the world the one before left,
    whether that one returned or raised. *)
Fixpoint serve (requests : list json) (w : world) : world :=
  match requests with
  | [] => w
  | request :: requests' => serve requests' (snd (process_request request w))
  end.

(** [n] calls of [_check_rate_limit] in a row: how many returned, and the
    world after the last. *)
Fixpoint acquire_n (n : nat) (w : world) : nat * world :=
  match n with
  | O => (O, w)
  | S n' =>
      match _check_rate_limit w with
      | (inr _, w') => let (granted, w'') := acquire_n n' w' in (S granted, w'')
      | (inl _, w') => acquire_n n' w'
      end
  end.

(** [n] calls of [_release_rate_limit] in a row. *)
Fixpoint release_n (n : nat) (w : world) : world :=
  match n with
  | O => w
  | S n' => release_n n' (snd (_release_rate_limit w))
  end.

(** A computation every run of which relates the world it starts in to
    the world it ends in by [R], whether it returns or raises. *)
Definition preserves (R : world -> world -> Prop) {A} (m : M A) : Prop :=
  forall w, R w (snd (m w)).

(** A computation that makes at most [n] POSTs. *)
Definition within (n : nat) {A} (m : M A) : Prop :=
  forall w, (posts (log (snd (m w))) <= posts (log w) + n)%nat.

(** A computation all of whose return values satisfy [P]. *)
Definition returns {A} (P : A -> Prop) (m : M A) : Prop :=
  forall w a, fst (m w) = inr a -> P a.

(** The names a listing advertises under [kind]:
    [[entry["name"] for entry in listing[kind]]]. *)
Definition listed_names (listing : json) (kind : string) : list json :=
  match subscript listing kind with
  | inr (JList l) =>
      flat_map (fun r => match subscript r "name" with
                         | inr x => [x]
                         | inl _ => []
                         end) l
  | _ => []
  end.

(** The states in which [_check_rate_limit] refuses. *)
Definition refusing (w : world) : Prop :=
  daily_of w <= 0 \/ 10 <= active_of w.


(** The two envelopes of a handler's answer: [{"content": json.dumps(c)}]
    and [{"result": {"id": ..., ..., "message": "..."}}]. *)
Definition is_content (v : json) : Prop := exists c, v = content c.

Definition is_result (v : json) : Prop :=
  exists id rest message,
    v = JObj [("result", JObj (("id", id) :: rest ++ [("message", JStr message)]))].

(** The dict of a catalog: [{kind: [...]}]. *)
Definition is_catalog (kind : string) (v : json) : Prop :=
  exists l, v = JObj [(kind, JList l)].


(** [item["column_values"][0]["text"]], the text [list_items_by_status]
    compares with the status asked for. *)
Definition column_text (item : json) : result json :=
  match subscript item "column_values" with
  | inl e => inl e
  | inr cvs => match item0 cvs with
               | inl e => inl e
               | inr cv => subscript cv "text"
               end
  end.

(** The test of the comprehension, when both sides are strings:
    [text.lower() == status.lower()]. *)
Definition has_status (status : json) (item : json) : bool :=
  match column_text item, status with
  | inr (JStr t), JStr s => String.eqb (lower t) (lower s)
  | _, _ => false
  end.

(** A column that has a type other than ["status"]. *)
Definition other_column (col : json) : Prop :=
  exists t, subscript col "type" = inr t /\ t <> JStr "status".


(** * Properties *)

Ltac run :=
  unfold bind, ret, raise, lift, try_finally, get_limits, get_cache,
    put_limits, put_cache, record, time in *; cbn in *.

(** ** The limiter *)

Lemma check_rate_limit_exhausted (w : world) :
  daily_of w <= 0 ->
  _check_rate_limit w =
    (inl (ValueError ("Rate limit exceeded. Resets at "
                      +:+ isoformat (reset_of w))),
     {| srv := srv w; ticks := ticks w; log := CheckCalled :: log w |}).
Proof.
  intros H. unfold _check_rate_limit. run.
  destruct (Z.leb_spec (daily_of w) 0); [reflexivity | lia].
Qed.

Lemma check_rate_limit_saturated (w : world) :
  0 < daily_of w ->
  10 <= active_of w ->
  _check_rate_limit w =
    (inl (ValueError "Too many concurrent requests. Please try again."),
     {| srv := srv w; ticks := ticks w; log := CheckCalled :: log w |}).
Proof.
  intros H1 H2. unfold _check_rate_limit. run.
  destruct (Z.leb_spec (daily_of w) 0); [lia |].
  destruct (Z.leb_spec 10 (active_of w)); [reflexivity | lia].
Qed.

Lemma check_rate_limit_granted (w : world) :
  0 < daily_of w ->
  active_of w < 10 ->
  _check_rate_limit w =
    (inr true,
     {| srv := {| rate_limits := {| daily_remaining := daily_of w - 1;
                                    reset_time := reset_of w;
                                    active_requests := active_of w + 1 |};
                  cache := cache (srv w) |};
        ticks := ticks w; log := CheckCalled :: log w |}).
Proof.
  intros H1 H2. unfold _check_rate_limit. run.
  destruct (Z.leb_spec (daily_of w) 0); [lia |].
  destruct (Z.leb_spec 10 (active_of w)); [lia | reflexivity].
Qed.

(** The three ways out of [_check_rate_limit], by the state it is called in. *)
Lemma check_rate_limit_inv (w : world) :
  (daily_of w <= 0 /\
   _check_rate_limit w =
     (inl (ValueError ("Rate limit exceeded. Resets at "
                       +:+ isoformat (reset_of w))),
      {| srv := srv w; ticks := ticks w; log := CheckCalled :: log w |})) \/
  (0 < daily_of w /\ 10 <= active_of w /\
   _check_rate_limit w =
     (inl (ValueError "Too many concurrent requests. Please try again."),
      {| srv := srv w; ticks := ticks w; log := CheckCalled :: log w |})) \/
  (0 < daily_of w /\ active_of w < 10 /\
   _check_rate_limit w =
     (inr true,
      {| srv := {| rate_limits := {| daily_remaining := daily_of w - 1;
                                     reset_time := reset_of w;
                                     active_requests := active_of w + 1 |};
                   cache := cache (srv w) |};
         ticks := ticks w; log := CheckCalled :: log w |})).
Proof.
  destruct (Z_le_gt_dec (daily_of w) 0) as [Hd | Hd].
  - left. split; [exact Hd | apply check_rate_limit_exhausted; exact Hd].
  - destruct (Z_le_gt_dec 10 (active_of w)) as [Ha | Ha].
    + right; left. repeat split; try lia. apply check_rate_limit_saturated; lia.
    + right; right. repeat split; try lia. apply check_rate_limit_granted; lia.
Qed.

Lemma release_rate_limit_eq (w : world) :
  _release_rate_limit w =
    (inr tt,
     {| srv := {| rate_limits := {| daily_remaining := daily_of w;
                                    reset_time := reset_of w;
                                    active_requests := active_of w - 1 |};
                  cache := cache (srv w) |};
        ticks := ticks w; log := ReleaseCalled :: log w |}).
Proof. reflexivity. Qed.

(** C4.  In a quota state ([daily_remaining] is not negative),
    [_check_rate_limit] raises the rate-limit error, whose message carries
    the stored [reset_time], when [daily_remaining] is 0; raises the
    too-many-concurrent-requests error when [daily_remaining] is positive
    and [active_requests] has reached 10; and in every other state
    returns, having taken exactly one from [daily_remaining] and added
    exactly one to [active_requests], all else untouched. *)
Theorem check_rate_limit_contract (w : world) :
  0 <= daily_of w ->
  let r := _check_rate_limit w in
  (daily_of w = 0 ->
     fst r = inl (ValueError ("Rate limit exceeded. Resets at "
                              +:+ isoformat (reset_of w)))) /\
  (daily_of w <> 0 -> 10 <= active_of w ->
     fst r = inl (ValueError "Too many concurrent requests. Please try again.")) /\
  (daily_of w <> 0 -> ~ 10 <= active_of w ->
     fst r = inr true /\
     daily_of (snd r) = daily_of w - 1 /\
     active_of (snd r) = active_of w + 1 /\
     reset_of (snd r) = reset_of w /\
     cache (srv (snd r)) = cache (srv w)).
Proof.
  intros Hnn r. subst r. repeat split.
  - intros H0. rewrite check_rate_limit_exhausted by lia. reflexivity.
  - intros Hd Ha. rewrite check_rate_limit_saturated by lia. reflexivity.
  - rewrite check_rate_limit_granted by lia. reflexivity.
  - rewrite check_rate_limit_granted by lia. reflexivity.
  - rewrite check_rate_limit_granted by lia. reflexivity.
  - rewrite check_rate_limit_granted by lia. reflexivity.
  - rewrite check_rate_limit_granted by lia. reflexivity.
Qed.

(** C9.  Whenever [_check_rate_limit] is called with the daily budget used
    up or with ten requests in flight, it raises and the server object,
    so [daily_remaining], [active_requests] and [reset_time], is as it
    was before the call. *)
Theorem check_rate_limit_failure_frame (w : world) :
  daily_of w <= 0 \/ 10 <= active_of w ->
  (exists e, fst (_check_rate_limit w) = inl e) /\
  srv (snd (_check_rate_limit w)) = srv w.
Proof.
  intros H.
  destruct (check_rate_limit_inv w) as [[_ E] | [[_ [_ E]] | [Hd [Ha _]]]].
  - rewrite E. split; [eexists; reflexivity | reflexivity].
  - rewrite E. split; [eexists; reflexivity | reflexivity].
  - lia.
Qed.

(** A call that raises is a call in one of the two refusing states. *)
Lemma check_rate_limit_raises_iff (w : world) :
  (exists e, fst (_check_rate_limit w) = inl e) <->
  daily_of w <= 0 \/ 10 <= active_of w.
Proof.
  split.
  - intros [e He].
    destruct (check_rate_limit_inv w) as [[Hd _] | [[_ [Ha _]] | [_ [_ E]]]].
    + left; exact Hd.
    + right; exact Ha.
    + rewrite E in He. discriminate.
  - intros H.
    destruct (check_rate_limit_inv w) as [[_ E] | [[_ [_ E]] | [Hd [Ha _]]]].
    + rewrite E. eexists; reflexivity.
    + rewrite E. eexists; reflexivity.
    + lia.
Qed.

(** One step of a paired sequence keeps the quota invariant and keeps
    [active_requests] equal to the number of permits out. *)
Lemma paired_states_ok (ops : list op) :
  forall (held : nat) (w : world),
    0 <= daily_of w ->
    active_of w = Z.of_nat held ->
    active_of w <= 10 ->
    paired ops held w = true ->
    Forall quota_ok (states ops w).
Proof.
  induction ops as [| o ops IH]; intros held w Hd Ha Hc Hp.
  - constructor; [| constructor]. unfold quota_ok. lia.
  - cbn [states]. constructor; [unfold quota_ok; lia |].
    destruct o; cbn [paired] in Hp.
    + cbn [step] in *.
      destruct (check_rate_limit_inv w) as [[_ E] | [[_ [_ E]] | [Hd' [Ha' E]]]];
        rewrite E in *; cbn [fst snd] in *.
      * apply (IH held); cbn; auto.
      * apply (IH held); cbn; auto.
      * apply (IH (S held)); cbn; auto; lia.
    + destruct held as [| held']; [discriminate |].
      cbn [step] in *. rewrite release_rate_limit_eq in *. cbn [snd] in *.
      apply (IH held'); cbn; auto; lia.
Qed.

(** C3.  From the state [__init__] builds, along every sequence of
    [_check_rate_limit] calls and correctly paired [_release_rate_limit]
    calls, [active_requests] stays within 0..10 and [daily_remaining]
    stays at or above 0, in every state on the way. *)
Theorem quota_invariant (ops : list op) :
  paired ops 0 init = true ->
  Forall quota_ok (states ops init).
Proof.
  intros Hp. apply (paired_states_ok ops 0 init); cbn; auto; lia.
Qed.

(** The upper bounds need no pairing at all: no sequence of the two
    operations takes [active_requests] above 10 or [daily_remaining]
    below 0. *)
Lemma quota_bounds_any_sequence (ops : list op) :
  forall w : world,
    0 <= daily_of w ->
    active_of w <= 10 ->
    Forall (fun w' => 0 <= daily_of w' /\ active_of w' <= 10) (states ops w).
Proof.
  induction ops as [| o ops IH]; intros w Hd Ha.
  - constructor; [| constructor]. lia.
  - cbn [states]. constructor; [lia |]. apply IH; destruct o; cbn [step].
    + destruct (check_rate_limit_inv w) as [[_ E] | [[_ [_ E]] | [Hd' [Ha' E]]]];
        rewrite E; cbn; lia.
    + cbn; lia.
    + destruct (check_rate_limit_inv w) as [[_ E] | [[_ [_ E]] | [Hd' [Ha' E]]]];
        rewrite E; cbn; lia.
    + cbn; lia.
Qed.

(** [_check_rate_limit] never looks at the clock.  Every call, whatever
    the time it is made at, leaves [reset_time] where it was, gives
    nothing back to [daily_remaining], and raises the rate-limit error,
    naming the stored [reset_time], whenever [daily_remaining] is 0 or
    less: the time the message promises is never acted on. *)
Lemma check_rate_limit_never_resets (w : world) :
  let r := _check_rate_limit w in
  reset_of (snd r) = reset_of w /\
  daily_of (snd r) <= daily_of w /\
  ticks (snd r) = ticks w /\
  (daily_of w <= 0 ->
     fst r = inl (ValueError ("Rate limit exceeded. Resets at "
                              +:+ isoformat (reset_of w))) /\
     srv (snd r) = srv w).
Proof.
  intros r. subst r.
  destruct (check_rate_limit_inv w) as [[Hd E] | [[Hd [_ E]] | [Hd [_ E]]]];
    rewrite E; cbn; repeat split; try lia; try reflexivity.
Qed.

(** ** The upstream client *)

Ltac break_match :=
  match goal with
  | |- context [match ?x with _ => _ end] =>
      lazymatch x with
      | context [match _ with _ => _ end] => fail
      | _ => destruct x eqn:?
      end
  end.

Lemma query_monday_api_refused (q : query) (v : json) (w : world) :
  daily_of w <= 0 \/ 10 <= active_of w ->
  exists e, _check_rate_limit w = (inl e, refused w) /\
            query_monday_api q v w = (inl e, refused w).
Proof.
  intros H. unfold query_monday_api, bind.
  destruct (check_rate_limit_inv w) as [[_ E] | [[_ [_ E]] | [Hd [Ha _]]]].
  - rewrite E. eexists; split; reflexivity.
  - rewrite E. eexists; split; reflexivity.
  - lia.
Qed.

Lemma query_monday_api_granted (q : query) (v : json) (w : world) :
  0 < daily_of w ->
  active_of w < 10 ->
  exists r, query_monday_api q v w = (r, round_trip q (or_empty v) w).
Proof.
  intros Hd Ha. unfold query_monday_api, bind at 1.
  rewrite (check_rate_limit_granted w Hd Ha).
  unfold try_finally, post, bind, lift, raise. cbn.
  repeat (break_match; cbn); eexists; reflexivity.
Qed.

(** C1.  In every run of [query_monday_api], whatever the upstream does:
    if [_check_rate_limit] returns, the call logs exactly the check, the
    POST and then one [_release_rate_limit], so one release more than
    before; if [_check_rate_limit] raises, its exception leaves
    [query_monday_api] at once and no release is made. *)
Theorem query_monday_api_releases_once (q : query) (v : json) (w : world) :
  let r := query_monday_api q v w in
  (forall b w1, _check_rate_limit w = (inr b, w1) ->
     log (snd r) = ReleaseCalled :: Posted q (or_empty v) :: CheckCalled :: log w /\
     releases (log (snd r)) = S (releases (log w))) /\
  (forall e w1, _check_rate_limit w = (inl e, w1) ->
     r = (inl e, w1) /\
     log (snd r) = CheckCalled :: log w /\
     releases (log (snd r)) = releases (log w)).
Proof.
  intros r. subst r. split.
  - intros b w1 E.
    destruct (check_rate_limit_inv w) as [[_ E'] | [[_ [_ E']] | [Hd [Ha _]]]];
      try (rewrite E' in E; discriminate).
    destruct (query_monday_api_granted q v w Hd Ha) as [r Hr].
    rewrite Hr. split; reflexivity.
  - intros e w1 E.
    destruct (check_rate_limit_inv w) as [[Hd _] | [[_ [Ha _]] | [Hd [Ha E']]]].
    + destruct (query_monday_api_refused q v w (or_introl Hd)) as [e' [E1 E2]].
      rewrite E1 in E. inversion E; subst. rewrite E2. repeat split.
    + destruct (query_monday_api_refused q v w (or_intror Ha)) as [e' [E1 E2]].
      rewrite E1 in E. inversion E; subst. rewrite E2. repeat split.
    + rewrite E' in E. discriminate.
Qed.

(** The three ways out of an admitted call. *)
Lemma query_monday_api_transport_failure (q : query) (v : json) (w : world)
      (cls msg : string) :
  0 < daily_of w ->
  active_of w < 10 ->
  upstream (posts (log w)) q (or_empty v) = Raises cls msg ->
  query_monday_api q v w = (inl (LibraryError cls msg), round_trip q (or_empty v) w).
Proof.
  intros Hd Ha Hu. unfold query_monday_api, bind at 1.
  rewrite (check_rate_limit_granted w Hd Ha).
  unfold try_finally, post, bind, posts in *. cbn. rewrite Hu. reflexivity.
Qed.

Lemma query_monday_api_data (q : query) (v : json) (w : world)
      (d : list (string * json)) (x : json) :
  0 < daily_of w ->
  active_of w < 10 ->
  upstream (posts (log w)) q (or_empty v) = Responds (JObj d) ->
  assoc "errors" d = None ->
  assoc "data" d = Some x ->
  query_monday_api q v w = (inr x, round_trip q (or_empty v) w).
Proof.
  intros Hd Ha Hu He Hx. unfold query_monday_api, bind at 1.
  rewrite (check_rate_limit_granted w Hd Ha).
  unfold try_finally, post, bind, lift, posts in *. cbn. rewrite Hu. cbn.
  rewrite He. cbn. rewrite Hx. reflexivity.
Qed.

Lemma query_monday_api_errors (q : query) (v : json) (w : world)
      (d first : list (string * json)) (rest : list json) (message : json) :
  0 < daily_of w ->
  active_of w < 10 ->
  upstream (posts (log w)) q (or_empty v) = Responds (JObj d) ->
  assoc "errors" d = Some (JList (JObj first :: rest)) ->
  assoc "message" first = Some message ->
  query_monday_api q v w =
    (inl (ValueError ("Monday.com API Error: " +:+ str message)),
     round_trip q (or_empty v) w).
Proof.
  intros Hd Ha Hu He Hm. unfold query_monday_api, bind at 1.
  rewrite (check_rate_limit_granted w Hd Ha).
  unfold try_finally, post, bind, lift, raise, posts in *. cbn. rewrite Hu. cbn.
  rewrite He. cbn. rewrite Hm. reflexivity.
Qed.

(** An ["errors"] list with nothing in it has no first message to report:
    the subscript [[0]] raises, and the permit is still given back. *)
Lemma query_monday_api_empty_errors (q : query) (v : json) (w : world)
      (d : list (string * json)) :
  0 < daily_of w ->
  active_of w < 10 ->
  upstream (posts (log w)) q (or_empty v) = Responds (JObj d) ->
  assoc "errors" d = Some (JList []) ->
  query_monday_api q v w = (inl IndexError, round_trip q (or_empty v) w).
Proof.
  intros Hd Ha Hu He. unfold query_monday_api, bind at 1.
  rewrite (check_rate_limit_granted w Hd Ha).
  unfold try_finally, post, bind, lift, raise, posts in *. cbn. rewrite Hu. cbn.
  rewrite He. reflexivity.
Qed.

(** C7.  When the response to an admitted call is an object whose
    ["errors"] is a list that starts with an object holding a string
    ["message"], [query_monday_api] raises the [ValueError] whose text is
    the fixed prefix followed by exactly that message; it returns
    nothing, whatever ["data"] the response also holds, and it has
    posted once. *)
Theorem query_monday_api_upstream_error (q : query) (v : json) (w : world)
      (d first : list (string * json)) (rest : list json) (message : string) :
  0 < daily_of w ->
  active_of w < 10 ->
  upstream (posts (log w)) q (or_empty v) = Responds (JObj d) ->
  assoc "errors" d = Some (JList (JObj first :: rest)) ->
  assoc "message" first = Some (JStr message) ->
  let r := query_monday_api q v w in
  fst r = inl (ValueError ("Monday.com API Error: " +:+ message)) /\
  (forall x, fst r <> inr x) /\
  posts (log (snd r)) = S (posts (log w)) /\
  log (snd r) = ReleaseCalled :: Posted q (or_empty v) :: CheckCalled :: log w.
Proof.
  intros Hd Ha Hu He Hm r. subst r.
  rewrite (query_monday_api_errors q v w d first rest (JStr message) Hd Ha Hu He Hm).
  cbn. repeat split. intros x Hx. discriminate.
Qed.

(** ** The response cache *)

Arguments query_monday_api : simpl never.

(** The comparison of the source, [timestamp > now - 300], is the
    freshness condition [now - timestamp < 300]. *)
Lemma fresh_iff (t now : Q) :
  negb (Qle_bool t (now - 300)) = true <-> (now - t < 300)%Q.
Proof.
  rewrite negb_true_iff, <- not_true_iff_false, Qle_bool_iff. split.
  - intros H. apply Qnot_le_lt in H. lra.
  - intros H Hle. lra.
Qed.

Lemma cached_and_fresh_absent `{Countable K} (d : gmap K CacheEntry) (k : K)
      (w : world) :
  d !! k = None -> cached_and_fresh d k w = (inr false, w).
Proof. intros E. unfold cached_and_fresh. rewrite E. reflexivity. Qed.

Lemma cached_and_fresh_present `{Countable K} (d : gmap K CacheEntry) (k : K)
      (e : CacheEntry) (w : world) :
  d !! k = Some e ->
  cached_and_fresh d k w =
    (inr (negb (Qle_bool (timestamp e) (clock (ticks w) - 300))), tick w).
Proof. intros E. unfold cached_and_fresh. rewrite E. reflexivity. Qed.

(** A miss is an absent key, seen without reading the clock, or a
    stale entry, seen after one reading. *)
Lemma cached_and_fresh_miss `{Countable K} (d : gmap K CacheEntry) (k : K)
      (w w0 : world) :
  cached_and_fresh d k w = (inr false, w0) ->
  srv w0 = srv w /\ log w0 = log w /\
  ((d !! k = None /\ w0 = w) \/
   (exists e, d !! k = Some e /\ w0 = tick w /\
              ~ (clock (ticks w) - timestamp e < 300)%Q)).
Proof.
  unfold cached_and_fresh. destruct (d !! k) as [e |] eqn:E; run.
  - intros Heq. inversion Heq as [[Hf Hw]]. repeat split. right. exists e.
    repeat split. intros Hlt. apply fresh_iff in Hlt. congruence.
  - intros Heq. inversion Heq. repeat split. left. split; reflexivity.
Qed.

(** Every way out of [query_monday_api] leaves the caches alone and
    leaves the clock unread. *)
Lemma query_monday_api_frame (q : query) (v : json) (w : world) :
  cache (srv (snd (query_monday_api q v w))) = cache (srv w) /\
  ticks (snd (query_monday_api q v w)) = ticks w /\
  (log (snd (query_monday_api q v w)) = CheckCalled :: log w \/
   log (snd (query_monday_api q v w)) =
     ReleaseCalled :: Posted q (or_empty v) :: CheckCalled :: log w).
Proof.
  destruct (check_rate_limit_inv w) as [[Hd _] | [[_ [Ha _]] | [Hd [Ha _]]]].
  - destruct (query_monday_api_refused q v w (or_introl Hd)) as [e [_ E]].
    rewrite E. cbn. auto.
  - destruct (query_monday_api_refused q v w (or_intror Ha)) as [e [_ E]].
    rewrite E. cbn. auto.
  - destruct (query_monday_api_granted q v w Hd Ha) as [r E].
    rewrite E. cbn. auto.
Qed.

Lemma list_boards_hit (p : json) (w : world) (e : CacheEntry) :
  boards (cache (srv w)) !! "all" = Some e ->
  (clock (ticks w) - timestamp e < 300)%Q ->
  list_boards p w = (inr (content (data e)), tick w).
Proof.
  intros E Hf. apply fresh_iff in Hf.
  unfold list_boards, bind at 1, get_cache. unfold bind at 1.
  rewrite (cached_and_fresh_present _ _ e w E), Hf.
  unfold bind, get_cache, entry. cbn. rewrite E. reflexivity.
Qed.

Lemma list_boards_miss (p : json) (w w0 : world) :
  cached_and_fresh (boards (cache (srv w))) "all" w = (inr false, w0) ->
  let r := list_boards p w in
  (log (snd r) = CheckCalled :: log w \/
   log (snd r) = ReleaseCalled :: Posted BoardsQuery (JObj []) :: CheckCalled :: log w) /\
  (forall x, fst r = inl x -> cache (srv (snd r)) = cache (srv w)) /\
  (forall v, fst r = inr v ->
     exists bs, v = content bs /\
       cache (srv (snd r)) =
         set_boards (<["all" := {| timestamp := clock (ticks w0); data := bs |}]>
                       (boards (cache (srv w)))) (cache (srv w))).
Proof.
  intros Hm r. subst r. remember (list_boards p w) as r eqn:Er.
  destruct (cached_and_fresh_miss _ _ _ _ Hm) as [Hs [Hl _]].
  unfold list_boards, bind, get_cache in Er. rewrite Hm in Er.
  pose proof (query_monday_api_frame BoardsQuery JNull w0) as [Hc [Ht Hlog]].
  rewrite Hl in Hlog.
  destruct (query_monday_api BoardsQuery JNull w0) as [[x | result] w1].
  - subst r. cbn in *. split; [exact Hlog |]. split.
    + intros _ _. rewrite Hc, Hs. reflexivity.
    + intros v Hv. discriminate.
  - cbn [fst snd] in *. run.
    destruct (subscript result "boards") as [x | bs]; subst r; cbn.
    + split; [exact Hlog |]. split; [| intros v Hv; discriminate].
      intros _ _. rewrite Hc, Hs. reflexivity.
    + split; [exact Hlog |]. split; [intros x Hx; discriminate |].
      intros v Hv. inversion Hv. exists bs. split; [reflexivity |].
      rewrite Hc, Ht, Hs. reflexivity.
Qed.

(** A successful [v[k]] means [v] is a dict that has [k]. *)
Lemma subscript_contains (v : json) (k : string) (x : json) :
  subscript v k = inr x -> contains k v = inr true.
Proof.
  destruct v; cbn; try discriminate.
  destruct (assoc k d); [reflexivity | discriminate].
Qed.

Lemma get_board_structure_hit (p board_id : json) (w : world) (e : CacheEntry) :
  subscript p "board_id" = inr board_id ->
  board_structure (cache (srv w)) !! ("structure-" +:+ str board_id) = Some e ->
  (clock (ticks w) - timestamp e < 300)%Q ->
  get_board_structure p w = (inr (content (data e)), tick w).
Proof.
  intros Hp E Hf. apply fresh_iff in Hf.
  unfold get_board_structure, bind, lift, get_cache.
  rewrite (subscript_contains _ _ _ Hp), Hp. cbn [negb].
  rewrite (cached_and_fresh_present _ _ e w E), Hf.
  unfold entry. cbn. rewrite E. reflexivity.
Qed.

Lemma get_user_details_hit (p user_id : json) (k : Py.key) (w : world)
      (e : CacheEntry) :
  subscript p "user_id" = inr user_id ->
  hash user_id = inr k ->
  users (cache (srv w)) !! k = Some e ->
  (clock (ticks w) - timestamp e < 300)%Q ->
  get_user_details p w = (inr (content (data e)), tick w).
Proof.
  intros Hp Hk E Hf. apply fresh_iff in Hf.
  unfold get_user_details, bind, lift, get_cache.
  rewrite (subscript_contains _ _ _ Hp), Hp, Hk. cbn [negb].
  rewrite (cached_and_fresh_present _ _ e w E), Hf.
  unfold entry. cbn. rewrite E. reflexivity.
Qed.

Lemma get_user_details_miss (p user_id : json) (k : Py.key) (w w0 : world) :
  subscript p "user_id" = inr user_id ->
  hash user_id = inr k ->
  cached_and_fresh (users (cache (srv w))) k w = (inr false, w0) ->
  let r := get_user_details p w in
  (log (snd r) = CheckCalled :: log w \/
   log (snd r) =
     ReleaseCalled :: Posted (UserDetailsQuery (str user_id)) (JObj [])
       :: CheckCalled :: log w) /\
  (forall x, fst r = inl x -> cache (srv (snd r)) = cache (srv w)) /\
  (forall v, fst r = inr v ->
     exists u, v = content u /\
       cache (srv (snd r)) =
         set_users (<[k := {| timestamp := clock (ticks w0); data := u |}]>
                      (users (cache (srv w)))) (cache (srv w))).
Proof.
  intros Hp Hk Hm r. subst r. remember (get_user_details p w) as r eqn:Er.
  destruct (cached_and_fresh_miss _ _ _ _ Hm) as [Hs [Hl _]].
  unfold get_user_details, bind, lift, get_cache in Er.
  rewrite (subscript_contains _ _ _ Hp), Hp, Hk in Er. cbn [negb] in Er.
  rewrite Hm in Er.
  pose proof (query_monday_api_frame (UserDetailsQuery (str user_id)) JNull w0)
    as [Hc [Ht Hlog]].
  rewrite Hl in Hlog.
  destruct (query_monday_api (UserDetailsQuery (str user_id)) JNull w0)
    as [[x | result] w1].
  - subst r. cbn in *. split; [exact Hlog |]. split.
    + intros _ _. rewrite Hc, Hs. reflexivity.
    + intros v Hv. discriminate.
  - cbn [fst snd] in *. run.
    destruct (subscript result "users") as [x | us]; [| destruct (item0 us) as [x | u]];
      subst r; cbn.
    + split; [exact Hlog |]. split; [| intros v Hv; discriminate].
      intros _ _. rewrite Hc, Hs. reflexivity.
    + split; [exact Hlog |]. split; [| intros v Hv; discriminate].
      intros _ _. rewrite Hc, Hs. reflexivity.
    + split; [exact Hlog |]. split; [intros x Hx; discriminate |].
      intros v Hv. inversion Hv. exists u. split; [reflexivity |].
      rewrite Hc, Ht, Hs. reflexivity.
Qed.

Lemma get_board_structure_miss (p board_id : json) (w w0 : world) :
  subscript p "board_id" = inr board_id ->
  cached_and_fresh (board_structure (cache (srv w))) ("structure-" +:+ str board_id) w =
    (inr false, w0) ->
  let r := get_board_structure p w in
  (log (snd r) = CheckCalled :: log w \/
   log (snd r) =
     ReleaseCalled :: Posted (BoardStructureQuery (str board_id)) (JObj [])
       :: CheckCalled :: log w) /\
  (forall x, fst r = inl x -> cache (srv (snd r)) = cache (srv w)) /\
  (forall v, fst r = inr v ->
     exists b, v = content b /\
       cache (srv (snd r)) =
         set_board_structure
           (<["structure-" +:+ str board_id := {| timestamp := clock (ticks w0); data := b |}]>
              (board_structure (cache (srv w)))) (cache (srv w))).
Proof.
  intros Hp Hm r. subst r. remember (get_board_structure p w) as r eqn:Er.
  destruct (cached_and_fresh_miss _ _ _ _ Hm) as [Hs [Hl _]].
  unfold get_board_structure, bind, lift, get_cache in Er.
  rewrite (subscript_contains _ _ _ Hp), Hp in Er. cbn [negb] in Er.
  rewrite Hm in Er.
  pose proof (query_monday_api_frame (BoardStructureQuery (str board_id)) JNull w0)
    as [Hc [Ht Hlog]].
  rewrite Hl in Hlog.
  destruct (query_monday_api (BoardStructureQuery (str board_id)) JNull w0)
    as [[x | result] w1].
  - subst r. cbn in *. split; [exact Hlog |]. split.
    + intros _ _. rewrite Hc, Hs. reflexivity.
    + intros v Hv. discriminate.
  - cbn [fst snd] in *. run.
    destruct (subscript result "boards") as [x | bs]; [| destruct (item0 bs) as [x | b]];
      subst r; cbn.
    + split; [exact Hlog |]. split; [| intros v Hv; discriminate].
      intros _ _. rewrite Hc, Hs. reflexivity.
    + split; [exact Hlog |]. split; [| intros v Hv; discriminate].
      intros _ _. rewrite Hc, Hs. reflexivity.
    + split; [exact Hlog |]. split; [intros x Hx; discriminate |].
      intros v Hv. inversion Hv. exists b. split; [reflexivity |].
      rewrite Hc, Ht, Hs. reflexivity.
Qed.

Lemma cons_neq {A} (x : A) (l : list A) : x :: l <> l.
Proof. intros E. apply (f_equal (@length A)) in E. cbn in E. lia. Qed.

Lemma cons3_neq {A} (x y z : A) (l : list A) : x :: y :: z :: l <> l.
Proof. intros E. apply (f_equal (@length A)) in E. cbn in E. lia. Qed.

(** C5.  Let an entry [e] sit in the cache under the key a read looks up
    (["all"] for [list_boards], ["structure-" + str(board_id)] for
    [get_board_structure], the hashed [user_id] for [get_user_details]),
    and let the read take place at clock reading
    [now].  The read is answered from the cache, with [e]'s data and no
    other effect than the clock reading, exactly when
    [now - timestamp e < 300].  From [timestamp e + 300] on the read goes
    to the limiter and the upstream as if the key were absent; the entry
    stays as it is when that fetch raises, and is replaced by the fetched
    data, stamped with the next clock reading, when the fetch returns. *)
Theorem cached_read_ttl :
  (forall (p : json) (w : world) (e : CacheEntry),
     boards (cache (srv w)) !! "all" = Some e ->
     let r := list_boards p w in
     (r = (inr (content (data e)), tick w) <->
      (clock (ticks w) - timestamp e < 300)%Q) /\
     (~ (clock (ticks w) - timestamp e < 300)%Q ->
        (log (snd r) = CheckCalled :: log w \/
         log (snd r) =
           ReleaseCalled :: Posted BoardsQuery (JObj []) :: CheckCalled :: log w) /\
        (forall x, fst r = inl x ->
           boards (cache (srv (snd r))) !! "all" = Some e) /\
        (forall v, fst r = inr v ->
           exists bs, v = content bs /\
             boards (cache (srv (snd r))) !! "all" =
               Some {| timestamp := clock (S (ticks w)); data := bs |}))) /\
  (forall (p board_id : json) (w : world) (e : CacheEntry),
     subscript p "board_id" = inr board_id ->
     board_structure (cache (srv w)) !! ("structure-" +:+ str board_id) = Some e ->
     let r := get_board_structure p w in
     (r = (inr (content (data e)), tick w) <->
      (clock (ticks w) - timestamp e < 300)%Q) /\
     (~ (clock (ticks w) - timestamp e < 300)%Q ->
        (log (snd r) = CheckCalled :: log w \/
         log (snd r) =
           ReleaseCalled :: Posted (BoardStructureQuery (str board_id)) (JObj [])
             :: CheckCalled :: log w) /\
        (forall x, fst r = inl x ->
           board_structure (cache (srv (snd r))) !! ("structure-" +:+ str board_id) =
             Some e) /\
        (forall v, fst r = inr v ->
           exists b, v = content b /\
             board_structure (cache (srv (snd r))) !! ("structure-" +:+ str board_id) =
               Some {| timestamp := clock (S (ticks w)); data := b |}))) /\
  (forall (p user_id : json) (k : Py.key) (w : world) (e : CacheEntry),
     subscript p "user_id" = inr user_id ->
     hash user_id = inr k ->
     users (cache (srv w)) !! k = Some e ->
     let r := get_user_details p w in
     (r = (inr (content (data e)), tick w) <->
      (clock (ticks w) - timestamp e < 300)%Q) /\
     (~ (clock (ticks w) - timestamp e < 300)%Q ->
        (log (snd r) = CheckCalled :: log w \/
         log (snd r) =
           ReleaseCalled :: Posted (UserDetailsQuery (str user_id)) (JObj [])
             :: CheckCalled :: log w) /\
        (forall x, fst r = inl x ->
           users (cache (srv (snd r))) !! k = Some e) /\
        (forall v, fst r = inr v ->
           exists u, v = content u /\
             users (cache (srv (snd r))) !! k =
               Some {| timestamp := clock (S (ticks w)); data := u |}))).
Proof.
  split; [| split].
  - intros p w e E r.
    assert (Hstale : ~ (clock (ticks w) - timestamp e < 300)%Q ->
              cached_and_fresh (boards (cache (srv w))) "all" w = (inr false, tick w)).
    { intros Hn. rewrite (cached_and_fresh_present _ _ e w E).
      destruct (negb _) eqn:Hb; [| reflexivity].
      apply fresh_iff in Hb. contradiction. }
    split; [split |].
    + intros Hr.
      destruct (Qlt_le_dec (clock (ticks w) - timestamp e) 300) as [Hlt | Hge];
        [exact Hlt | exfalso].
      assert (Hn : ~ (clock (ticks w) - timestamp e < 300)%Q) by (intros Hlt; lra).
      destruct (list_boards_miss p w _ (Hstale Hn)) as [Hlog _].
      fold r in Hlog. rewrite Hr in Hlog. cbn in Hlog.
      destruct Hlog as [Hlog | Hlog]; symmetry in Hlog.
      * exact (cons_neq _ _ Hlog).
      * exact (cons3_neq _ _ _ _ Hlog).
    + intros Hlt. apply list_boards_hit; assumption.
    + intros Hn.
      destruct (list_boards_miss p w _ (Hstale Hn)) as [Hlog [Hfail Hok]].
      fold r in Hlog, Hfail, Hok. split; [exact Hlog |]. split.
      * intros x Hx. rewrite (Hfail x Hx). exact E.
      * intros v Hv. destruct (Hok v Hv) as [bs [Hbs Hc]]. exists bs.
        split; [exact Hbs |]. rewrite Hc. cbn. apply lookup_insert_eq.
  - intros p board_id w e Hp E r.
    assert (Hstale : ~ (clock (ticks w) - timestamp e < 300)%Q ->
              cached_and_fresh (board_structure (cache (srv w)))
                ("structure-" +:+ str board_id) w = (inr false, tick w)).
    { intros Hn. rewrite (cached_and_fresh_present _ _ e w E).
      destruct (negb _) eqn:Hb; [| reflexivity].
      apply fresh_iff in Hb. contradiction. }
    split; [split |].
    + intros Hr.
      destruct (Qlt_le_dec (clock (ticks w) - timestamp e) 300) as [Hlt | Hge];
        [exact Hlt | exfalso].
      assert (Hn : ~ (clock (ticks w) - timestamp e < 300)%Q) by (intros Hlt; lra).
      destruct (get_board_structure_miss p board_id w _ Hp (Hstale Hn)) as [Hlog _].
      fold r in Hlog. rewrite Hr in Hlog. cbn in Hlog.
      destruct Hlog as [Hlog | Hlog]; symmetry in Hlog.
      * exact (cons_neq _ _ Hlog).
      * exact (cons3_neq _ _ _ _ Hlog).
    + intros Hlt. apply (get_board_structure_hit p board_id); assumption.
    + intros Hn.
      destruct (get_board_structure_miss p board_id w _ Hp (Hstale Hn))
        as [Hlog [Hfail Hok]].
      fold r in Hlog, Hfail, Hok. split; [exact Hlog |]. split.
      * intros x Hx. rewrite (Hfail x Hx). exact E.
      * intros v Hv. destruct (Hok v Hv) as [b [Hb Hc]]. exists b.
        split; [exact Hb |]. rewrite Hc. cbn. apply lookup_insert_eq.
  - intros p user_id k w e Hp Hk E r.
    assert (Hstale : ~ (clock (ticks w) - timestamp e < 300)%Q ->
              cached_and_fresh (users (cache (srv w))) k w = (inr false, tick w)).
    { intros Hn. rewrite (cached_and_fresh_present _ _ e w E).
      destruct (negb _) eqn:Hb; [| reflexivity].
      apply fresh_iff in Hb. contradiction. }
    split; [split |].
    + intros Hr.
      destruct (Qlt_le_dec (clock (ticks w) - timestamp e) 300) as [Hlt | Hge];
        [exact Hlt | exfalso].
      assert (Hn : ~ (clock (ticks w) - timestamp e < 300)%Q) by (intros Hlt; lra).
      destruct (get_user_details_miss p user_id k w _ Hp Hk (Hstale Hn)) as [Hlog _].
      fold r in Hlog. rewrite Hr in Hlog. cbn in Hlog.
      destruct Hlog as [Hlog | Hlog]; symmetry in Hlog.
      * exact (cons_neq _ _ Hlog).
      * exact (cons3_neq _ _ _ _ Hlog).
    + intros Hlt. apply (get_user_details_hit p user_id k); assumption.
    + intros Hn.
      destruct (get_user_details_miss p user_id k w _ Hp Hk (Hstale Hn))
        as [Hlog [Hfail Hok]].
      fold r in Hlog, Hfail, Hok. split; [exact Hlog |]. split.
      * intros x Hx. rewrite (Hfail x Hx). exact E.
      * intros v Hv. destruct (Hok v Hv) as [u [Hu Hc]]. exists u.
        split; [exact Hu |]. rewrite Hc. cbn. apply lookup_insert_eq.
Qed.

(** C10.  A read of [list_boards], [get_board_structure] or
    [get_user_details] that finds an entry younger than 300 seconds
    returns that entry's data as its content; the server object (budget,
    slots in flight, every cache entry with its timestamp) is what it
    was, and the log is what it was: no limiter call, no POST. *)
Theorem cached_read_frame :
  (forall (p : json) (w : world) (e : CacheEntry),
     boards (cache (srv w)) !! "all" = Some e ->
     (clock (ticks w) - timestamp e < 300)%Q ->
     let r := list_boards p w in
     fst r = inr (content (data e)) /\
     srv (snd r) = srv w /\ log (snd r) = log w) /\
  (forall (p board_id : json) (w : world) (e : CacheEntry),
     subscript p "board_id" = inr board_id ->
     board_structure (cache (srv w)) !! ("structure-" +:+ str board_id) = Some e ->
     (clock (ticks w) - timestamp e < 300)%Q ->
     let r := get_board_structure p w in
     fst r = inr (content (data e)) /\
     srv (snd r) = srv w /\ log (snd r) = log w) /\
  (forall (p user_id : json) (k : Py.key) (w : world) (e : CacheEntry),
     subscript p "user_id" = inr user_id ->
     hash user_id = inr k ->
     users (cache (srv w)) !! k = Some e ->
     (clock (ticks w) - timestamp e < 300)%Q ->
     let r := get_user_details p w in
     fst r = inr (content (data e)) /\
     srv (snd r) = srv w /\ log (snd r) = log w).
Proof.
  split; [| split].
  - intros p w e E Hf r. subst r.
    rewrite (list_boards_hit p w e E Hf). repeat split.
  - intros p board_id w e Hp E Hf r. subst r.
    rewrite (get_board_structure_hit p board_id w e Hp E Hf). repeat split.
  - intros p user_id k w e Hp Hk E Hf r. subst r.
    rewrite (get_user_details_hit p user_id k w e Hp Hk E Hf). repeat split.
Qed.

(** ** Resolution of listed resources *)

Lemma foreign_ret {A} (a : A) : raises_foreign (ret a).
Proof. intros w e H. discriminate. Qed.

Lemma foreign_raise {A} (e : exn) : foreign e -> raises_foreign (@raise A e).
Proof. intros He w e' H. cbn in H. congruence. Qed.

Lemma foreign_bind {A B} (m : M A) (k : A -> M B) :
  raises_foreign m -> (forall a, raises_foreign (k a)) -> raises_foreign (bind m k).
Proof.
  intros Hm Hk w e. unfold bind. specialize (Hm w).
  destruct (m w) as [[e' | a] w']; cbn in *.
  - intros E. inversion E; subst. apply Hm. reflexivity.
  - apply Hk.
Qed.

Lemma foreign_try_finally {A} (body : M A) (cleanup : M unit) :
  raises_foreign body -> raises_foreign cleanup ->
  raises_foreign (try_finally body cleanup).
Proof.
  intros Hb Hc w e. unfold try_finally. specialize (Hb w).
  destruct (body w) as [r w']. specialize (Hc w').
  destruct (cleanup w') as [[e' | u] w'']; cbn in *.
  - intros E. inversion E; subst. apply Hc. reflexivity.
  - apply Hb.
Qed.

Lemma foreign_lift {A} (r : result A) :
  (forall e, r = inl e -> foreign e) -> raises_foreign (lift r).
Proof. intros H w e E. apply H. exact E. Qed.

Lemma fault_foreign (e : exn) : fault e -> foreign e.
Proof. destruct e; cbn; tauto. Qed.

Lemma subscript_fault (v : json) (k : string) (e : exn) :
  subscript v k = inl e -> fault e.
Proof.
  destruct v; cbn; intros E; try (inversion E; exact I).
  destruct (assoc k d); inversion E; exact I.
Qed.

Lemma item0_fault (v : json) (e : exn) : item0 v = inl e -> fault e.
Proof.
  destruct v as [| | | s | l |]; cbn; intros E; try (inversion E; exact I).
  - destruct s; inversion E; exact I.
  - destruct l; inversion E; exact I.
Qed.

Lemma get_fault (v : json) (k : string) (x : json) (e : exn) :
  get v k x = inl e -> fault e.
Proof. destruct v; cbn; intros E; inversion E; exact I. Qed.

Lemma contains_fault (k : string) (v : json) (e : exn) :
  contains k v = inl e -> fault e.
Proof. destruct v; cbn; intros E; inversion E; exact I. Qed.

Lemma iter_fault (v : json) (e : exn) : iter v = inl e -> fault e.
Proof. destruct v; cbn; intros E; inversion E; exact I. Qed.

Lemma hash_fault (v : json) (e : exn) : hash v = inl e -> fault e.
Proof. destruct v; cbn; intros E; inversion E; exact I. Qed.

Lemma json_loads_fault (v : json) (e : exn) : json_loads v = inl e -> fault e.
Proof.
  destruct v; cbn; intros E; try (inversion E; exact I).
  destruct (loads s); inversion E; exact I.
Qed.

Lemma str_lower_fault (v : json) (e : exn) : str_lower v = inl e -> fault e.
Proof. destruct v; cbn; intros E; inversion E; exact I. Qed.

Lemma first_status_column_fault (cols : list json) (e : exn) :
  first_status_column cols = inl e -> fault e.
Proof.
  induction cols as [| col cols IH]; cbn; [discriminate |].
  destruct (subscript col "type") as [e' | t] eqn:E.
  - intros H. inversion H; subst. exact (subscript_fault _ _ _ E).
  - destruct (is_str "status" t); [discriminate | exact IH].
Qed.

Lemma filter_by_status_fault (its : list json) (status : json) (e : exn) :
  filter_by_status its status = inl e -> fault e.
Proof.
  induction its as [| item its IH]; cbn; [discriminate |].
  destruct (subscript item "column_values") as [e1 | cvs] eqn:E1;
    [intros H; inversion H; subst; exact (subscript_fault _ _ _ E1) |].
  destruct (item0 cvs) as [e2 | cv] eqn:E2;
    [intros H; inversion H; subst; exact (item0_fault _ _ E2) |].
  destruct (subscript cv "text") as [e3 | text] eqn:E3;
    [intros H; inversion H; subst; exact (subscript_fault _ _ _ E3) |].
  destruct (str_lower text) as [e4 | l1] eqn:E4;
    [intros H; inversion H; subst; exact (str_lower_fault _ _ E4) |].
  destruct (str_lower status) as [e5 | l2] eqn:E5;
    [intros H; inversion H; subst; exact (str_lower_fault _ _ E5) |].
  destruct (filter_by_status its status) as [e6 | rest];
    [intros H; inversion H; subst; apply IH; reflexivity | discriminate].
Qed.

Create HintDb fault discriminated.
Hint Resolve subscript_fault item0_fault get_fault contains_fault iter_fault
  hash_fault json_loads_fault str_lower_fault first_status_column_fault
  filter_by_status_fault : fault.

Ltac foreign_step :=
  lazymatch goal with
  | |- raises_foreign (bind _ _) => apply foreign_bind; [| intros ?]
  | |- raises_foreign (ret _) => apply foreign_ret
  | |- raises_foreign (raise _) => apply foreign_raise; cbn; first [reflexivity | exact I]
  | |- raises_foreign (lift _) =>
      apply foreign_lift; intros ? ?; apply fault_foreign; eauto with fault
  | |- raises_foreign (try_finally _ _) => apply foreign_try_finally
  | |- raises_foreign (if ?b then _ else _) => destruct b
  | |- raises_foreign (match ?x with _ => _ end) => destruct x
  | |- raises_foreign get_cache => intros ? ? ?; discriminate
  | |- raises_foreign get_limits => intros ? ? ?; discriminate
  | |- raises_foreign (put_cache _) => intros ? ? ?; discriminate
  | |- raises_foreign (put_limits _) => intros ? ? ?; discriminate
  | |- raises_foreign (record _) => intros ? ? ?; discriminate
  | |- raises_foreign time => intros ? ? ?; discriminate
  end.

Lemma foreign_check_rate_limit : raises_foreign _check_rate_limit.
Proof. unfold _check_rate_limit. repeat foreign_step. Qed.

Lemma foreign_release_rate_limit : raises_foreign _release_rate_limit.
Proof. unfold _release_rate_limit. repeat foreign_step. Qed.

Lemma foreign_post (q : query) (v : json) : raises_foreign (post q v).
Proof.
  intros w e. unfold post. destruct (upstream _ q v); cbn; [| discriminate].
  intros E. inversion E. exact I.
Qed.

Lemma foreign_query_monday_api (q : query) (v : json) :
  raises_foreign (query_monday_api q v).
Proof.
  unfold query_monday_api.
  repeat first [ apply foreign_check_rate_limit | apply foreign_release_rate_limit
               | apply foreign_post | foreign_step ].
Qed.

Lemma foreign_cached_and_fresh `{Countable K} (d : gmap K CacheEntry) (k : K) :
  raises_foreign (cached_and_fresh d k).
Proof. unfold cached_and_fresh. repeat foreign_step. Qed.

Lemma foreign_entry `{Countable K} (d : gmap K CacheEntry) (k : K) (shown : json) :
  raises_foreign (entry d k shown).
Proof. unfold entry. repeat foreign_step. Qed.

Ltac foreign :=
  repeat first [ apply foreign_query_monday_api | apply foreign_cached_and_fresh
               | apply foreign_entry | foreign_step ].

Lemma foreign_list_boards (p : json) : raises_foreign (list_boards p).
Proof. unfold list_boards. foreign. Qed.

Lemma foreign_get_board_structure (p : json) : raises_foreign (get_board_structure p).
Proof. unfold get_board_structure. foreign. Qed.

Lemma foreign_list_items_by_board (p : json) : raises_foreign (list_items_by_board p).
Proof. unfold list_items_by_board. foreign. Qed.

Lemma foreign_list_items_by_status (p : json) : raises_foreign (list_items_by_status p).
Proof.
  unfold list_items_by_status.
  repeat first [ apply foreign_get_board_structure | apply foreign_query_monday_api
               | foreign_step ].
Qed.

Lemma foreign_list_overdue_items (p : json) : raises_foreign (list_overdue_items p).
Proof. unfold list_overdue_items. foreign. Qed.

Lemma foreign_get_user_details (p : json) : raises_foreign (get_user_details p).
Proof. unfold get_user_details. foreign. Qed.

Lemma foreign_get_user_workload (p : json) : raises_foreign (get_user_workload p).
Proof. unfold get_user_workload. foreign. Qed.

Lemma resource_not_found_not_foreign (id : json) : ~ foreign (resource_not_found id).
Proof.
  unfold resource_not_found. cbn. intros H.
  assert (E : forall x, String.prefix "Resource " ("Resource " +:+ x) = true)
    by (intros x; destruct x; reflexivity).
  rewrite E in H. discriminate H.
Qed.

(** Every handler of the table raises [foreign] exceptions only. *)
Lemma foreign_resource_handlers (s : string) (h : json -> M json) (p : json) :
  handler s resource_handlers = Some h -> raises_foreign (h p).
Proof.
  unfold resource_handlers. cbn [handler].
  repeat (destruct (String.eqb s _);
          [intros E; inversion E; subst;
           first [ apply foreign_list_boards | apply foreign_get_board_structure
                 | apply foreign_list_items_by_board | apply foreign_list_items_by_status
                 | apply foreign_list_overdue_items | apply foreign_get_user_details
                 | apply foreign_get_user_workload ] |]).
  discriminate.
Qed.

Lemma read_resource_resolved (s : string) (h : json -> M json) (p : json) (w : world) :
  handler s resource_handlers = Some h ->
  read_resource (JStr s) p w = h (or_empty p) w.
Proof.
  intros E. unfold read_resource, bind, lift, resolve. cbn [hash].
  rewrite E. reflexivity.
Qed.

Lemma read_resource_unresolved (s : string) (p : json) (w : world) :
  handler s resource_handlers = None ->
  read_resource (JStr s) p w = (inl (resource_not_found (JStr s)), w).
Proof.
  intros E. unfold read_resource, bind, lift, resolve. cbn [hash].
  rewrite E. reflexivity.
Qed.

(** C8.  Every id in the catalog [list_resources] returns is a string
    that is a key of [resource_handlers]; [read_resource] on it, with any
    parameters and in any state, is the call of that handler, and its
    outcome is never the not-found error. *)
Theorem read_resource_listed (w w' : world) (listing id p : json) :
  fst (list_resources w) = inr listing ->
  In id (listed_ids listing "resources") ->
  exists (s : string) (h : json -> M json),
    id = JStr s /\
    handler s resource_handlers = Some h /\
    read_resource id p w' = h (or_empty p) w' /\
    fst (read_resource id p w') <> inl (resource_not_found id).
Proof.
  intros Hl Hin. cbn in Hl. inversion Hl; subst listing; clear Hl.
  cbn in Hin.
  assert (Hres : forall s h, id = JStr s -> handler s resource_handlers = Some h ->
            exists (s : string) (h : json -> M json),
              id = JStr s /\ handler s resource_handlers = Some h /\
              read_resource id p w' = h (or_empty p) w' /\
              fst (read_resource id p w') <> inl (resource_not_found id)).
  { intros s h -> Hh. exists s, h. repeat split; auto.
    - apply read_resource_resolved. exact Hh.
    - rewrite (read_resource_resolved s h p w' Hh). intros E.
      apply (foreign_resource_handlers s h (or_empty p) Hh) in E.
      exact (resource_not_found_not_foreign _ E). }
  repeat (destruct Hin as [<- | Hin]; [eapply Hres; reflexivity |]).
  destruct Hin.
Qed.

(** ** No method replenishes the budget *)

Lemma no_refill_refl (w : world) : no_refill w w.
Proof. split; [reflexivity | lia]. Qed.

Lemma no_refill_trans (w1 w2 w3 : world) :
  no_refill w1 w2 -> no_refill w2 w3 -> no_refill w1 w3.
Proof. unfold no_refill. intros [E1 L1] [E2 L2]. split; [congruence | lia]. Qed.

Lemma no_refill_same_limits (w w' : world) :
  rate_limits (srv w') = rate_limits (srv w) -> no_refill w w'.
Proof. intros E. unfold no_refill. rewrite E. split; [reflexivity | lia]. Qed.

Lemma never_ret {A} (a : A) : never_refills (ret a).
Proof. intros w. apply no_refill_refl. Qed.

Lemma never_raise {A} (e : exn) : never_refills (@raise A e).
Proof. intros w. apply no_refill_refl. Qed.

Lemma never_lift {A} (r : result A) : never_refills (lift r).
Proof. intros w. apply no_refill_refl. Qed.

Lemma never_bind {A B} (m : M A) (k : A -> M B) :
  never_refills m -> (forall a, never_refills (k a)) -> never_refills (bind m k).
Proof.
  intros Hm Hk w. unfold bind. specialize (Hm w).
  destruct (m w) as [[e | a] w']; cbn in *; [exact Hm |].
  exact (no_refill_trans _ _ _ Hm (Hk a w')).
Qed.

(** The continuation of a pure step may use what the step returned. *)
Lemma never_bind_lift {A B} (r : result A) (k : A -> M B) :
  (forall a, r = inr a -> never_refills (k a)) -> never_refills (bind (lift r) k).
Proof.
  intros Hk w. unfold bind, lift. destruct r as [e | a]; cbn.
  - apply no_refill_refl.
  - apply Hk. reflexivity.
Qed.

Lemma never_try_finally {A} (body : M A) (cleanup : M unit) :
  never_refills body -> never_refills cleanup ->
  never_refills (try_finally body cleanup).
Proof.
  intros Hb Hc w. unfold try_finally. specialize (Hb w).
  destruct (body w) as [r w']. specialize (Hc w').
  destruct (cleanup w') as [[e | u] w'']; cbn in *;
    exact (no_refill_trans _ _ _ Hb Hc).
Qed.

Lemma never_check_rate_limit : never_refills _check_rate_limit.
Proof.
  intros w.
  destruct (check_rate_limit_inv w) as [[_ E] | [[_ [_ E]] | [_ [_ E]]]];
    rewrite E; split; cbn; first [reflexivity | lia].
Qed.

Lemma never_release_rate_limit : never_refills _release_rate_limit.
Proof. intros w. rewrite release_rate_limit_eq. split; cbn; [reflexivity | lia]. Qed.

Lemma never_post (q : query) (v : json) : never_refills (post q v).
Proof.
  intros w. unfold post. destruct (upstream _ q v); apply no_refill_same_limits;
    reflexivity.
Qed.

Ltac never_step :=
  lazymatch goal with
  | |- never_refills (bind _ _) => apply never_bind; [| intros ?]
  | |- never_refills (ret _) => apply never_ret
  | |- never_refills (raise _) => apply never_raise
  | |- never_refills (lift _) => apply never_lift
  | |- never_refills (try_finally _ _) => apply never_try_finally
  | |- never_refills (if ?b then _ else _) => destruct b
  | |- never_refills (match ?x with _ => _ end) => destruct x
  | |- never_refills get_cache => intros ?; apply no_refill_refl
  | |- never_refills (put_cache _) => intros ?; apply no_refill_same_limits; reflexivity
  | |- never_refills time => intros ?; apply no_refill_same_limits; reflexivity
  | |- never_refills _check_rate_limit => apply never_check_rate_limit
  | |- never_refills _release_rate_limit => apply never_release_rate_limit
  | |- never_refills (post _ _) => apply never_post
  end.

Lemma never_query_monday_api (q : query) (v : json) :
  never_refills (query_monday_api q v).
Proof. unfold query_monday_api. repeat never_step. Qed.

Lemma never_cached_and_fresh `{Countable K} (d : gmap K CacheEntry) (k : K) :
  never_refills (cached_and_fresh d k).
Proof. unfold cached_and_fresh. repeat never_step. Qed.

Lemma never_entry `{Countable K} (d : gmap K CacheEntry) (k : K) (shown : json) :
  never_refills (entry d k shown).
Proof. unfold entry. repeat never_step. Qed.

Ltac never :=
  repeat first [ apply never_query_monday_api | apply never_cached_and_fresh
               | apply never_entry | never_step ].

Lemma never_get_board_structure (p : json) : never_refills (get_board_structure p).
Proof. unfold get_board_structure. never. Qed.

Lemma never_resource_handlers (s : string) (h : json -> M json) (p : json) :
  handler s resource_handlers = Some h -> never_refills (h p).
Proof.
  unfold resource_handlers. cbn [handler].
  repeat (destruct (String.eqb s _);
          [intros E; inversion E; subst;
           first [ apply never_get_board_structure
                 | unfold list_boards, list_items_by_board, list_items_by_status,
                     list_overdue_items, get_user_details, get_user_workload;
                   repeat first [ apply never_get_board_structure | progress never ] ] |]).
  discriminate.
Qed.

Lemma never_tool_handlers (s : string) (h : json -> M json) (p : json) :
  handler s tool_handlers = Some h -> never_refills (h p).
Proof.
  unfold tool_handlers. cbn [handler].
  repeat (destruct (String.eqb s _);
          [intros E; inversion E; subst;
           unfold create_item, update_item_status, assign_user_to_item,
             add_update_to_item; never |]).
  discriminate.
Qed.

Lemma resolve_inv (name : json) (table : list (string * (json -> M json)))
      (found : option (json -> M json)) :
  resolve name table = inr found ->
  found = None \/ exists s h, found = Some h /\ handler s table = Some h.
Proof.
  unfold resolve. destruct (hash name) as [e | [| n | s]]; try discriminate;
    intros E; inversion E; subst; auto.
  destruct (handler s table) as [h |] eqn:Eh; [right | left; reflexivity].
  exists s, h. auto.
Qed.

Lemma never_read_resource (resource_id p : json) :
  never_refills (read_resource resource_id p).
Proof.
  unfold read_resource. apply never_bind_lift. intros found Hf.
  destruct (resolve_inv _ _ _ Hf) as [-> | [s [h [-> Hh]]]].
  - apply never_raise.
  - exact (never_resource_handlers s h _ Hh).
Qed.

Lemma never_call_tool (name p : json) : never_refills (call_tool name p).
Proof.
  unfold call_tool. apply never_bind_lift. intros found Hf.
  destruct (resolve_inv _ _ _ Hf) as [-> | [s [h [-> Hh]]]].
  - apply never_raise.
  - exact (never_tool_handlers s h _ Hh).
Qed.

(** Whatever request comes in and whatever the clock shows, the server
    leaves [reset_time] where [__init__] put it and never adds to
    [daily_remaining]. *)
Lemma process_request_never_refills (request : json) :
  never_refills (process_request request).
Proof.
  unfold process_request, list_resources, list_tools, list_prompts, read_prompt.
  repeat first [ apply never_read_resource | apply never_call_tool | never_step ].
Qed.

(** ** The router and its required fields *)

(** The resource handlers test for their own required parameters and
    raise a [ValueError] that says which one is missing. *)
Lemma get_board_structure_no_board_id (p : list (string * json)) (w : world) :
  assoc "board_id" p = None ->
  get_board_structure (JObj p) w =
    (inl (ValueError "board_id parameter is required"), w).
Proof.
  intros Hk. unfold get_board_structure, bind, lift, raise. cbn.
  rewrite Hk. reflexivity.
Qed.

(** C6, as the code has it.  When the [params] of a request (the dict
    sent, or the empty default) lack a required field, [process_request]
    ends with the interpreter's [KeyError] for that field and the state it
    started in: ["resourceId"] for [ReadResource], ["name"] for [CallTool]
    and, when the name is there, ["parameters"], ["promptId"] for
    [ReadPrompt].  The exception is a fault of the subscript, not an error
    the server raises itself, and nothing in [process_request] catches it. *)
Theorem process_request_missing_field (request params : list (string * json))
      (w : world) :
  get (JObj request) "params" (JObj []) = inr (JObj params) ->
  (assoc "method" request = Some (JStr "ReadResource") ->
   assoc "resourceId" params = None ->
   process_request (JObj request) w = (inl (KeyError (JStr "resourceId")), w)) /\
  (assoc "method" request = Some (JStr "CallTool") ->
   assoc "name" params = None ->
   process_request (JObj request) w = (inl (KeyError (JStr "name")), w)) /\
  (assoc "method" request = Some (JStr "CallTool") ->
   (exists name, assoc "name" params = Some name) ->
   assoc "parameters" params = None ->
   process_request (JObj request) w = (inl (KeyError (JStr "parameters")), w)) /\
  (assoc "method" request = Some (JStr "ReadPrompt") ->
   assoc "promptId" params = None ->
   process_request (JObj request) w = (inl (KeyError (JStr "promptId")), w)) /\
  fault (KeyError (JStr "resourceId")) /\ fault (KeyError (JStr "name")) /\
  fault (KeyError (JStr "parameters")) /\ fault (KeyError (JStr "promptId")).
Proof.
  intros Hp. cbn in Hp. injection Hp as Hp.
  repeat split.
  - intros Hm Hk. unfold process_request, bind, lift. cbn [get].
    rewrite Hm, Hp. cbn. rewrite Hk. reflexivity.
  - intros Hm Hk. unfold process_request, bind, lift. cbn [get].
    rewrite Hm, Hp. cbn. rewrite Hk. reflexivity.
  - intros Hm [name Hn] Hk. unfold process_request, bind, lift. cbn [get].
    rewrite Hm, Hp. cbn. rewrite Hn, Hk. reflexivity.
  - intros Hm Hk. unfold process_request, bind, lift. cbn [get].
    rewrite Hm, Hp. cbn. rewrite Hk. reflexivity.
Qed.

(** * Further properties *)

(** ** What every request preserves *)

Section Preserved.

(** [R] relates two worlds whenever nothing the budget depends on has
    changed between them, is transitive, and relates the worlds before and
    after each call of [query_monday_api]. *)
Variable R : world -> world -> Prop.
Hypothesis R_frame :
  forall w w', rate_limits (srv w') = rate_limits (srv w) -> log w' = log w -> R w w'.
Hypothesis R_trans : forall w1 w2 w3, R w1 w2 -> R w2 w3 -> R w1 w3.
Hypothesis R_query : forall q v w, R w (snd (query_monday_api q v w)).

Lemma preserves_silent {A} (m : M A) :
  (forall w, rate_limits (srv (snd (m w))) = rate_limits (srv w) /\
             log (snd (m w)) = log w) ->
  preserves R m.
Proof using R_frame. intros H w. destruct (H w). apply R_frame; assumption. Qed.

Lemma preserves_bind {A B} (m : M A) (k : A -> M B) :
  preserves R m -> (forall a, preserves R (k a)) -> preserves R (bind m k).
Proof using R_trans.
  intros Hm Hk w. unfold bind. specialize (Hm w).
  destruct (m w) as [[e | a] w']; cbn in *; [exact Hm |].
  exact (R_trans _ _ _ Hm (Hk a w')).
Qed.

Lemma preserves_bind_lift {A B} (r : result A) (k : A -> M B) :
  (forall a, r = inr a -> preserves R (k a)) -> preserves R (bind (lift r) k).
Proof using R_frame.
  intros Hk w. unfold bind, lift. destruct r as [e | a]; cbn.
  - apply R_frame; reflexivity.
  - apply Hk. reflexivity.
Qed.

Lemma preserves_cached_and_fresh `{Countable K} (d : gmap K CacheEntry) (k : K) :
  preserves R (cached_and_fresh d k).
Proof using R_frame.
  apply preserves_silent. intros w. unfold cached_and_fresh.
  destruct (d !! k); split; reflexivity.
Qed.

Lemma preserves_entry `{Countable K} (d : gmap K CacheEntry) (k : K) (shown : json) :
  preserves R (entry d k shown).
Proof using R_frame.
  apply preserves_silent. intros w. unfold entry.
  destruct (d !! k); split; reflexivity.
Qed.

Ltac preserves_step :=
  lazymatch goal with
  | |- preserves _ (bind _ _) => apply preserves_bind; [| intros ?]
  | |- preserves _ (query_monday_api _ _) => intros ?; apply R_query
  | |- preserves _ (cached_and_fresh _ _) => apply preserves_cached_and_fresh
  | |- preserves _ (entry _ _ _) => apply preserves_entry
  | |- preserves _ (if ?b then _ else _) => destruct b
  | |- preserves _ (match ?x with _ => _ end) => destruct x
  | |- preserves _ _ => apply preserves_silent; intros ?; split; reflexivity
  end.

Lemma preserves_get_board_structure (p : json) : preserves R (get_board_structure p).
Proof using R_frame R_trans R_query. unfold get_board_structure. repeat preserves_step. Qed.

Lemma preserves_resource_handlers (s : string) (h : json -> M json) (p : json) :
  handler s resource_handlers = Some h -> preserves R (h p).
Proof using R_frame R_trans R_query.
  unfold resource_handlers. cbn [handler].
  repeat (destruct (String.eqb s _);
          [intros E; inversion E; subst;
           first [ apply preserves_get_board_structure
                 | unfold list_boards, list_items_by_board, list_items_by_status,
                     list_overdue_items, get_user_details, get_user_workload;
                   repeat first [ apply preserves_get_board_structure
                                | preserves_step ] ] |]).
  discriminate.
Qed.

Lemma preserves_tool_handlers (s : string) (h : json -> M json) (p : json) :
  handler s tool_handlers = Some h -> preserves R (h p).
Proof using R_frame R_trans R_query.
  unfold tool_handlers. cbn [handler].
  repeat (destruct (String.eqb s _);
          [intros E; inversion E; subst;
           unfold create_item, update_item_status, assign_user_to_item,
             add_update_to_item; repeat preserves_step |]).
  discriminate.
Qed.

Lemma preserves_read_resource (resource_id p : json) :
  preserves R (read_resource resource_id p).
Proof using R_frame R_trans R_query.
  unfold read_resource. apply preserves_bind_lift. intros found Hf.
  destruct (resolve_inv _ _ _ Hf) as [-> | [s [h [-> Hh]]]].
  - preserves_step.
  - exact (preserves_resource_handlers s h _ Hh).
Qed.

Lemma preserves_call_tool (name p : json) : preserves R (call_tool name p).
Proof using R_frame R_trans R_query.
  unfold call_tool. apply preserves_bind_lift. intros found Hf.
  destruct (resolve_inv _ _ _ Hf) as [-> | [s [h [-> Hh]]]].
  - preserves_step.
  - exact (preserves_tool_handlers s h _ Hh).
Qed.

(** Such a relation holds between the worlds before and after every
    request. *)
Lemma preserves_process_request (request : json) :
  preserves R (process_request request).
Proof using R_frame R_trans R_query.
  unfold process_request, list_resources, list_tools, list_prompts, read_prompt.
  repeat first [ apply preserves_read_resource | apply preserves_call_tool
               | preserves_step ].
Qed.

(** And so between the first and the last world of every run of requests. *)
Lemma preserves_serve (requests : list json) (w : world) : R w (serve requests w).
Proof using R_frame R_trans R_query.
  revert w. induction requests as [| request requests IH]; intros w; cbn [serve].
  - apply R_frame; reflexivity.
  - exact (R_trans _ _ _ (preserves_process_request request w) (IH _)).
Qed.

End Preserved.


(** The two worlds a call of [query_monday_api] can end in. *)
Lemma query_monday_api_world (q : query) (v : json) (w : world) :
  (refusing w /\ snd (query_monday_api q v w) = refused w) \/
  (0 < daily_of w /\ active_of w < 10 /\
   snd (query_monday_api q v w) = round_trip q (or_empty v) w).
Proof.
  destruct (check_rate_limit_inv w) as [[Hd _] | [[_ [Ha _]] | [Hd [Ha _]]]].
  - left. split; [left; exact Hd |].
    destruct (query_monday_api_refused q v w (or_introl Hd)) as [e [_ E]].
    rewrite E. reflexivity.
  - left. split; [right; exact Ha |].
    destruct (query_monday_api_refused q v w (or_intror Ha)) as [e [_ E]].
    rewrite E. reflexivity.
  - right. repeat split; try assumption.
    destruct (query_monday_api_granted q v w Hd Ha) as [r E].
    rewrite E. reflexivity.
Qed.

(** X1.  No request leaks a slot: whatever the request, the state, the
    clock and the upstream, [active_requests] after [process_request] is
    what it was before, on every way out. *)
Theorem process_request_releases_every_permit (request : json) (w : world) :
  active_of (snd (process_request request w)) = active_of w.
Proof.
  apply (preserves_process_request (fun w w' => active_of w' = active_of w)).
  - intros w1 w2 E _. rewrite E. reflexivity.
  - intros w1 w2 w3 E1 E2. congruence.
  - intros q v w1.
    destruct (query_monday_api_world q v w1) as [[_ E] | [_ [_ E]]]; rewrite E; cbn; lia.
Qed.

(** Budget and POSTs move together. *)
Lemma process_request_conserves (request : json) (w : world) :
  daily_of (snd (process_request request w))
  + Z.of_nat (posts (log (snd (process_request request w)))) =
  daily_of w + Z.of_nat (posts (log w)).
Proof.
  apply (preserves_process_request
           (fun w w' => daily_of w' + Z.of_nat (posts (log w')) =
                        daily_of w + Z.of_nat (posts (log w)))).
  - intros w1 w2 E1 E2. rewrite E1, E2. reflexivity.
  - intros w1 w2 w3 E1 E2. congruence.
  - intros q v w1.
    destruct (query_monday_api_world q v w1) as [[_ E] | [_ [_ E]]]; rewrite E;
      unfold posts; cbn; lia.
Qed.

(** X2.  The daily budget pays for POSTs and for nothing else: over every
    request, [daily_remaining] plus the number of POSTs made stays the
    same.  A unit spent on a call the upstream failed or answered with an
    error is not given back. *)
Theorem process_request_budget_conservation (request : json) (w : world) :
  daily_of (snd (process_request request w))
  + Z.of_nat (posts (log (snd (process_request request w)))) =
  daily_of w + Z.of_nat (posts (log w)).
Proof. exact (process_request_conserves request w). Qed.

(** X3.  Over its whole life a server makes at most 1000 POSTs: after any
    run of requests from the state [__init__] builds, [daily_remaining]
    is 1000 less the number of POSTs made and is not negative, and no
    request is in flight. *)
Theorem lifetime_budget (requests : list json) :
  daily_of (serve requests init) = 1000 - Z.of_nat (posts (log (serve requests init))) /\
  0 <= daily_of (serve requests init) /\
  (posts (log (serve requests init)) <= 1000)%nat /\
  active_of (serve requests init) = 0.
Proof.
  assert (H : daily_of (serve requests init)
              + Z.of_nat (posts (log (serve requests init))) = 1000 /\
              0 <= daily_of (serve requests init) /\
              active_of (serve requests init) = 0).
  { apply (preserves_serve
             (fun w w' => 0 <= daily_of w ->
                daily_of w' + Z.of_nat (posts (log w')) =
                  daily_of w + Z.of_nat (posts (log w)) /\
                0 <= daily_of w' /\ active_of w' = active_of w)
             ltac:(intros w1 w2 E1 E2 Hnn; rewrite E1, E2; auto)
             ltac:(intros w1 w2 w3 H1 H2 Hnn;
                   destruct (H1 Hnn) as [E1 [N1 A1]];
                   destruct (H2 N1) as [E2 [N2 A2]];
                   repeat split; congruence || assumption)
             ltac:(intros q v w1 Hnn;
                   destruct (query_monday_api_world q v w1) as [[_ E] | [Hd [_ E]]];
                   rewrite E; unfold posts; cbn; lia)
             requests init).
    cbn. lia. }
  destruct H as [E [N A]]. repeat split; try assumption; lia.
Qed.

(** X4.  A server that is out of budget, or has ten requests in flight,
    sends nothing: whatever the request, [process_request] makes no POST
    and leaves [rate_limits] as it is. *)
Theorem refusing_server_sends_nothing (request : json) (w : world) :
  refusing w ->
  posts (log (snd (process_request request w))) = posts (log w) /\
  rate_limits (srv (snd (process_request request w))) = rate_limits (srv w).
Proof.
  apply (preserves_process_request
           (fun w w' => refusing w ->
              posts (log w') = posts (log w) /\
              rate_limits (srv w') = rate_limits (srv w))).
  - intros w1 w2 E1 E2 _. rewrite E1, E2. split; reflexivity.
  - intros w1 w2 w3 H1 H2 Hr. destruct (H1 Hr) as [P1 L1].
    assert (Hr2 : refusing w2) by (unfold refusing in *; rewrite L1; exact Hr).
    destruct (H2 Hr2) as [P2 L2]. split; congruence.
  - intros q v w1 Hr.
    destruct (query_monday_api_world q v w1) as [[_ E] | [Hd [Ha _]]].
    + rewrite E. split; reflexivity.
    + unfold refusing in Hr. lia.
Qed.


(** X5.  Once the daily budget is used up it stays used up: from a world
    with [daily_remaining] at 0 or less, no run of requests makes a POST or
    changes [rate_limits].  Only a new server object has budget again. *)
Theorem exhausted_server_stays_exhausted (requests : list json) (w : world) :
  daily_of w <= 0 ->
  posts (log (serve requests w)) = posts (log w) /\
  rate_limits (srv (serve requests w)) = rate_limits (srv w).
Proof.
  apply (preserves_serve
           (fun w w' => daily_of w <= 0 ->
              posts (log w') = posts (log w) /\
              rate_limits (srv w') = rate_limits (srv w))).
  - intros w1 w2 E1 E2 _. rewrite E1, E2. split; reflexivity.
  - intros w1 w2 w3 H1 H2 Hd. destruct (H1 Hd) as [P1 L1].
    assert (Hd2 : daily_of w2 <= 0) by (rewrite L1; exact Hd).
    destruct (H2 Hd2) as [P2 L2]. split; congruence.
  - intros q v w1 Hd.
    destruct (query_monday_api_world q v w1) as [[_ E] | [Hd' _]].
    + rewrite E. split; reflexivity.
    + lia.
Qed.

(** ** What a request costs *)

Lemma within_silent {A} (n : nat) (m : M A) :
  (forall w, log (snd (m w)) = log w) -> within n m.
Proof. intros H w. rewrite H. lia. Qed.

Lemma within_bind {A B} (n1 n2 : nat) (m : M A) (k : A -> M B) :
  within n1 m -> (forall a, within n2 (k a)) -> within (n1 + n2) (bind m k).
Proof.
  intros Hm Hk w. unfold bind. specialize (Hm w).
  destruct (m w) as [[e | a] w']; cbn in *; [lia |].
  specialize (Hk a w'). lia.
Qed.

Lemma within_bind_lift {A B} (n : nat) (r : result A) (k : A -> M B) :
  (forall a, r = inr a -> within n (k a)) -> within n (bind (lift r) k).
Proof.
  intros Hk w. unfold bind, lift. destruct r as [e | a]; cbn; [lia |].
  apply Hk. reflexivity.
Qed.

Lemma within_weaken {A} (n n' : nat) (m : M A) :
  (n <= n')%nat -> within n m -> within n' m.
Proof. intros Hle H w. specialize (H w). lia. Qed.

Lemma within_query_monday_api (q : query) (v : json) : within 1 (query_monday_api q v).
Proof.
  intros w.
  destruct (query_monday_api_world q v w) as [[_ E] | [_ [_ E]]]; rewrite E;
    unfold posts; cbn; lia.
Qed.

Lemma within_cached_and_fresh `{Countable K} (n : nat) (d : gmap K CacheEntry) (k : K) :
  within n (cached_and_fresh d k).
Proof.
  apply within_silent. intros w. unfold cached_and_fresh.
  destruct (d !! k); reflexivity.
Qed.

Lemma within_entry `{Countable K} (n : nat) (d : gmap K CacheEntry) (k : K)
      (shown : json) :
  within n (entry d k shown).
Proof.
  apply within_silent. intros w. unfold entry. destruct (d !! k); reflexivity.
Qed.

(** One step of the count: a call of [query_monday_api] takes one POST of
    the allowance, every other step takes none. *)
Ltac within_step :=
  lazymatch goal with
  | |- within (S ?n) (bind (query_monday_api _ _) _) =>
      apply (within_bind 1 n); [apply within_query_monday_api | intros ?]
  | |- within ?n (bind _ _) => apply (within_bind 0 n); [| intros ?]
  | |- within _ (query_monday_api _ _) =>
      apply (within_weaken 1); [lia | apply within_query_monday_api]
  | |- within _ (cached_and_fresh _ _) => apply within_cached_and_fresh
  | |- within _ (entry _ _ _) => apply within_entry
  | |- within _ (if ?b then _ else _) => destruct b
  | |- within _ (match ?x with _ => _ end) => destruct x
  | |- within _ _ => apply within_silent; intros ?; reflexivity
  end.

Lemma within_get_board_structure (p : json) : within 1 (get_board_structure p).
Proof. unfold get_board_structure. repeat within_step. Qed.

Lemma within_list_items_by_status (p : json) : within 2 (list_items_by_status p).
Proof.
  unfold list_items_by_status.
  repeat first
    [ lazymatch goal with
      | |- within 2 (bind (get_board_structure _) _) =>
          apply (within_bind 1 1); [apply within_get_board_structure | intros ?]
      end
    | within_step ].
Qed.

Lemma within_resource_handlers (s : string) (h : json -> M json) (p : json) :
  handler s resource_handlers = Some h -> within 2 (h p).
Proof.
  unfold resource_handlers. cbn [handler].
  repeat (destruct (String.eqb s _);
          [intros E; inversion E; subst;
           first [ apply within_list_items_by_status
                 | apply (within_weaken 1); [lia |];
                   first [ apply within_get_board_structure
                         | unfold list_boards, list_items_by_board, list_overdue_items,
                             get_user_details, get_user_workload;
                           repeat within_step ] ] |]).
  discriminate.
Qed.

Lemma within_tool_handlers (s : string) (h : json -> M json) (p : json) :
  handler s tool_handlers = Some h -> within 1 (h p).
Proof.
  unfold tool_handlers. cbn [handler].
  repeat (destruct (String.eqb s _);
          [intros E; inversion E; subst;
           unfold create_item, update_item_status, assign_user_to_item,
             add_update_to_item; repeat within_step |]).
  discriminate.
Qed.

Lemma within_read_resource (resource_id p : json) : within 2 (read_resource resource_id p).
Proof.
  unfold read_resource. apply within_bind_lift. intros found Hf.
  destruct (resolve_inv _ _ _ Hf) as [-> | [s [h [-> Hh]]]].
  - within_step.
  - exact (within_resource_handlers s h _ Hh).
Qed.

Lemma within_call_tool (name p : json) : within 1 (call_tool name p).
Proof.
  unfold call_tool. apply within_bind_lift. intros found Hf.
  destruct (resolve_inv _ _ _ Hf) as [-> | [s [h [-> Hh]]]].
  - within_step.
  - exact (within_tool_handlers s h _ Hh).
Qed.

Lemma within_process_request (request : json) : within 2 (process_request request).
Proof.
  unfold process_request, list_resources, list_tools, list_prompts, read_prompt.
  repeat first [ apply within_read_resource
               | apply (within_weaken 1 2); [lia | apply within_call_tool]
               | within_step ].
Qed.

(** X6.  A request costs at most two POSTs and so at most two units of the
    daily budget; a tool call costs at most one. *)
Theorem process_request_cost (request : json) (w : world) :
  (posts (log (snd (process_request request w))) <= posts (log w) + 2)%nat /\
  daily_of w - 2 <= daily_of (snd (process_request request w)) <= daily_of w /\
  (forall name p,
     (posts (log (snd (call_tool name p w))) <= posts (log w) + 1)%nat).
Proof.
  pose proof (within_process_request request w) as Hp.
  pose proof (process_request_conserves request w) as Hc.
  assert (Hmono : (posts (log w) <= posts (log (snd (process_request request w))))%nat).
  { apply (preserves_process_request
             (fun w w' => (posts (log w) <= posts (log w'))%nat)).
    - intros w1 w2 _ E. rewrite E. lia.
    - intros w1 w2 w3 H1 H2. lia.
    - intros q v w1.
      destruct (query_monday_api_world q v w1) as [[_ E] | [_ [_ E]]]; rewrite E;
        unfold posts; cbn; lia. }
  split; [exact Hp |]. split; [lia |].
  intros name p. apply within_call_tool.
Qed.


(** ** Runs of limiter calls *)

Lemma acquire_n_spec (n : nat) :
  forall w : world,
    Z.of_nat (fst (acquire_n n w)) =
      Z.max 0 (Z.min (Z.of_nat n) (Z.min (daily_of w) (10 - active_of w))) /\
    daily_of (snd (acquire_n n w)) = daily_of w - Z.of_nat (fst (acquire_n n w)) /\
    active_of (snd (acquire_n n w)) = active_of w + Z.of_nat (fst (acquire_n n w)) /\
    reset_of (snd (acquire_n n w)) = reset_of w /\
    cache (srv (snd (acquire_n n w))) = cache (srv w).
Proof.
  induction n as [| n IH]; intros w.
  - cbn. repeat split; lia.
  - cbn [acquire_n].
    destruct (check_rate_limit_inv w) as [[Hd E] | [[Hd [Ha E]] | [Hd [Ha E]]]];
      rewrite E.
    + destruct (IH (refused w)) as [Hg [Hdd [Haa [Hr Hc]]]]. clear E.
      unfold refused in *. cbn in *. repeat split; try assumption; lia.
    + destruct (IH (refused w)) as [Hg [Hdd [Haa [Hr Hc]]]]. clear E.
      unfold refused in *. cbn in *. repeat split; try assumption; lia.
    + clear E.
      match goal with
      | |- context [acquire_n n ?w1] =>
          destruct (IH w1) as [Hg [Hdd [Haa [Hr Hc]]]];
          destruct (acquire_n n w1) as [g w2]
      end.
      cbn in *. repeat split; try assumption; lia.
Qed.

(** X7.  Of [n] calls of [_check_rate_limit] in a row, with no release in
    between, exactly the first min(n, daily_remaining, 10 - active_requests)
    are admitted (none when that is negative); each admitted call takes one
    unit of the budget and one slot. *)
Theorem acquire_n_capacity (n : nat) (w : world) :
  Z.of_nat (fst (acquire_n n w)) =
    Z.max 0 (Z.min (Z.of_nat n) (Z.min (daily_of w) (10 - active_of w))) /\
  daily_of (snd (acquire_n n w)) = daily_of w - Z.of_nat (fst (acquire_n n w)) /\
  active_of (snd (acquire_n n w)) = active_of w + Z.of_nat (fst (acquire_n n w)).
Proof.
  destruct (acquire_n_spec n w) as [Hg [Hd [Ha _]]]. repeat split; assumption.
Qed.

Lemma release_n_spec (k : nat) :
  forall w : world,
    active_of (release_n k w) = active_of w - Z.of_nat k /\
    daily_of (release_n k w) = daily_of w /\
    reset_of (release_n k w) = reset_of w /\
    cache (srv (release_n k w)) = cache (srv w).
Proof.
  induction k as [| k IH]; intros w.
  - cbn. repeat split; lia.
  - cbn [release_n]. rewrite release_rate_limit_eq. cbn [snd].
    destruct (IH {| srv := {| rate_limits := {| daily_remaining := daily_of w;
                                                 reset_time := reset_of w;
                                                 active_requests := active_of w - 1 |};
                              cache := cache (srv w) |};
                    ticks := ticks w; log := ReleaseCalled :: log w |})
      as [Ha [Hd [Hr Hc]]].
    cbn in *. repeat split; try assumption; lia.
Qed.

(** X8.  [_release_rate_limit] does not check that a permit is out: it
    takes one from [active_requests] whatever its value.  After [k]
    releases that no acquisition preceded, the limiter admits
    min(n, daily_remaining, 10 - active_requests + k) of [n] requests in a
    row, so more than ten can be in flight together. *)
Theorem unpaired_release_raises_capacity (k n : nat) (w : world) :
  active_of (release_n k w) = active_of w - Z.of_nat k /\
  Z.of_nat (fst (acquire_n n (release_n k w))) =
    Z.max 0 (Z.min (Z.of_nat n)
               (Z.min (daily_of w) (10 - active_of w + Z.of_nat k))).
Proof.
  destruct (release_n_spec k w) as [Ha [Hd _]].
  destruct (acquire_n_spec n (release_n k w)) as [Hg _].
  split; [exact Ha |]. rewrite Hg, Ha, Hd. f_equal. f_equal. f_equal. lia.
Qed.


(** ** What the upstream client returns *)

(** X9.  [query_monday_api] returns a value in one case only: the call was
    admitted, the response is an object with no ["errors"] key, and the
    value is what the object holds under ["data"].  A response that has an
    ["errors"] key, whatever is under it, or that is not an object, never
    yields data. *)
Theorem query_monday_api_returns_iff (q : query) (v : json) (w : world) (x : json) :
  fst (query_monday_api q v w) = inr x <->
  0 < daily_of w /\ active_of w < 10 /\
  exists d, upstream (posts (log w)) q (or_empty v) = Responds (JObj d) /\
            assoc "errors" d = None /\ assoc "data" d = Some x.
Proof.
  split.
  - intros Hx.
    destruct (check_rate_limit_inv w) as [[Hd _] | [[_ [Ha _]] | [Hd [Ha _]]]].
    + destruct (query_monday_api_refused q v w (or_introl Hd)) as [e [_ E]].
      rewrite E in Hx. discriminate.
    + destruct (query_monday_api_refused q v w (or_intror Ha)) as [e [_ E]].
      rewrite E in Hx. discriminate.
    + split; [exact Hd |]. split; [exact Ha |].
      unfold query_monday_api, bind at 1 in Hx.
      rewrite (check_rate_limit_granted w Hd Ha) in Hx.
      unfold try_finally, post, bind, lift, raise, posts in *. cbn in Hx.
      destruct (upstream _ q (or_empty v)) as [cls msg | body]; [discriminate |].
      destruct body as [| b | n | s | l | d]; cbn in Hx; try discriminate.
      * destruct (String.index 0 "errors" s); discriminate.
      * destruct (existsb (is_str "errors") l); discriminate.
      * exists d. split; [reflexivity |].
        destruct (assoc "errors" d) as [errs |] eqn:He; cbn in Hx.
        -- exfalso. destruct (item0 errs) as [e | first]; cbn in Hx; [discriminate |].
           destruct (subscript first "message"); discriminate.
        -- split; [reflexivity |].
           destruct (assoc "data" d) as [y |]; cbn in Hx; [| discriminate].
           congruence.
  - intros [Hd [Ha [d [Hu [He Hx]]]]].
    rewrite (query_monday_api_data q v w d x Hd Ha Hu He Hx). reflexivity.
Qed.


(** ** Reads through the cache, in every state *)

(** The freshness test has three outcomes: fresh entry, stale entry (both
    after one clock reading), absent key (no reading). *)
Lemma cached_and_fresh_cases `{Countable K} (d : gmap K CacheEntry) (k : K) (w : world) :
  (exists e, d !! k = Some e /\ (clock (ticks w) - timestamp e < 300)%Q /\
             cached_and_fresh d k w = (inr true, tick w)) \/
  (exists e, d !! k = Some e /\ ~ (clock (ticks w) - timestamp e < 300)%Q /\
             cached_and_fresh d k w = (inr false, tick w)) \/
  (d !! k = None /\ cached_and_fresh d k w = (inr false, w)).
Proof.
  destruct (d !! k) as [e |] eqn:E.
  - rewrite (cached_and_fresh_present d k e w E).
    destruct (negb (Qle_bool (timestamp e) (clock (ticks w) - 300))) eqn:Hb.
    + left. exists e. repeat split. apply fresh_iff. exact Hb.
    + right; left. exists e. repeat split. intros Hf. apply fresh_iff in Hf. congruence.
  - right; right. split; [reflexivity |]. apply cached_and_fresh_absent. exact E.
Qed.

(** A call of [query_monday_api] that returns was admitted. *)
Lemma query_monday_api_inr (q : query) (v : json) (w : world) (x : json) :
  fst (query_monday_api q v w) = inr x ->
  query_monday_api q v w = (inr x, round_trip q (or_empty v) w).
Proof.
  intros Hx.
  destruct (check_rate_limit_inv w) as [[Hd _] | [[_ [Ha _]] | [Hd [Ha _]]]].
  - destruct (query_monday_api_refused q v w (or_introl Hd)) as [e [_ E]].
    rewrite E in Hx. discriminate.
  - destruct (query_monday_api_refused q v w (or_intror Ha)) as [e [_ E]].
    rewrite E in Hx. discriminate.
  - destruct (query_monday_api_granted q v w Hd Ha) as [r E].
    rewrite E in *. cbn in Hx. subst r. reflexivity.
Qed.

(** The world a cached read leaves when it went upstream and stored
    [entry]: one round trip, one more clock reading, [entry] in [c]. *)
Lemma list_boards_miss_ok (p : json) (w w0 : world) (v : json) :
  cached_and_fresh (boards (cache (srv w))) "all" w = (inr false, w0) ->
  fst (list_boards p w) = inr v ->
  exists bs,
    v = content bs /\
    list_boards p w =
      (inr v,
       {| srv := {| rate_limits := rate_limits (srv (round_trip BoardsQuery (JObj []) w0));
                    cache := set_boards
                               (<["all" := {| timestamp := clock (ticks w0); data := bs |}]>
                                  (boards (cache (srv w)))) (cache (srv w)) |};
          ticks := S (ticks w0);
          log := ReleaseCalled :: Posted BoardsQuery (JObj []) :: CheckCalled :: log w |}).
Proof.
  intros Hm. destruct (cached_and_fresh_miss _ _ _ _ Hm) as [Hs [Hl _]].
  unfold list_boards, bind, get_cache. rewrite Hm.
  destruct (query_monday_api BoardsQuery JNull w0) as [[x | result] w1] eqn:Eq;
    cbn [fst snd]; [discriminate |].
  assert (Eq' : query_monday_api BoardsQuery JNull w0 =
                (inr result, round_trip BoardsQuery (or_empty JNull) w0))
    by (apply query_monday_api_inr; rewrite Eq; reflexivity).
  rewrite Eq in Eq'. inversion Eq'; subst w1; clear Eq'.
  run. destruct (subscript result "boards") as [x | bs]; cbn; [discriminate |].
  intros Hv. inversion Hv. exists bs. split; [reflexivity |].
  rewrite Hs, Hl. reflexivity.
Qed.

Lemma get_board_structure_miss_ok (p board_id : json) (w w0 : world) (v : json) :
  subscript p "board_id" = inr board_id ->
  cached_and_fresh (board_structure (cache (srv w))) ("structure-" +:+ str board_id) w =
    (inr false, w0) ->
  fst (get_board_structure p w) = inr v ->
  exists b,
    v = content b /\
    get_board_structure p w =
      (inr v,
       {| srv := {| rate_limits :=
                      rate_limits (srv (round_trip (BoardStructureQuery (str board_id))
                                          (JObj []) w0));
                    cache := set_board_structure
                               (<["structure-" +:+ str board_id :=
                                    {| timestamp := clock (ticks w0); data := b |}]>
                                  (board_structure (cache (srv w)))) (cache (srv w)) |};
          ticks := S (ticks w0);
          log := ReleaseCalled :: Posted (BoardStructureQuery (str board_id)) (JObj [])
                   :: CheckCalled :: log w |}).
Proof.
  intros Hp Hm. destruct (cached_and_fresh_miss _ _ _ _ Hm) as [Hs [Hl _]].
  unfold get_board_structure, bind, lift, get_cache.
  rewrite (subscript_contains _ _ _ Hp), Hp. cbn [negb]. rewrite Hm.
  destruct (query_monday_api (BoardStructureQuery (str board_id)) JNull w0)
    as [[x | result] w1] eqn:Eq; cbn [fst snd]; [discriminate |].
  assert (Eq' : query_monday_api (BoardStructureQuery (str board_id)) JNull w0 =
                (inr result,
                 round_trip (BoardStructureQuery (str board_id)) (or_empty JNull) w0))
    by (apply query_monday_api_inr; rewrite Eq; reflexivity).
  rewrite Eq in Eq'. inversion Eq'; subst w1; clear Eq'.
  run. destruct (subscript result "boards") as [x | bs]; cbn; [discriminate |].
  destruct (item0 bs) as [x | b]; cbn; [discriminate |].
  intros Hv. inversion Hv. exists b. split; [reflexivity |].
  rewrite Hs, Hl. reflexivity.
Qed.

Lemma get_user_details_miss_ok (p user_id : json) (k : Py.key) (w w0 : world) (v : json) :
  subscript p "user_id" = inr user_id ->
  hash user_id = inr k ->
  cached_and_fresh (users (cache (srv w))) k w = (inr false, w0) ->
  fst (get_user_details p w) = inr v ->
  exists u,
    v = content u /\
    get_user_details p w =
      (inr v,
       {| srv := {| rate_limits :=
                      rate_limits (srv (round_trip (UserDetailsQuery (str user_id))
                                          (JObj []) w0));
                    cache := set_users
                               (<[k := {| timestamp := clock (ticks w0); data := u |}]>
                                  (users (cache (srv w)))) (cache (srv w)) |};
          ticks := S (ticks w0);
          log := ReleaseCalled :: Posted (UserDetailsQuery (str user_id)) (JObj [])
                   :: CheckCalled :: log w |}).
Proof.
  intros Hp Hk Hm. destruct (cached_and_fresh_miss _ _ _ _ Hm) as [Hs [Hl _]].
  unfold get_user_details, bind, lift, get_cache.
  rewrite (subscript_contains _ _ _ Hp), Hp, Hk. cbn [negb]. rewrite Hm.
  destruct (query_monday_api (UserDetailsQuery (str user_id)) JNull w0)
    as [[x | result] w1] eqn:Eq; cbn [fst snd]; [discriminate |].
  assert (Eq' : query_monday_api (UserDetailsQuery (str user_id)) JNull w0 =
                (inr result,
                 round_trip (UserDetailsQuery (str user_id)) (or_empty JNull) w0))
    by (apply query_monday_api_inr; rewrite Eq; reflexivity).
  rewrite Eq in Eq'. inversion Eq'; subst w1; clear Eq'.
  run. destruct (subscript result "users") as [x | us]; cbn; [discriminate |].
  destruct (item0 us) as [x | u]; cbn; [discriminate |].
  intros Hv. inversion Hv. exists u. split; [reflexivity |].
  rewrite Hs, Hl. reflexivity.
Qed.


(** X10.  A read that went upstream and returned can be repeated: if the
    next clock reading is less than 300 after the one the entry was
    stamped with, the same read returns the same content again, from the
    cache, making no POST and changing nothing in the server. *)
Theorem cached_read_repeats :
  (forall (p p' : json) (w : world) (v : json),
     let r := list_boards p w in
     fst r = inr v ->
     posts (log (snd r)) = S (posts (log w)) ->
     (clock (ticks (snd r)) - clock (Nat.pred (ticks (snd r))) < 300)%Q ->
     list_boards p' (snd r) = (inr v, tick (snd r))) /\
  (forall (p : json) (w : world) (v : json),
     let r := get_board_structure p w in
     fst r = inr v ->
     posts (log (snd r)) = S (posts (log w)) ->
     (clock (ticks (snd r)) - clock (Nat.pred (ticks (snd r))) < 300)%Q ->
     get_board_structure p (snd r) = (inr v, tick (snd r))) /\
  (forall (p : json) (w : world) (v : json),
     let r := get_user_details p w in
     fst r = inr v ->
     posts (log (snd r)) = S (posts (log w)) ->
     (clock (ticks (snd r)) - clock (Nat.pred (ticks (snd r))) < 300)%Q ->
     get_user_details p (snd r) = (inr v, tick (snd r))).
Proof.
  split; [| split].
  - intros p p' w v r Hv Hposts Hf.
    assert (Hmiss : exists w0, cached_and_fresh (boards (cache (srv w))) "all" w =
                                 (inr false, w0)).
    { destruct (cached_and_fresh_cases (boards (cache (srv w))) "all" w)
        as [[e [E [Hfr _]]] | [[e [_ [_ Hm]]] | [_ Hm]]]; eauto.
      exfalso. subst r. rewrite (list_boards_hit p w e E Hfr) in Hposts.
      unfold posts in Hposts. cbn in Hposts. lia. }
    destruct Hmiss as [w0 Hm].
    destruct (list_boards_miss_ok p w w0 v Hm Hv) as [bs [-> Er]].
    subst r. rewrite Er in *. cbn [snd ticks Nat.pred] in *.
    apply (list_boards_hit p' _ {| timestamp := clock (ticks w0); data := bs |}).
    + cbn. apply lookup_insert_eq.
    + exact Hf.
  - intros p w v r Hv Hposts Hf.
    assert (Hp : exists board_id, subscript p "board_id" = inr board_id).
    { subst r. unfold get_board_structure, bind, lift in Hv.
      destruct (contains "board_id" p) as [e | []]; cbn in Hv; try discriminate.
      destruct (subscript p "board_id") as [e | b]; cbn in Hv; [discriminate |].
      eauto. }
    destruct Hp as [board_id Hp].
    assert (Hmiss : exists w0,
              cached_and_fresh (board_structure (cache (srv w)))
                ("structure-" +:+ str board_id) w = (inr false, w0)).
    { destruct (cached_and_fresh_cases (board_structure (cache (srv w)))
                  ("structure-" +:+ str board_id) w)
        as [[e [E [Hfr _]]] | [[e [_ [_ Hm]]] | [_ Hm]]]; eauto.
      exfalso. subst r. rewrite (get_board_structure_hit p board_id w e Hp E Hfr) in Hposts.
      unfold posts in Hposts. cbn in Hposts. lia. }
    destruct Hmiss as [w0 Hm].
    destruct (get_board_structure_miss_ok p board_id w w0 v Hp Hm Hv) as [b [-> Er]].
    subst r. rewrite Er in *. cbn [snd ticks Nat.pred] in *.
    apply (get_board_structure_hit p board_id _
             {| timestamp := clock (ticks w0); data := b |} Hp).
    + cbn. apply lookup_insert_eq.
    + exact Hf.
  - intros p w v r Hv Hposts Hf.
    assert (Hp : exists user_id k, subscript p "user_id" = inr user_id /\
                                   hash user_id = inr k).
    { subst r. unfold get_user_details, bind, lift in Hv.
      destruct (contains "user_id" p) as [e | []]; cbn in Hv; try discriminate.
      destruct (subscript p "user_id") as [e | u]; cbn in Hv; [discriminate |].
      destruct (hash u) as [e | k] eqn:Hk; cbn in Hv; [discriminate |].
      eauto. }
    destruct Hp as [user_id [k [Hp Hk]]].
    assert (Hmiss : exists w0,
              cached_and_fresh (users (cache (srv w))) k w = (inr false, w0)).
    { destruct (cached_and_fresh_cases (users (cache (srv w))) k w)
        as [[e [E [Hfr _]]] | [[e [_ [_ Hm]]] | [_ Hm]]]; eauto.
      exfalso. subst r. rewrite (get_user_details_hit p user_id k w e Hp Hk E Hfr) in Hposts.
      unfold posts in Hposts. cbn in Hposts. lia. }
    destruct Hmiss as [w0 Hm].
    destruct (get_user_details_miss_ok p user_id k w w0 v Hp Hk Hm Hv) as [u [-> Er]].
    subst r. rewrite Er in *. cbn [snd ticks Nat.pred] in *.
    apply (get_user_details_hit p user_id k _
             {| timestamp := clock (ticks w0); data := u |} Hp Hk).
    + cbn. apply lookup_insert_eq.
    + exact Hf.
Qed.


(** What a cached read can do to the cache: nothing, or, when it returns
    what it fetched, one store under its own key. *)
Lemma list_boards_cache_effect (p : json) (w : world) :
  cache (srv (snd (list_boards p w))) = cache (srv w) \/
  exists bs t,
    fst (list_boards p w) = inr (content bs) /\
    cache (srv (snd (list_boards p w))) =
      set_boards (<["all" := {| timestamp := t; data := bs |}]> (boards (cache (srv w))))
        (cache (srv w)).
Proof.
  assert (Hmiss : forall w0,
            cached_and_fresh (boards (cache (srv w))) "all" w = (inr false, w0) ->
            cache (srv (snd (list_boards p w))) = cache (srv w) \/
            exists bs t,
              fst (list_boards p w) = inr (content bs) /\
              cache (srv (snd (list_boards p w))) =
                set_boards (<["all" := {| timestamp := t; data := bs |}]>
                              (boards (cache (srv w)))) (cache (srv w))).
  { intros w0 Hm. destruct (list_boards_miss p w w0 Hm) as [_ [Hfail Hok]].
    destruct (fst (list_boards p w)) as [x | v] eqn:Er.
    - left. exact (Hfail x eq_refl).
    - right. destruct (Hok v eq_refl) as [bs [-> Hc]]. eauto. }
  destruct (cached_and_fresh_cases (boards (cache (srv w))) "all" w)
    as [[e [E [Hfr _]]] | [[e [_ [_ Hm]]] | [_ Hm]]]; eauto.
  left. rewrite (list_boards_hit p w e E Hfr). reflexivity.
Qed.

Lemma get_board_structure_early (p : json) (w : world) :
  (forall b, subscript p "board_id" <> inr b) ->
  snd (get_board_structure p w) = w /\ exists e, fst (get_board_structure p w) = inl e.
Proof.
  intros Hn. unfold get_board_structure, bind, lift.
  destruct (contains "board_id" p) as [e | []]; cbn; eauto.
  destruct (subscript p "board_id") as [e | b]; cbn; eauto.
  exfalso. exact (Hn b eq_refl).
Qed.

Lemma get_board_structure_cache_effect (p : json) (w : world) :
  cache (srv (snd (get_board_structure p w))) = cache (srv w) \/
  exists board_id b t,
    subscript p "board_id" = inr board_id /\
    fst (get_board_structure p w) = inr (content b) /\
    cache (srv (snd (get_board_structure p w))) =
      set_board_structure
        (<["structure-" +:+ str board_id := {| timestamp := t; data := b |}]>
           (board_structure (cache (srv w)))) (cache (srv w)).
Proof.
  assert (Hcase : (exists b, subscript p "board_id" = inr b) \/
                  (forall b, subscript p "board_id" <> inr b)).
  { destruct (subscript p "board_id") as [e | b]; [right; congruence | left; eauto]. }
  destruct Hcase as [[board_id Hp] | Hn].
  - assert (Hmiss : forall w0,
              cached_and_fresh (board_structure (cache (srv w)))
                ("structure-" +:+ str board_id) w = (inr false, w0) ->
              cache (srv (snd (get_board_structure p w))) = cache (srv w) \/
              exists board_id b t,
                subscript p "board_id" = inr board_id /\
                fst (get_board_structure p w) = inr (content b) /\
                cache (srv (snd (get_board_structure p w))) =
                  set_board_structure
                    (<["structure-" +:+ str board_id := {| timestamp := t; data := b |}]>
                       (board_structure (cache (srv w)))) (cache (srv w))).
    { intros w0 Hm.
      destruct (get_board_structure_miss p board_id w w0 Hp Hm) as [_ [Hfail Hok]].
      destruct (fst (get_board_structure p w)) as [x | v] eqn:Er.
      - left. exact (Hfail x eq_refl).
      - right. destruct (Hok v eq_refl) as [b [-> Hc]]. exists board_id, b. eauto. }
    destruct (cached_and_fresh_cases (board_structure (cache (srv w)))
                ("structure-" +:+ str board_id) w)
      as [[e [E [Hfr _]]] | [[e [_ [_ Hm]]] | [_ Hm]]]; eauto.
    left. rewrite (get_board_structure_hit p board_id w e Hp E Hfr). reflexivity.
  - left. destruct (get_board_structure_early p w Hn) as [E _].
    rewrite E. reflexivity.
Qed.

Lemma get_user_details_early (p : json) (w : world) :
  (forall u k, subscript p "user_id" = inr u -> hash u <> inr k) ->
  snd (get_user_details p w) = w /\ exists e, fst (get_user_details p w) = inl e.
Proof.
  intros Hn. unfold get_user_details, bind, lift.
  destruct (contains "user_id" p) as [e | []]; cbn; eauto.
  destruct (subscript p "user_id") as [e | u]; cbn; eauto.
  destruct (hash u) as [e | k] eqn:Hk; cbn; eauto.
  exfalso. exact (Hn u k eq_refl Hk).
Qed.

Lemma get_user_details_cache_effect (p : json) (w : world) :
  cache (srv (snd (get_user_details p w))) = cache (srv w) \/
  exists user_id k u t,
    subscript p "user_id" = inr user_id /\
    hash user_id = inr k /\
    fst (get_user_details p w) = inr (content u) /\
    cache (srv (snd (get_user_details p w))) =
      set_users (<[k := {| timestamp := t; data := u |}]> (users (cache (srv w))))
        (cache (srv w)).
Proof.
  assert (Hcase : (exists u k, subscript p "user_id" = inr u /\ hash u = inr k) \/
                  (forall u k, subscript p "user_id" = inr u -> hash u <> inr k)).
  { destruct (subscript p "user_id") as [e | u]; [right; congruence |].
    destruct (hash u) as [e | k] eqn:Hk; [right | left; eauto].
    intros u' k' Hu. inversion Hu; subst. congruence. }
  destruct Hcase as [[user_id [k [Hp Hk]]] | Hn].
  - assert (Hmiss : forall w0,
              cached_and_fresh (users (cache (srv w))) k w = (inr false, w0) ->
              cache (srv (snd (get_user_details p w))) = cache (srv w) \/
              exists user_id k u t,
                subscript p "user_id" = inr user_id /\
                hash user_id = inr k /\
                fst (get_user_details p w) = inr (content u) /\
                cache (srv (snd (get_user_details p w))) =
                  set_users (<[k := {| timestamp := t; data := u |}]>
                               (users (cache (srv w)))) (cache (srv w))).
    { intros w0 Hm.
      destruct (get_user_details_miss p user_id k w w0 Hp Hk Hm) as [_ [Hfail Hok]].
      destruct (fst (get_user_details p w)) as [x | v] eqn:Er.
      - left. exact (Hfail x eq_refl).
      - right. destruct (Hok v eq_refl) as [u [-> Hc]]. exists user_id, k, u. eauto. }
    destruct (cached_and_fresh_cases (users (cache (srv w))) k w)
      as [[e [E [Hfr _]]] | [[e [_ [_ Hm]]] | [_ Hm]]]; eauto.
    left. rewrite (get_user_details_hit p user_id k w e Hp Hk E Hfr). reflexivity.
  - left. destruct (get_user_details_early p w Hn) as [E _].
    rewrite E. reflexivity.
Qed.

(** X11.  A cached read that raises has not written the cache: whatever
    the parameters and the state, if [list_boards], [get_board_structure]
    or [get_user_details] ends in an exception, every cache dict holds
    what it held before.  In particular a failed fetch leaves no entry
    for a key that had none. *)
Theorem failed_read_leaves_cache (p : json) (w : world) (x : exn) :
  (fst (list_boards p w) = inl x ->
   cache (srv (snd (list_boards p w))) = cache (srv w)) /\
  (fst (get_board_structure p w) = inl x ->
   cache (srv (snd (get_board_structure p w))) = cache (srv w)) /\
  (fst (get_user_details p w) = inl x ->
   cache (srv (snd (get_user_details p w))) = cache (srv w)).
Proof.
  split; [| split]; intros Hx.
  - destruct (list_boards_cache_effect p w) as [E | [bs [t [Hr _]]]]; [exact E |].
    rewrite Hr in Hx. discriminate.
  - destruct (get_board_structure_cache_effect p w) as [E | [b0 [b [t [_ [Hr _]]]]]];
      [exact E |].
    rewrite Hr in Hx. discriminate.
  - destruct (get_user_details_cache_effect p w) as [E | [u0 [k [u [t [_ [_ [Hr _]]]]]]]];
      [exact E |].
    rewrite Hr in Hx. discriminate.
Qed.

(** X12.  A cached read writes at most the entry of its own key.
    [list_boards] can only change [boards["all"]]; [get_board_structure]
    only the entry of its ["structure-" + str(board_id)]; and
    [get_user_details] only the entry of its [user_id]; the other dicts
    and the other keys keep their entries, timestamps included. *)
Theorem cached_read_touches_own_key (p : json) (w : world) :
  (board_structure (cache (srv (snd (list_boards p w)))) = board_structure (cache (srv w)) /\
   items (cache (srv (snd (list_boards p w)))) = items (cache (srv w)) /\
   users (cache (srv (snd (list_boards p w)))) = users (cache (srv w)) /\
   forall key, key <> "all" ->
     boards (cache (srv (snd (list_boards p w)))) !! key = boards (cache (srv w)) !! key) /\
  (boards (cache (srv (snd (get_board_structure p w)))) = boards (cache (srv w)) /\
   items (cache (srv (snd (get_board_structure p w)))) = items (cache (srv w)) /\
   users (cache (srv (snd (get_board_structure p w)))) = users (cache (srv w)) /\
   forall key,
     (forall b, subscript p "board_id" = inr b -> key <> "structure-" +:+ str b) ->
     board_structure (cache (srv (snd (get_board_structure p w)))) !! key =
       board_structure (cache (srv w)) !! key) /\
  (boards (cache (srv (snd (get_user_details p w)))) = boards (cache (srv w)) /\
   board_structure (cache (srv (snd (get_user_details p w)))) =
     board_structure (cache (srv w)) /\
   items (cache (srv (snd (get_user_details p w)))) = items (cache (srv w)) /\
   forall k,
     (forall u, subscript p "user_id" = inr u -> hash u <> inr k) ->
     users (cache (srv (snd (get_user_details p w)))) !! k = users (cache (srv w)) !! k).
Proof.
  split; [| split].
  - destruct (list_boards_cache_effect p w) as [E | [bs [t [_ E]]]]; rewrite E.
    + repeat split.
    + cbn. repeat split. intros key Hk. apply lookup_insert_ne. congruence.
  - destruct (get_board_structure_cache_effect p w) as [E | [b0 [b [t [Hp [_ E]]]]]];
      rewrite E.
    + repeat split.
    + cbn. repeat split. intros key Hk. apply lookup_insert_ne.
      intros Heq. exact (Hk b0 Hp (eq_sym Heq)).
  - destruct (get_user_details_cache_effect p w) as [E | [u0 [k0 [u [t [Hp [Hk0 [_ E]]]]]]]];
      rewrite E.
    + repeat split.
    + cbn. repeat split. intros k Hk. apply lookup_insert_ne.
      intros Heq. subst k0. exact (Hk u0 Hp Hk0).
Qed.


(** ** Parameters and names the handlers do not accept *)

(** X13.  The five resource handlers that take parameters test for them
    before anything else: called with a dict that lacks the parameter they
    raise a [ValueError] saying which is required, and the world is
    untouched: no limiter call, no POST, no clock reading, no cache
    access.  [list_items_by_status] needs both its parameters and has one
    message for either. *)
Theorem resource_parameters_required (p : list (string * json)) (w : world) :
  (assoc "board_id" p = None ->
   get_board_structure (JObj p) w =
     (inl (ValueError "board_id parameter is required"), w) /\
   list_items_by_board (JObj p) w =
     (inl (ValueError "board_id parameter is required"), w) /\
   list_items_by_status (JObj p) w =
     (inl (ValueError "board_id and status parameters are required"), w)) /\
  (assoc "status" p = None ->
   list_items_by_status (JObj p) w =
     (inl (ValueError "board_id and status parameters are required"), w)) /\
  (assoc "user_id" p = None ->
   get_user_details (JObj p) w =
     (inl (ValueError "user_id parameter is required"), w) /\
   get_user_workload (JObj p) w =
     (inl (ValueError "user_id parameter is required"), w)).
Proof.
  split; [| split].
  - intros Hk. repeat split.
    + unfold get_board_structure, bind, lift, raise. cbn. rewrite Hk. reflexivity.
    + unfold list_items_by_board, bind, lift, raise. cbn. rewrite Hk. reflexivity.
    + unfold list_items_by_status, bind, lift, raise, ret. cbn. rewrite Hk. reflexivity.
  - intros Hk. unfold list_items_by_status, bind, lift, raise, ret. cbn. rewrite Hk.
    destruct (assoc "board_id" p); reflexivity.
  - intros Hk. split.
    + unfold get_user_details, bind, lift, raise. cbn. rewrite Hk. reflexivity.
    + unfold get_user_workload, bind, lift, raise. cbn. rewrite Hk. reflexivity.
Qed.

(** X14.  The tools do not test for their parameters: they subscript the
    dict in a fixed order, so a call that lacks a required parameter ends
    with the [KeyError] of the first one missing, before the limiter is
    asked and with the world untouched.  [group_id] and [column_values]
    of [create_item] are read with [get] and are never among them. *)
Theorem tool_parameters_required (p : list (string * json)) (w : world) :
  (assoc "board_id" p = None ->
   create_item (JObj p) w = (inl (KeyError (JStr "board_id")), w)) /\
  (assoc "board_id" p <> None -> assoc "item_name" p = None ->
   create_item (JObj p) w = (inl (KeyError (JStr "item_name")), w)) /\
  (assoc "item_id" p = None ->
   update_item_status (JObj p) w = (inl (KeyError (JStr "item_id")), w) /\
   assign_user_to_item (JObj p) w = (inl (KeyError (JStr "item_id")), w) /\
   add_update_to_item (JObj p) w = (inl (KeyError (JStr "item_id")), w)) /\
  (assoc "item_id" p <> None ->
   (assoc "status_column_id" p = None ->
    update_item_status (JObj p) w = (inl (KeyError (JStr "status_column_id")), w)) /\
   (assoc "status_column_id" p <> None -> assoc "new_status" p = None ->
    update_item_status (JObj p) w = (inl (KeyError (JStr "new_status")), w)) /\
   (assoc "user_id" p = None ->
    assign_user_to_item (JObj p) w = (inl (KeyError (JStr "user_id")), w)) /\
   (assoc "user_id" p <> None -> assoc "person_column_id" p = None ->
    assign_user_to_item (JObj p) w = (inl (KeyError (JStr "person_column_id")), w)) /\
   (assoc "update_text" p = None ->
    add_update_to_item (JObj p) w = (inl (KeyError (JStr "update_text")), w))).
Proof.
  unfold create_item, update_item_status, assign_user_to_item, add_update_to_item,
    bind, lift.
  split; [| split; [| split]].
  - intros Hk. cbn. rewrite Hk. reflexivity.
  - intros Hb Hk. cbn. destruct (assoc "board_id" p); [| congruence].
    cbn. rewrite Hk. reflexivity.
  - intros Hk. cbn. rewrite Hk. repeat split.
  - intros Hi. cbn. destruct (assoc "item_id" p) as [item_id |]; [| congruence].
    cbn. split; [| split; [| split; [| split]]].
    + intros Hk. rewrite Hk. reflexivity.
    + intros Hs Hk. destruct (assoc "status_column_id" p); [| congruence].
      cbn. rewrite Hk. reflexivity.
    + intros Hk. rewrite Hk. reflexivity.
    + intros Hu Hk. destruct (assoc "user_id" p); [| congruence].
      cbn. rewrite Hk. reflexivity.
    + intros Hk. rewrite Hk. reflexivity.
Qed.


Lemma is_str_neq (k : string) (v : json) : v <> JStr k -> is_str k v = false.
Proof.
  destruct v; cbn; try reflexivity. intros Hn.
  apply String.eqb_neq. congruence.
Qed.

Lemma call_tool_unresolved (name p : json) (w : world) :
  resolve name tool_handlers = inr None ->
  call_tool name p w = (inl (ValueError ("Tool " +:+ str name +:+ " not found")), w).
Proof. intros E. unfold call_tool, bind, lift. rewrite E. reflexivity. Qed.

Lemma resolve_unknown (name : json) (table : list (string * (json -> M json)))
      (k : Py.key) :
  hash name = inr k ->
  (forall s, name = JStr s -> handler s table = None) ->
  resolve name table = inr None.
Proof.
  intros Hk Hn. unfold resolve. rewrite Hk.
  destruct k as [| n | s]; try reflexivity.
  destruct name; cbn in Hk; try discriminate; inversion Hk; subst.
  rewrite (Hn s eq_refl). reflexivity.
Qed.

(** X15.  A name the server does not know is reported by name and costs
    nothing: a tool name or resource id that can be hashed and is no key
    of the table, a prompt id other than the three, a method other than
    the six (an absent one reads as [None]) each end in the [ValueError]
    that names them, in the world the call started in.  A list or dict
    sent as tool name or resource id is a [TypeError] of the table
    lookup. *)
Theorem unknown_names_rejected (w : world) :
  (forall name p k,
     hash name = inr k ->
     (forall s, name = JStr s -> handler s tool_handlers = None) ->
     call_tool name p w =
       (inl (ValueError ("Tool " +:+ str name +:+ " not found")), w)) /\
  (forall resource_id p k,
     hash resource_id = inr k ->
     (forall s, resource_id = JStr s -> handler s resource_handlers = None) ->
     read_resource resource_id p w =
       (inl (ValueError ("Resource " +:+ str resource_id +:+ " not found")), w)) /\
  (forall name p e,
     hash name = inl e ->
     call_tool name p w = (inl TypeError, w) /\
     read_resource name p w = (inl TypeError, w)) /\
  (forall prompt_id,
     ~ In prompt_id [JStr "project_initiation"; JStr "sprint_planning";
                     JStr "risk_management"] ->
     read_prompt prompt_id w =
       (inl (ValueError ("Prompt " +:+ str prompt_id +:+ " not found")), w)) /\
  (forall request method,
     get (JObj request) "method" JNull = inr method ->
     ~ In method [JStr "ListResources"; JStr "ReadResource"; JStr "ListTools";
                  JStr "CallTool"; JStr "ListPrompts"; JStr "ReadPrompt"] ->
     process_request (JObj request) w =
       (inl (ValueError ("Unsupported method: " +:+ str method)), w)).
Proof.
  split; [| split; [| split; [| split]]].
  - intros name p k Hk Hn. apply call_tool_unresolved.
    exact (resolve_unknown name tool_handlers k Hk Hn).
  - intros resource_id p k Hk Hn. unfold read_resource, bind, lift.
    rewrite (resolve_unknown resource_id resource_handlers k Hk Hn). reflexivity.
  - intros name p e He.
    assert (Et : e = TypeError) by (destruct name; cbn in He; congruence).
    subst e. unfold call_tool, read_resource, resolve, bind, lift. rewrite He.
    split; reflexivity.
  - intros prompt_id Hn. unfold read_prompt. cbn in Hn.
    rewrite !is_str_neq by (intros ->; tauto). reflexivity.
  - intros request method Hm Hn. cbn in Hm, Hn. injection Hm as Hm.
    unfold process_request, bind, lift. cbn [get]. rewrite Hm.
    rewrite !is_str_neq by (intros ->; tauto). reflexivity.
Qed.

(** ** Catalogs and tables *)

Lemma handler_in_table (s : string) (table : list (string * (json -> M json)))
      (h : json -> M json) :
  handler s table = Some h -> In s (map fst table).
Proof.
  induction table as [| [n h'] table IH]; cbn; [discriminate |].
  destruct (String.eqb_spec s n) as [-> | Hne]; [left; reflexivity |].
  intros E. right. exact (IH E).
Qed.

(** X16.  The catalogs advertise exactly what the tables handle.  Every
    name in the catalog of [list_tools] is a key of [tool_handlers], and
    [call_tool] on it is the call of that handler; and every key of
    [tool_handlers] and of [resource_handlers] is in the catalog of its
    kind: no tool or resource can be called that is not advertised. *)
Theorem catalogs_match_tables (w : world) (tools resources : json) :
  fst (list_tools w) = inr tools ->
  fst (list_resources w) = inr resources ->
  (forall name, In name (listed_names tools "tools") ->
     exists s h, name = JStr s /\ handler s tool_handlers = Some h /\
                 forall p w', call_tool name p w' = h p w') /\
  (forall s h, handler s tool_handlers = Some h ->
     In (JStr s) (listed_names tools "tools")) /\
  (forall s h, handler s resource_handlers = Some h ->
     In (JStr s) (listed_ids resources "resources")).
Proof.
  intros Ht Hr. cbn in Ht, Hr. inversion Ht; subst tools. inversion Hr; subst resources.
  clear Ht Hr. split; [| split].
  - intros name Hin. cbn in Hin.
    assert (Hres : forall s h, name = JStr s -> handler s tool_handlers = Some h ->
              exists s h, name = JStr s /\ handler s tool_handlers = Some h /\
                          forall p w', call_tool name p w' = h p w').
    { intros s h -> Hh. exists s, h. repeat split; auto.
      intros p w'. unfold call_tool, bind, lift, resolve. cbn [hash].
      rewrite Hh. reflexivity. }
    repeat (destruct Hin as [<- | Hin]; [eapply Hres; reflexivity |]).
    destruct Hin.
  - intros s h Hh. apply handler_in_table in Hh. cbn in Hh. cbn.
    intuition (subst; auto).
  - intros s h Hh. apply handler_in_table in Hh. cbn in Hh. cbn.
    intuition (subst; auto).
Qed.


(** X17.  Every prompt [list_prompts] advertises can be read, and what is
    read agrees with the advertisement: [read_prompt] on the entry's id
    returns, in an unchanged world, the content of a workflow whose name
    and description are those of the catalog entry and which has at least
    one step. *)
Theorem prompts_listed_and_consistent (w w' : world) (listing : json)
      (entries : list json) (entry : json) :
  fst (list_prompts w) = inr listing ->
  subscript listing "prompts" = inr (JList entries) ->
  In entry entries ->
  exists id c,
    subscript entry "id" = inr id /\
    read_prompt id w' = (inr (content c), w') /\
    subscript c "name" = subscript entry "name" /\
    subscript c "description" = subscript entry "description" /\
    exists step steps, subscript c "steps" = inr (JList (step :: steps)).
Proof.
  intros Hl Hs Hin. cbn in Hl. inversion Hl; subst listing; clear Hl.
  cbn in Hs. inversion Hs; subst entries; clear Hs.
  destruct Hin as [<- | [<- | [<- | []]]].
  - exists (JStr "project_initiation"), project_initiation. repeat split.
    eexists _, _. reflexivity.
  - exists (JStr "sprint_planning"), sprint_planning. repeat split.
    eexists _, _. reflexivity.
  - exists (JStr "risk_management"), risk_management. repeat split.
    eexists _, _. reflexivity.
Qed.

(** ** The shape of what is returned *)

Lemma returns_ret {A} (P : A -> Prop) (a : A) : P a -> returns P (ret a).
Proof. intros H w a' E. cbn in E. congruence. Qed.

Lemma returns_raise {A} (P : A -> Prop) (e : exn) : returns P (@raise A e).
Proof. intros w a E. discriminate. Qed.

Lemma returns_bind {A B} (P : B -> Prop) (m : M A) (k : A -> M B) :
  (forall a, returns P (k a)) -> returns P (bind m k).
Proof.
  intros Hk w b. unfold bind. destruct (m w) as [[e | a] w']; cbn.
  - discriminate.
  - apply Hk.
Qed.

Lemma returns_bind_lift {A B} (P : B -> Prop) (r : result A) (k : A -> M B) :
  (forall a, r = inr a -> returns P (k a)) -> returns P (bind (lift r) k).
Proof.
  intros Hk w b. unfold bind, lift. destruct r as [e | a]; cbn.
  - discriminate.
  - apply Hk. reflexivity.
Qed.

Ltac returns_step :=
  lazymatch goal with
  | |- returns _ (bind _ _) => apply returns_bind; intros ?
  | |- returns _ (raise _) => apply returns_raise
  | |- returns _ (ret _) => apply returns_ret
  | |- returns _ (if ?b then _ else _) => destruct b
  | |- returns _ (match ?x with _ => _ end) => destruct x
  end.

Ltac returns_leaf :=
  first [ eexists; reflexivity
        | eexists _, [], _; reflexivity
        | eexists _, [_], _; reflexivity ].

Lemma returns_resource_handlers (s : string) (h : json -> M json) (p : json) :
  handler s resource_handlers = Some h -> returns is_content (h p).
Proof.
  unfold resource_handlers. cbn [handler].
  repeat (destruct (String.eqb s _);
          [intros E; inversion E; subst;
           unfold list_boards, get_board_structure, list_items_by_board,
             list_items_by_status, list_overdue_items, get_user_details,
             get_user_workload;
           repeat returns_step; returns_leaf |]).
  discriminate.
Qed.

Lemma returns_tool_handlers (s : string) (h : json -> M json) (p : json) :
  handler s tool_handlers = Some h -> returns is_result (h p).
Proof.
  unfold tool_handlers. cbn [handler].
  repeat (destruct (String.eqb s _);
          [intros E; inversion E; subst;
           unfold create_item, update_item_status, assign_user_to_item,
             add_update_to_item;
           repeat returns_step; returns_leaf |]).
  discriminate.
Qed.

Lemma returns_read_resource (resource_id p : json) :
  returns is_content (read_resource resource_id p).
Proof.
  unfold read_resource. apply returns_bind_lift. intros found Hf.
  destruct (resolve_inv _ _ _ Hf) as [-> | [s [h [-> Hh]]]].
  - apply returns_raise.
  - exact (returns_resource_handlers s h _ Hh).
Qed.

Lemma returns_call_tool (name p : json) : returns is_result (call_tool name p).
Proof.
  unfold call_tool. apply returns_bind_lift. intros found Hf.
  destruct (resolve_inv _ _ _ Hf) as [-> | [s [h [-> Hh]]]].
  - apply returns_raise.
  - exact (returns_tool_handlers s h _ Hh).
Qed.

Lemma returns_read_prompt (prompt_id : json) : returns is_content (read_prompt prompt_id).
Proof. unfold read_prompt. repeat returns_step; returns_leaf. Qed.

Lemma returns_weaken {A} (P Q : A -> Prop) (m : M A) :
  (forall a, P a -> Q a) -> returns P m -> returns Q m.
Proof. intros HPQ H w a E. apply HPQ. exact (H w a E). Qed.

(** X18.  Whatever a request returns has one of five shapes, fixed by its
    kind: a read of a resource or of a prompt returns
    [{"content": <string>}], the string being [json.dumps] of the payload;
    a tool call returns [{"result": {...}}] whose first field is the
    ["id"] the upstream gave and whose last is a ["message"] string; and
    [process_request] returns one of these or one of the three catalogs.
    No handler hands back the upstream's answer unwrapped. *)
Theorem answers_are_enveloped (request : json) (w : world) (v : json) :
  (forall resource_id p, fst (read_resource resource_id p w) = inr v -> is_content v) /\
  (forall prompt_id, fst (read_prompt prompt_id w) = inr v -> is_content v) /\
  (forall name p, fst (call_tool name p w) = inr v -> is_result v) /\
  (fst (process_request request w) = inr v ->
   is_content v \/ is_result v \/
   is_catalog "resources" v \/ is_catalog "tools" v \/ is_catalog "prompts" v).
Proof.
  split; [| split; [| split]].
  - intros resource_id p. apply returns_read_resource.
  - intros prompt_id. apply returns_read_prompt.
  - intros name p. apply returns_call_tool.
  - revert w v.
    change (returns (fun v => is_content v \/ is_result v \/
                              is_catalog "resources" v \/ is_catalog "tools" v \/
                              is_catalog "prompts" v) (process_request request)).
    unfold process_request, list_resources, list_tools, list_prompts.
    repeat first
      [ lazymatch goal with
        | |- returns _ (read_resource _ _) =>
            apply (returns_weaken is_content); [tauto | apply returns_read_resource]
        | |- returns _ (read_prompt _) =>
            apply (returns_weaken is_content); [tauto | apply returns_read_prompt]
        | |- returns _ (call_tool _ _) =>
            apply (returns_weaken is_result); [tauto | apply returns_call_tool]
        end
      | returns_step ].
    + right; right; left. eexists; reflexivity.
    + right; right; right; left. eexists; reflexivity.
    + right; right; right; right. eexists; reflexivity.
Qed.


(** ** The two comprehensions of [list_items_by_status] *)

Lemma is_str_true (k : string) (v : json) : is_str k v = true <-> v = JStr k.
Proof.
  destruct v; cbn; try (split; [discriminate | congruence]).
  rewrite String.eqb_eq. split; congruence.
Qed.

(** X19.  The search for the status column returns the first column whose
    ["type"] is ["status"], and [None] when every column has another type.
    It does not skip what it cannot read: a column without a ["type"]
    that comes before any status column makes the search raise, even if a
    status column follows. *)
Theorem first_status_column_spec (cols : list json) :
  match first_status_column cols with
  | inr (Some col) =>
      exists before after,
        cols = (before ++ col :: after)%list /\
        subscript col "type" = inr (JStr "status") /\
        Forall other_column before
  | inr None => Forall other_column cols
  | inl e =>
      exists before col after,
        cols = (before ++ col :: after)%list /\
        subscript col "type" = inl e /\
        Forall other_column before
  end.
Proof.
  induction cols as [| c cols IH]; cbn.
  - constructor.
  - destruct (subscript c "type") as [e | t] eqn:Et.
    + exists [], c, cols. repeat split. exact Et. constructor.
    + destruct (is_str "status" t) eqn:Es.
      * apply is_str_true in Es. subst t.
        exists [], cols. repeat split. exact Et. constructor.
      * assert (Ho : other_column c).
        { exists t. split; [exact Et |]. intros ->. cbn in Es. discriminate. }
        destruct (first_status_column cols) as [e | [col |]].
        -- destruct IH as [before [col [after [-> [Hc Hb]]]]].
           exists (c :: before), col, after. repeat split; auto.
        -- destruct IH as [before [after [-> [Hc Hb]]]].
           exists (c :: before), after. repeat split; auto.
        -- constructor; assumption.
Qed.

Lemma filter_by_status_inr (its : list json) (status : json) (l : list json) :
  filter_by_status its status = inr l ->
  l = List.filter (has_status status) its /\
  (its = [] \/
   (exists s, status = JStr s) /\
   Forall (fun item => exists t, column_text item = inr (JStr t)) its).
Proof.
  revert l. induction its as [| item its IH]; intros l; cbn.
  - intros E. inversion E. split; [reflexivity | left; reflexivity].
  - unfold has_status, column_text.
    destruct (subscript item "column_values") as [e | cvs] eqn:E1; [discriminate |].
    destruct (item0 cvs) as [e | cv] eqn:E2; [discriminate |].
    destruct (subscript cv "text") as [e | text] eqn:E3; [discriminate |].
    destruct text as [| | | t | |]; cbn; try discriminate.
    destruct status as [| | | s | |]; cbn; try discriminate.
    destruct (filter_by_status its (JStr s)) as [e | rest]; [discriminate |].
    destruct (IH rest eq_refl) as [Hr Hall].
    intros E. inversion E; subst l; clear E. split.
    + unfold has_status, column_text in Hr. rewrite <- Hr. reflexivity.
    + right. split; [exists s; reflexivity |].
      apply List.Forall_cons.
      * exists t. unfold column_text. rewrite E1, E2, E3. reflexivity.
      * destruct Hall as [-> | [_ Hall]]; [apply List.Forall_nil | exact Hall].
Qed.

(** X20.  The status filter keeps, in order, exactly the items whose first
    column value has a text equal to the status up to [lower()].  It
    returns whenever the list is empty, whatever the status is; on a list
    with items it returns only if the status is a string and every item
    has such a text: one item without it fails the whole read instead of
    being left out. *)
Theorem filter_by_status_spec (its : list json) (status : json) :
  (forall l, filter_by_status its status = inr l ->
             l = List.filter (has_status status) its) /\
  ((exists l, filter_by_status its status = inr l) <->
   its = [] \/
   (exists s, status = JStr s) /\
   Forall (fun item => exists t, column_text item = inr (JStr t)) its).
Proof.
  split; [| split].
  - intros l E. exact (proj1 (filter_by_status_inr its status l E)).
  - intros [l E]. exact (proj2 (filter_by_status_inr its status l E)).
  - intros [-> | [[s ->] Hall]]; [exists []; reflexivity |].
    induction Hall as [| item its [t Ht] Hall IH]; [exists []; reflexivity |].
    destruct IH as [rest Hr]. cbn. unfold column_text in Ht.
    destruct (subscript item "column_values") as [e | cvs]; [discriminate |].
    destruct (item0 cvs) as [e | cv]; [discriminate |].
    rewrite Ht. cbn. rewrite Hr. eexists; reflexivity.
Qed.


(** ** The parameters a tool asks for *)

(** The goal of a call that got as far as [query_monday_api]: the log has
    grown. *)
Ltac reaches_limiter :=
  unfold bind, lift, ret; cbn [subscript get];
  repeat match goal with
         | H : assoc _ _ = Some _ |- _ => rewrite H; cbn [subscript get]
         end;
  match goal with
  | |- context [query_monday_api ?q ?v ?w] =>
      let Hlog := fresh "Hlog" in
      pose proof (query_monday_api_frame q v w) as [_ [_ Hlog]];
      destruct (query_monday_api q v w) as [[? | ?] ?]; cbn [fst snd] in *;
      repeat (break_match; cbn [fst snd]);
      destruct Hlog as [Hlog | Hlog]; rewrite Hlog;
      first [apply cons_neq | apply cons3_neq]
  end.

(** The goal of a call that lacks the parameter [k]: the list of required
    names cannot all be there, and the log has not grown. *)
Ltac stops_before_limiter k :=
  split;
  [ let HF := fresh "HF" in
    intros HF; exfalso; rewrite List.Forall_forall in HF;
    let x := fresh "x" in let Hx := fresh "Hx" in let Hne := fresh "Hne" in
    destruct (HF (JStr k) ltac:(cbn; tauto)) as [x [Hx Hne]];
    inversion Hx; subst x; congruence
  | let Hlog := fresh "Hlog" in
    intros Hlog; exfalso; apply Hlog; unfold bind, lift; cbn [subscript get];
    repeat match goal with
           | H : assoc _ _ = _ |- _ => rewrite H; cbn [subscript get]
           end;
    reflexivity ].

Ltac all_there :=
  split;
  [ intros _; reaches_limiter
  | intros _; repeat (apply List.Forall_cons; [eexists; split; [reflexivity | congruence] |]);
    apply List.Forall_nil ].

(** X21.  The ["required"] list of each tool in the catalog is accurate: a
    call of the tool gets as far as the limiter exactly when its
    parameters hold every name on that list.  With one of them missing the
    call stops before it, with all of them there it asks the limiter,
    whatever else the parameters hold. *)
Theorem tool_required_lists_are_accurate (w w' : world) (listing : json)
      (entries : list json) (entry parameters : json) (name : string)
      (required : list json) (p : list (string * json)) :
  fst (list_tools w) = inr listing ->
  subscript listing "tools" = inr (JList entries) ->
  In entry entries ->
  subscript entry "name" = inr (JStr name) ->
  subscript entry "parameters" = inr parameters ->
  subscript parameters "required" = inr (JList required) ->
  (Forall (fun r => exists k, r = JStr k /\ assoc k p <> None) required <->
   log (snd (call_tool (JStr name) (JObj p) w')) <> log w').
Proof.
  intros Hl Hs Hin Hn Hp Hr. cbn in Hl. inversion Hl; subst listing; clear Hl.
  cbn in Hs. inversion Hs; subst entries; clear Hs.
  destruct Hin as [<- | [<- | [<- | [<- | []]]]];
    cbn in Hn; inversion Hn; subst name; clear Hn;
    cbn in Hp; inversion Hp; subst parameters; clear Hp;
    cbn in Hr; inversion Hr; subst required; clear Hr;
    unfold call_tool, bind at 1, lift at 1; cbn [resolve hash handler tool_handlers
      String.eqb Ascii.eqb Bool.eqb].
  - unfold create_item.
    destruct (assoc "board_id" p) as [b |] eqn:E1;
      [destruct (assoc "item_name" p) as [n |] eqn:E2 |].
    + all_there.
    + stops_before_limiter "item_name".
    + stops_before_limiter "board_id".
  - unfold update_item_status.
    destruct (assoc "item_id" p) as [i |] eqn:E1;
      [destruct (assoc "status_column_id" p) as [c |] eqn:E2;
       [destruct (assoc "new_status" p) as [n |] eqn:E3 |] |].
    + all_there.
    + stops_before_limiter "new_status".
    + stops_before_limiter "status_column_id".
    + stops_before_limiter "item_id".
  - unfold assign_user_to_item.
    destruct (assoc "item_id" p) as [i |] eqn:E1;
      [destruct (assoc "user_id" p) as [u |] eqn:E2;
       [destruct (assoc "person_column_id" p) as [c |] eqn:E3 |] |].
    + all_there.
    + stops_before_limiter "person_column_id".
    + stops_before_limiter "user_id".
    + stops_before_limiter "item_id".
  - unfold add_update_to_item.
    destruct (assoc "item_id" p) as [i |] eqn:E1;
      [destruct (assoc "update_text" p) as [t |] eqn:E2 |].
    + all_there.
    + stops_before_limiter "update_text".
    + stops_before_limiter "item_id".
Qed.


(** ** What [list_items_by_status] answers, and what costs nothing *)

(** X22.  Whatever [list_items_by_status] returns is the content of a list
    of items each of which has the status asked for, up to [lower()]:
    no item with another status, and none without a status text, is ever
    in an answer. *)
Theorem list_items_by_status_answers (p : json) (w : world) (v : json) :
  fst (list_items_by_status p w) = inr v ->
  exists status l,
    subscript p "status" = inr status /\
    v = content (JList l) /\
    Forall (fun item => has_status status item = true) l.
Proof.
  revert w v.
  change (returns (fun v => exists status l,
                     subscript p "status" = inr status /\
                     v = content (JList l) /\
                     Forall (fun item => has_status status item = true) l)
            (list_items_by_status p)).
  unfold list_items_by_status.
  apply returns_bind; intros has_board. apply returns_bind; intros has_both.
  destruct (negb has_both); [apply returns_raise |].
  apply returns_bind; intros board_id.
  apply returns_bind_lift; intros status Hstatus.
  repeat first [ apply returns_raise
               | lazymatch goal with
                 | |- returns _ (bind (lift (filter_by_status _ _)) _) => fail
                 | |- returns _ (bind _ _) => apply returns_bind; intros ?
                 | |- returns _ (if ?b then _ else _) => destruct b
                 | |- returns _ (match ?x with _ => _ end) => destruct x
                 end ].
  apply returns_bind_lift; intros filtered Hf. apply returns_ret.
  exists status, filtered. split; [exact Hstatus |]. split; [reflexivity |].
  apply filter_by_status_inr in Hf. destruct Hf as [-> _].
  apply List.Forall_forall. intros item Hin.
  apply List.filter_In in Hin. tauto.
Qed.

(** X23.  Four kinds of request are answered from the code alone: the
    three listings and [ReadPrompt] end in the world they started in,
    whatever their [params] and whether they return or raise: no clock
    reading, no limiter call, no POST, no cache access. *)
Theorem static_requests_leave_world (request : list (string * json)) (method : string)
      (w : world) :
  assoc "method" request = Some (JStr method) ->
  In method ["ListResources"; "ListTools"; "ListPrompts"; "ReadPrompt"] ->
  snd (process_request (JObj request) w) = w.
Proof.
  intros Hm Hin. unfold process_request, bind at 1, lift at 1. cbn [get].
  rewrite Hm. unfold bind at 1, lift at 1. cbn [get].
  destruct Hin as [<- | [<- | [<- | [<- | []]]]]; cbn [is_str String.eqb Ascii.eqb Bool.eqb].
  - reflexivity.
  - reflexivity.
  - reflexivity.
  - unfold bind, lift, read_prompt.
    destruct (subscript _ "promptId") as [e | prompt_id]; cbn [fst snd]; [reflexivity |].
    repeat (break_match; cbn [fst snd]); reflexivity.
Qed.


End Server.

(** * Worked instances in the sample environment *)

(** The first request of a server just built is admitted: 999 of the
    daily budget left, one request in flight. *)
Lemma check_rate_limit_contract_witness :
  0 <= daily_of (init Sample.clock) /\
  fst (_check_rate_limit Sample.isoformat (init Sample.clock)) = inr true /\
  daily_of (snd (_check_rate_limit Sample.isoformat (init Sample.clock))) = 999 /\
  active_of (snd (_check_rate_limit Sample.isoformat (init Sample.clock))) = 1.
Proof.
  assert (H0 : 0 <= daily_of (init Sample.clock)) by (cbn; lia).
  split; [exact H0 |].
  destruct (check_rate_limit_contract Sample.isoformat (init Sample.clock) H0)
    as [_ [_ H]].
  destruct H as [Hr [Hd [Ha _]]]; [cbn; lia | cbn; lia |].
  split; [exact Hr |]. split; [exact Hd | exact Ha].
Defined.

(** A request to a server whose budget is used up is refused and changes
    nothing. *)
Lemma check_rate_limit_failure_frame_witness :
  (daily_of Sample.exhausted <= 0 \/
   10 <= active_of Sample.exhausted) /\
  (exists e, fst (_check_rate_limit Sample.isoformat Sample.exhausted) = inl e) /\
  srv (snd (_check_rate_limit Sample.isoformat Sample.exhausted)) = srv Sample.exhausted.
Proof.
  assert (H : daily_of Sample.exhausted <= 0 \/
              10 <= active_of Sample.exhausted)
    by (left; cbn; lia).
  split; [exact H |].
  exact (check_rate_limit_failure_frame Sample.isoformat Sample.exhausted H).
Defined.

(** Twelve requests at once, then one release: the eleventh and twelfth
    are refused and the count of requests in flight never passes ten. *)
Lemma quota_invariant_witness :
  paired Sample.isoformat (repeat Acquire 12 ++ [Release]) 0 (init Sample.clock) = true /\
  Forall quota_ok
    (states Sample.isoformat (repeat Acquire 12 ++ [Release]) (init Sample.clock)).
Proof.
  assert (H : paired Sample.isoformat (repeat Acquire 12 ++ [Release]) 0
                (init Sample.clock) = true) by reflexivity.
  split; [exact H |].
  exact (quota_invariant Sample.clock Sample.isoformat _ H).
Defined.

(** C2.  The limiter does not reset the daily budget when [reset_time]
    has passed.  A server built at second 0 has [reset_time] at second
    86400.  It answers 1000 reads of the overdue items, one POST each,
    which uses up [daily_remaining].  The next request arrives when the
    clock shows second 90001, after the time the error message gives for
    the reset.  [_check_rate_limit] still raises
    ["Rate limit exceeded. Resets at <second 86400>"], and so does the
    request: no POST is made, [daily_remaining] stays 0 and [reset_time]
    stays at second 86400. *)
Theorem check_rate_limit_after_reset_time :
  let w := serve Sample.next_day Sample.overdue_upstream Sample.isoformat
             Sample.dumps Sample.loads Sample.repr Sample.lower
             (repeat Sample.read_overdue 1000) (init Sample.next_day) in
  let r := process_request Sample.next_day Sample.overdue_upstream Sample.isoformat
             Sample.dumps Sample.loads Sample.repr Sample.lower
             Sample.read_boards w in
  posts (log w) = 1000%nat /\
  daily_of w = 0 /\
  reset_of w == 86400 /\
  Sample.next_day (ticks w) == 90001 /\
  fst (_check_rate_limit Sample.isoformat w) =
    inl (ValueError ("Rate limit exceeded. Resets at " +:+ Sample.isoformat 86400)) /\
  fst r = inl (ValueError ("Rate limit exceeded. Resets at "
                           +:+ Sample.isoformat 86400)) /\
  posts (log (snd r)) = 1000%nat /\
  daily_of (snd r) = 0 /\
  reset_of (snd r) == 86400.
Proof.
  vm_compute. repeat split; reflexivity.
Qed.

(** A mutation that cannot reach the upstream: the permit is taken, the
    connection fails, the permit is given back, once. *)
Lemma query_monday_api_releases_once_witness :
  _check_rate_limit Sample.isoformat (init Sample.clock) =
    (inr true, snd (_check_rate_limit Sample.isoformat (init Sample.clock))) /\
  fst (query_monday_api Sample.upstream Sample.isoformat Sample.repr
         (CreateUpdateMutation "5" "done") JNull (init Sample.clock)) =
    inl (LibraryError "ClientConnectorError" "Cannot connect to host api.monday.com") /\
  releases (log (snd (query_monday_api Sample.upstream Sample.isoformat Sample.repr
                        (CreateUpdateMutation "5" "done") JNull (init Sample.clock)))) =
    S (releases (log (init Sample.clock))).
Proof.
  assert (H : _check_rate_limit Sample.isoformat (init Sample.clock) =
              (inr true, snd (_check_rate_limit Sample.isoformat (init Sample.clock))))
    by reflexivity.
  split; [exact H |]. split; [reflexivity |].
  exact (proj2 (proj1 (query_monday_api_releases_once Sample.upstream Sample.isoformat
                         Sample.repr (CreateUpdateMutation "5" "done") JNull
                         (init Sample.clock)) _ _ H)).
Defined.

(** The upstream answers a user query with an error list next to its
    data; the caller gets the first message and no data. *)
Lemma query_monday_api_upstream_error_witness :
  0 < daily_of (init Sample.clock) /\
  active_of (init Sample.clock) < 10 /\
  Sample.upstream (posts (log (init Sample.clock))) (UserDetailsQuery "7")
    (or_empty JNull) = Responds (JObj Sample.user_not_found) /\
  assoc "errors" Sample.user_not_found =
    Some (JList (JObj [("message", JStr "User not found")] :: [])) /\
  assoc "message" [("message", JStr "User not found")] = Some (JStr "User not found") /\
  fst (query_monday_api Sample.upstream Sample.isoformat Sample.repr
         (UserDetailsQuery "7") JNull (init Sample.clock)) =
    inl (ValueError "Monday.com API Error: User not found").
Proof.
  assert (Hd : 0 < daily_of (init Sample.clock)) by (cbn; lia).
  assert (Ha : active_of (init Sample.clock) < 10) by (cbn; lia).
  repeat (split; [first [exact Hd | exact Ha | reflexivity] |]).
  exact (proj1 (query_monday_api_upstream_error Sample.upstream Sample.isoformat
                  Sample.repr (UserDetailsQuery "7") JNull (init Sample.clock)
                  Sample.user_not_found [("message", JStr "User not found")] []
                  "User not found" Hd Ha eq_refl eq_refl eq_refl)).
Defined.

(** The boards stored at second 1000 are served from the cache at second
    1299; at second 1300 the read goes upstream and the entry is replaced,
    stamped with the reading taken after the fetch.  The user stored at
    second 1000 and read at second 1300 is fetched again; the upstream
    answers with an error, and the stored entry is still there. *)
Lemma cached_read_ttl_witness :
  boards (cache (srv Sample.warm)) !! "all" = Some Sample.stored /\
  (Sample.clock (ticks Sample.warm) - timestamp Sample.stored < 300)%Q /\
  list_boards Sample.clock Sample.upstream Sample.isoformat Sample.dumps Sample.repr
    JNull Sample.warm =
    (inr (content Sample.dumps (data Sample.stored)), tick Sample.warm) /\
  ~ (Sample.clock (ticks Sample.stale) - timestamp Sample.stored < 300)%Q /\
  (exists bs,
     boards (cache (srv (snd (list_boards Sample.clock Sample.upstream Sample.isoformat
                                Sample.dumps Sample.repr JNull Sample.stale)))) !! "all" =
       Some {| timestamp := Sample.clock 1301; data := bs |}) /\
  subscript (JObj [("user_id", JNum 7)]) "user_id" = inr (JNum 7) /\
  hash (JNum 7) = inr (KNum 7) /\
  users (cache (srv Sample.stale)) !! KNum 7 = Some Sample.stored /\
  users (cache (srv (snd (get_user_details Sample.clock Sample.upstream Sample.isoformat
                            Sample.dumps Sample.repr (JObj [("user_id", JNum 7)])
                            Sample.stale)))) !! KNum 7 = Some Sample.stored.
Proof.
  assert (E : boards (cache (srv Sample.warm)) !! "all" = Some Sample.stored)
    by reflexivity.
  assert (Hf : (Sample.clock (ticks Sample.warm) - timestamp Sample.stored < 300)%Q)
    by (vm_compute; reflexivity).
  assert (Hs : ~ (Sample.clock (ticks Sample.stale) - timestamp Sample.stored < 300)%Q)
    by (vm_compute; discriminate).
  assert (Hp : subscript (JObj [("user_id", JNum 7)]) "user_id" = inr (JNum 7))
    by reflexivity.
  assert (Hk : hash (JNum 7) = inr (KNum 7)) by reflexivity.
  assert (Eu : users (cache (srv Sample.stale)) !! KNum 7 = Some Sample.stored)
    by reflexivity.
  pose proof (cached_read_ttl Sample.clock Sample.upstream Sample.isoformat
                Sample.dumps Sample.repr) as [Tb [_ Tu]].
  split; [exact E |]. split; [exact Hf |].
  split; [exact (proj2 (proj1 (Tb JNull Sample.warm Sample.stored E)) Hf) |].
  split; [exact Hs |].
  split.
  - destruct (proj2 (Tb JNull Sample.stale Sample.stored E) Hs) as [_ [_ Hok]].
    destruct (Hok _ eq_refl) as [bs [_ Hbs]].
    exists bs. exact Hbs.
  - split; [exact Hp |]. split; [exact Hk |]. split; [exact Eu |].
    destruct (proj2 (Tu (JObj [("user_id", JNum 7)]) (JNum 7) (KNum 7) Sample.stale
                        Sample.stored Hp Hk Eu) Hs) as [_ [Hfail _]].
    exact (Hfail _ eq_refl).
Defined.

(** The structure of board 42, stored at second 1000 and read at second
    1299: served as stored, server and log untouched. *)
Lemma cached_read_frame_witness :
  subscript (JObj [("board_id", JNum 42)]) "board_id" = inr (JNum 42) /\
  board_structure (cache (srv Sample.warm))
    !! ("structure-" +:+ str Sample.repr (JNum 42)) = Some Sample.stored /\
  (Sample.clock (ticks Sample.warm) - timestamp Sample.stored < 300)%Q /\
  fst (get_board_structure Sample.clock Sample.upstream Sample.isoformat Sample.dumps
         Sample.repr (JObj [("board_id", JNum 42)]) Sample.warm) =
    inr (content Sample.dumps (data Sample.stored)) /\
  srv (snd (get_board_structure Sample.clock Sample.upstream Sample.isoformat Sample.dumps
              Sample.repr (JObj [("board_id", JNum 42)]) Sample.warm)) = srv Sample.warm /\
  log (snd (get_board_structure Sample.clock Sample.upstream Sample.isoformat Sample.dumps
              Sample.repr (JObj [("board_id", JNum 42)]) Sample.warm)) = log Sample.warm.
Proof.
  assert (Hp : subscript (JObj [("board_id", JNum 42)]) "board_id" = inr (JNum 42))
    by reflexivity.
  assert (E : board_structure (cache (srv Sample.warm))
                !! ("structure-" +:+ str Sample.repr (JNum 42)) = Some Sample.stored)
    by reflexivity.
  assert (Hf : (Sample.clock (ticks Sample.warm) - timestamp Sample.stored < 300)%Q)
    by (vm_compute; reflexivity).
  split; [exact Hp |]. split; [exact E |]. split; [exact Hf |].
  exact (proj1 (proj2 (cached_read_frame Sample.clock Sample.upstream Sample.isoformat
                         Sample.dumps Sample.repr))
           (JObj [("board_id", JNum 42)]) (JNum 42) Sample.warm Sample.stored Hp E Hf).
Defined.

(** [get_user_details] is listed and resolves. *)
Lemma read_resource_listed_witness :
  fst (list_resources (init Sample.clock)) =
    inr (match fst (list_resources (init Sample.clock)) with
         | inr v => v | inl _ => JNull end) /\
  In (JStr "get_user_details")
     (listed_ids (match fst (list_resources (init Sample.clock)) with
                  | inr v => v | inl _ => JNull end) "resources") /\
  exists (s : string) (h : json -> M json),
    JStr "get_user_details" = JStr s /\
    handler s (resource_handlers Sample.clock Sample.upstream Sample.isoformat
                 Sample.dumps Sample.loads Sample.repr Sample.lower) = Some h /\
    read_resource Sample.clock Sample.upstream Sample.isoformat Sample.dumps Sample.loads
      Sample.repr Sample.lower (JStr "get_user_details") JNull Sample.warm =
      h (or_empty JNull) Sample.warm /\
    fst (read_resource Sample.clock Sample.upstream Sample.isoformat Sample.dumps
           Sample.loads Sample.repr Sample.lower (JStr "get_user_details") JNull
           Sample.warm) <>
      inl (resource_not_found Sample.repr (JStr "get_user_details")).
Proof.
  assert (Hl : fst (list_resources (init Sample.clock)) =
               inr (match fst (list_resources (init Sample.clock)) with
                    | inr v => v | inl _ => JNull end)) by reflexivity.
  assert (Hin : In (JStr "get_user_details")
                  (listed_ids (match fst (list_resources (init Sample.clock)) with
                               | inr v => v | inl _ => JNull end) "resources"))
    by (cbn; tauto).
  split; [exact Hl |]. split; [exact Hin |].
  exact (read_resource_listed Sample.clock Sample.upstream Sample.isoformat Sample.dumps
           Sample.loads Sample.repr Sample.lower (init Sample.clock) Sample.warm
           _ (JStr "get_user_details") JNull Hl Hin).
Defined.

(** [ReadResource] with empty [params]: the outcome is the [KeyError] of the
    subscript, a fault and not a [ValueError] of the server. *)
Lemma process_request_empty_params :
  fst (process_request Sample.clock Sample.upstream Sample.isoformat Sample.dumps
         Sample.loads Sample.repr Sample.lower
         (JObj [("method", JStr "ReadResource"); ("params", JObj [])])
         (init Sample.clock)) = inl (KeyError (JStr "resourceId")) /\
  fault (KeyError (JStr "resourceId")) /\
  forall msg,
    fst (process_request Sample.clock Sample.upstream Sample.isoformat Sample.dumps
           Sample.loads Sample.repr Sample.lower
           (JObj [("method", JStr "ReadResource"); ("params", JObj [])])
           (init Sample.clock)) <> inl (ValueError msg).
Proof.
  split; [reflexivity |]. split; [exact I |]. intros msg H. discriminate H.
Qed.

(** [CallTool] with a name and no parameters: [KeyError] for
    ["parameters"], state unchanged. *)
Lemma process_request_missing_field_witness :
  get (JObj [("method", JStr "CallTool"); ("params", JObj [("name", JStr "create_item")])])
      "params" (JObj []) = inr (JObj [("name", JStr "create_item")]) /\
  assoc "method" [("method", JStr "CallTool");
                  ("params", JObj [("name", JStr "create_item")])] =
    Some (JStr "CallTool") /\
  (exists name, assoc "name" [("name", JStr "create_item")] = Some name) /\
  assoc "parameters" [("name", JStr "create_item")] = None /\
  process_request Sample.clock Sample.upstream Sample.isoformat Sample.dumps
    Sample.loads Sample.repr Sample.lower
    (JObj [("method", JStr "CallTool"); ("params", JObj [("name", JStr "create_item")])])
    (init Sample.clock) = (inl (KeyError (JStr "parameters")), init Sample.clock).
Proof.
  assert (Hn : exists name, assoc "name" [("name", JStr "create_item")] = Some name)
    by (eexists; reflexivity).
  split; [reflexivity |]. split; [reflexivity |]. split; [exact Hn |].
  split; [reflexivity |].
  exact (proj1 (proj2 (proj2
           (process_request_missing_field Sample.clock Sample.upstream Sample.isoformat
              Sample.dumps Sample.loads Sample.repr Sample.lower
              [("method", JStr "CallTool"); ("params", JObj [("name", JStr "create_item")])]
              [("name", JStr "create_item")] (init Sample.clock) eq_refl)))
           eq_refl Hn eq_refl).
Defined.

(** * Worked instances of the further properties *)

(** A read of the boards by the exhausted server: nothing is sent. *)
Lemma refusing_server_sends_nothing_witness :
  refusing Sample.exhausted /\
  posts (log (snd (process_request Sample.clock Sample.upstream Sample.isoformat
                     Sample.dumps Sample.loads Sample.repr Sample.lower
                     Sample.read_boards Sample.exhausted))) =
    posts (log Sample.exhausted) /\
  rate_limits (srv (snd (process_request Sample.clock Sample.upstream Sample.isoformat
                           Sample.dumps Sample.loads Sample.repr Sample.lower
                           Sample.read_boards Sample.exhausted))) =
    rate_limits (srv Sample.exhausted).
Proof.
  assert (H : refusing Sample.exhausted) by (left; cbn; lia).
  split; [exact H |].
  exact (refusing_server_sends_nothing Sample.clock Sample.upstream Sample.isoformat
           Sample.dumps Sample.loads Sample.repr Sample.lower
           Sample.read_boards Sample.exhausted H).
Defined.

(** Three more reads later it is still so. *)
Lemma exhausted_server_stays_exhausted_witness :
  daily_of Sample.exhausted <= 0 /\
  posts (log (serve Sample.clock Sample.upstream Sample.isoformat Sample.dumps
                Sample.loads Sample.repr Sample.lower
                [Sample.read_boards; Sample.read_boards; Sample.read_boards]
                Sample.exhausted)) = posts (log Sample.exhausted) /\
  rate_limits (srv (serve Sample.clock Sample.upstream Sample.isoformat Sample.dumps
                      Sample.loads Sample.repr Sample.lower
                      [Sample.read_boards; Sample.read_boards; Sample.read_boards]
                      Sample.exhausted)) = rate_limits (srv Sample.exhausted).
Proof.
  assert (H : daily_of Sample.exhausted <= 0) by (cbn; lia).
  split; [exact H |].
  exact (exhausted_server_stays_exhausted Sample.clock Sample.upstream Sample.isoformat
           Sample.dumps Sample.loads Sample.repr Sample.lower
           [Sample.read_boards; Sample.read_boards; Sample.read_boards]
           Sample.exhausted H).
Defined.

(** The boards are fetched by a new server and read again a second later. *)
Lemma cached_read_repeats_witness :
  fst (list_boards Sample.clock Sample.upstream Sample.isoformat Sample.dumps Sample.repr
         JNull (init Sample.clock)) =
    inr (content Sample.dumps (JList [Sample.roadmap])) /\
  posts (log (snd (list_boards Sample.clock Sample.upstream Sample.isoformat
                     Sample.dumps Sample.repr JNull (init Sample.clock)))) =
    S (posts (log (init Sample.clock))) /\
  list_boards Sample.clock Sample.upstream Sample.isoformat Sample.dumps Sample.repr
    JNull
    (snd (list_boards Sample.clock Sample.upstream Sample.isoformat Sample.dumps
            Sample.repr JNull (init Sample.clock))) =
    (inr (content Sample.dumps (JList [Sample.roadmap])),
     tick (snd (list_boards Sample.clock Sample.upstream Sample.isoformat Sample.dumps
                  Sample.repr JNull (init Sample.clock)))).
Proof.
  split; [reflexivity |]. split; [reflexivity |].
  apply (proj1 (cached_read_repeats Sample.clock Sample.upstream Sample.isoformat
                  Sample.dumps Sample.repr) JNull JNull (init Sample.clock)).
  - reflexivity.
  - reflexivity.
  - vm_compute. reflexivity.
Defined.

(** The upstream answers the user query with an error: no entry for user
    7 is left behind. *)
Lemma failed_read_leaves_cache_witness :
  fst (get_user_details Sample.clock Sample.upstream Sample.isoformat Sample.dumps
         Sample.repr (JObj [("user_id", JNum 7)]) (init Sample.clock)) =
    inl (ValueError "Monday.com API Error: User not found") /\
  cache (srv (snd (get_user_details Sample.clock Sample.upstream Sample.isoformat
                     Sample.dumps Sample.repr (JObj [("user_id", JNum 7)])
                     (init Sample.clock)))) = cache (srv (init Sample.clock)).
Proof.
  assert (H : fst (get_user_details Sample.clock Sample.upstream Sample.isoformat
                     Sample.dumps Sample.repr (JObj [("user_id", JNum 7)])
                     (init Sample.clock)) =
              inl (ValueError "Monday.com API Error: User not found")) by reflexivity.
  split; [exact H |].
  exact (proj2 (proj2 (failed_read_leaves_cache Sample.clock Sample.upstream
                         Sample.isoformat Sample.dumps Sample.repr
                         (JObj [("user_id", JNum 7)]) (init Sample.clock) _)) H).
Defined.

(** The fetch of the boards by the warm server at second 1300 replaces
    [boards["all"]] and nothing else: the entry of user 7 is as stored. *)
Lemma cached_read_touches_own_key_witness :
  users (cache (srv (snd (list_boards Sample.clock Sample.upstream Sample.isoformat
                            Sample.dumps Sample.repr JNull Sample.stale)))) =
    users (cache (srv Sample.stale)) /\
  boards (cache (srv (snd (list_boards Sample.clock Sample.upstream Sample.isoformat
                             Sample.dumps Sample.repr JNull Sample.stale)))) !! "archive" =
    boards (cache (srv Sample.stale)) !! "archive".
Proof.
  destruct (proj1 (cached_read_touches_own_key Sample.clock Sample.upstream
                     Sample.isoformat Sample.dumps Sample.repr JNull Sample.stale))
    as [_ [_ [Hu Hb]]].
  split; [exact Hu |]. apply Hb. discriminate.
Defined.

(** Each handler on the empty dict, which is what [read_resource] passes
    when no parameters were sent. *)
Lemma resource_parameters_required_witness :
  assoc "board_id" [] = None /\
  assoc "user_id" [] = None /\
  get_board_structure Sample.clock Sample.upstream Sample.isoformat Sample.dumps
    Sample.repr (JObj []) (init Sample.clock) =
    (inl (ValueError "board_id parameter is required"), init Sample.clock) /\
  get_user_workload Sample.upstream Sample.isoformat Sample.dumps Sample.repr
    (JObj []) (init Sample.clock) =
    (inl (ValueError "user_id parameter is required"), init Sample.clock).
Proof.
  pose proof (resource_parameters_required Sample.clock Sample.upstream Sample.isoformat
                Sample.dumps Sample.loads Sample.repr Sample.lower [] (init Sample.clock))
    as [Hb [_ Hu]].
  split; [reflexivity |]. split; [reflexivity |].
  split; [exact (proj1 (Hb eq_refl)) | exact (proj2 (Hu eq_refl))].
Defined.

(** [create_item] with a board and no item name. *)
Lemma tool_parameters_required_witness :
  assoc "board_id" [("board_id", JNum 12345678)] <> None /\
  assoc "item_name" [("board_id", JNum 12345678)] = None /\
  create_item Sample.upstream Sample.isoformat Sample.dumps Sample.repr
    (JObj [("board_id", JNum 12345678)]) (init Sample.clock) =
    (inl (KeyError (JStr "item_name")), init Sample.clock).
Proof.
  assert (Hb : assoc "board_id" [("board_id", JNum 12345678)] <> None) by discriminate.
  split; [exact Hb |]. split; [reflexivity |].
  exact (proj1 (proj2 (tool_parameters_required Sample.upstream Sample.isoformat
                         Sample.dumps Sample.repr [("board_id", JNum 12345678)]
                         (init Sample.clock))) Hb eq_refl).
Defined.

(** A tool nobody registered. *)
Lemma unknown_names_rejected_witness :
  hash (JStr "nonexistent_tool") = inr (KStr "nonexistent_tool") /\
  call_tool Sample.upstream Sample.isoformat Sample.dumps Sample.repr
    (JStr "nonexistent_tool") (JObj []) (init Sample.clock) =
    (inl (ValueError "Tool nonexistent_tool not found"), init Sample.clock).
Proof.
  split; [reflexivity |].
  apply (proj1 (unknown_names_rejected Sample.clock Sample.upstream Sample.isoformat
                  Sample.dumps Sample.loads Sample.repr Sample.lower (init Sample.clock))
           (JStr "nonexistent_tool") (JObj []) (KStr "nonexistent_tool") eq_refl).
  intros s E. inversion E. reflexivity.
Defined.

(** The boards query at a new server: the upstream's object has no
    ["errors"] key, so what is under ["data"] is returned. *)
Lemma query_monday_api_returns_iff_witness :
  fst (query_monday_api Sample.upstream Sample.isoformat Sample.repr
         BoardsQuery JNull (init Sample.clock)) =
    inr (JObj [("boards", JList [Sample.roadmap])]).
Proof.
  apply (proj2 (query_monday_api_returns_iff Sample.upstream Sample.isoformat
                  Sample.repr BoardsQuery JNull (init Sample.clock)
                  (JObj [("boards", JList [Sample.roadmap])]))).
  split; [cbn; lia |]. split; [cbn; lia |].
  exists [("data", JObj [("boards", JList [Sample.roadmap])])].
  split; [reflexivity |]. split; reflexivity.
Defined.

(** [create_item] is advertised, and calling it is calling its handler. *)
Lemma catalogs_match_tables_witness :
  exists s h,
    JStr "create_item" = JStr s /\
    handler s (tool_handlers Sample.upstream Sample.isoformat Sample.dumps Sample.repr) =
      Some h /\
    forall p w',
      call_tool Sample.upstream Sample.isoformat Sample.dumps Sample.repr
        (JStr "create_item") p w' = h p w'.
Proof.
  apply (proj1 (catalogs_match_tables Sample.clock Sample.upstream Sample.isoformat
                  Sample.dumps Sample.loads Sample.repr Sample.lower
                  (init Sample.clock) _ _ eq_refl eq_refl)).
  left. reflexivity.
Defined.

(** The sprint planning prompt, as listed and as read. *)
Lemma prompts_listed_and_consistent_witness :
  exists id c,
    subscript (prompt "sprint_planning" "Sprint Planning"
                 "Move items from backlog to current sprint with estimates and priorities")
      "id" = inr id /\
    read_prompt Sample.dumps Sample.repr id Sample.warm =
      (inr (content Sample.dumps c), Sample.warm) /\
    subscript c "name" = inr (JStr "Sprint Planning") /\
    subscript c "description" =
      inr (JStr "Move items from backlog to current sprint with estimates and priorities") /\
    exists step steps, subscript c "steps" = inr (JList (step :: steps)).
Proof.
  apply (prompts_listed_and_consistent Sample.dumps Sample.repr
           (init Sample.clock) Sample.warm _ _
           (prompt "sprint_planning" "Sprint Planning"
              "Move items from backlog to current sprint with estimates and priorities")
           eq_refl eq_refl).
  right. left. reflexivity.
Defined.

(** The read of the boards is answered with a content envelope. *)
Lemma answers_are_enveloped_witness :
  is_content Sample.dumps (content Sample.dumps (JList [Sample.roadmap])).
Proof.
  apply (proj1 (answers_are_enveloped Sample.clock Sample.upstream Sample.isoformat
                  Sample.dumps Sample.loads Sample.repr Sample.lower
                  Sample.read_boards (init Sample.clock)
                  (content Sample.dumps (JList [Sample.roadmap])))
           (JStr "list_boards") JNull).
  reflexivity.
Defined.

(** Three items, two of them done: the filter keeps the first and the
    third. *)
Lemma filter_by_status_spec_witness :
  filter_by_status Sample.lower
    [Sample.item "1" "Done"; Sample.item "2" "Stuck"; Sample.item "3" "Done"]
    (JStr "Done") =
    inr [Sample.item "1" "Done"; Sample.item "3" "Done"] /\
  [Sample.item "1" "Done"; Sample.item "3" "Done"] =
    List.filter (has_status Sample.lower (JStr "Done"))
      [Sample.item "1" "Done"; Sample.item "2" "Stuck"; Sample.item "3" "Done"].
Proof.
  assert (H : filter_by_status Sample.lower
                [Sample.item "1" "Done"; Sample.item "2" "Stuck"; Sample.item "3" "Done"]
                (JStr "Done") =
              inr [Sample.item "1" "Done"; Sample.item "3" "Done"]) by reflexivity.
  split; [exact H |].
  exact (proj1 (filter_by_status_spec Sample.lower
                  [Sample.item "1" "Done"; Sample.item "2" "Stuck"; Sample.item "3" "Done"]
                  (JStr "Done")) _ H).
Defined.

(** [create_item] is listed with [board_id] and [item_name] required; a
    call that has both reaches the limiter. *)
Lemma tool_required_lists_are_accurate_witness :
  log (snd (call_tool Sample.upstream Sample.isoformat Sample.dumps Sample.repr
              (JStr "create_item")
              (JObj [("board_id", JNum 12345678); ("item_name", JStr "Write the report")])
              (init Sample.clock))) <> log (init Sample.clock).
Proof.
  apply (proj1 (tool_required_lists_are_accurate Sample.upstream Sample.isoformat
                  Sample.dumps Sample.loads Sample.repr Sample.lower
                  (init Sample.clock) (init Sample.clock) _ _ _ _ "create_item" _
                  [("board_id", JNum 12345678); ("item_name", JStr "Write the report")]
                  eq_refl eq_refl (or_introl eq_refl) eq_refl eq_refl eq_refl)).
  repeat (apply List.Forall_cons; [eexists; split; [reflexivity | discriminate] |]).
  apply List.Forall_nil.
Defined.

(** Board 42 holds three items; asked for those that are done, the server
    answers with a content whose items all have that status. *)
Lemma list_items_by_status_answers_witness :
  exists status l,
    subscript Sample.by_status "status" = inr status /\
    content Sample.dumps (JList [Sample.item "1" "Done"; Sample.item "3" "Done"]) =
      content Sample.dumps (JList l) /\
    Forall (fun item => has_status Sample.lower status item = true) l.
Proof.
  apply (list_items_by_status_answers Sample.clock Sample.board_upstream
           Sample.isoformat Sample.dumps Sample.loads_structure Sample.repr
           Sample.lower Sample.by_status (init Sample.clock)).
  reflexivity.
Defined.

(** A [ReadPrompt] request with no [params] raises and leaves the world
    as it was. *)
Lemma static_requests_leave_world_witness :
  snd (process_request Sample.clock Sample.upstream Sample.isoformat Sample.dumps
         Sample.loads Sample.repr Sample.lower
         (JObj [("method", JStr "ReadPrompt")]) Sample.warm) = Sample.warm.
Proof.
  apply (static_requests_leave_world Sample.clock Sample.upstream Sample.isoformat
           Sample.dumps Sample.loads Sample.repr Sample.lower
           [("method", JStr "ReadPrompt")] "ReadPrompt" Sample.warm eq_refl).
  cbn. tauto.
Defined.
